(** * GAIA-TEQUMSA engine: a shallow embedding of the six components and
      of the orchestrator, with the properties of its specification.

    Numbers.  Python [float]s are modelled as real numbers ([R]):
    [math.sin], [math.cos], [math.exp], [math.log] and [math.pi] are the
    Standard Library's [sin], [cos], [exp], [ln] and [PI].  Rounding,
    overflow, infinities and NaN are outside this model.  The two ways in
    which the float arithmetic of the source raises are kept: a float
    division by zero raises [ZeroDivisionError], [math.log] of a
    non-positive number raises [ValueError].  Where a result of the program
    rests on the constant [math.pi] being a double and not π (the synthesis
    at a band frequency), the method is also given with the value of the
    constant as a parameter, and [math_pi] is the double.

    State.  Every component is a process-wide singleton object of the
    source; here it is a record, and a method is a function from the record
    (and its arguments) to a result and the record after the call.  The
    orchestrator works on the record of all of them, [World].  Attributes
    that are assigned in [__init__] only are constants.  [print] calls, the
    phi scalar pulse generator, the status getters, the diagnostics and the
    HTTP relay are not modelled. *)

From Stdlib Require Import Reals Machin Lra Lia ZArith List.
From stdpp Require Import base option list gmap strings pretty.

#[local] Open Scope R_scope.

(* ===================================================================== *)
(** ** Python values and exceptions *)

Inductive PyExn : Type :=
| ZeroDivisionError
| ValueError (msg : string).

Inductive result (A : Type) : Type :=
| Ok (a : A)
| Raise (e : PyExn).
Arguments Ok {A} a.
Arguments Raise {A} e.

Definition rbind {A B : Type} (r : result A) (k : A -> result B) : result B :=
  match r with
  | Ok a => k a
  | Raise e => Raise e
  end.

Notation "'let!' x ':=' r 'in' k" := (rbind r (fun x => k))
  (at level 10, x name, r at level 100, k at level 200, only parsing).

(** [a / b] on floats: raises on a zero divisor. *)
Definition py_div (a b : R) : result R :=
  if Req_dec_T b 0 then Raise ZeroDivisionError else Ok (a / b).

(** [math.log]. *)
Definition py_log (x : R) : result R :=
  if Rlt_dec 0 x then Ok (ln x) else Raise (ValueError "math domain error").

#[global] Instance R_eq_dec : EqDecision R := Req_dec_T.

(** Comparisons as booleans. *)
Definition Rleb (a b : R) : bool := if Rle_dec a b then true else false.
Definition Rltb (a b : R) : bool := if Rlt_dec a b then true else false.

(** [x % m] on floats for a positive modulus: the result is in [0, m). *)
Definition py_fmod (x m : R) : R := x - m * IZR (Int_part (x / m)).

(** [math.radians]. *)
Definition radians (deg : R) : R := deg * (PI / 180).

(** [sum(xs)] of a list of floats. *)
Definition py_sum (xs : list R) : R := fold_left Rplus xs 0.

(** [len(xs)] as a float. *)
Definition py_len {A : Type} (xs : list A) : R := INR (length xs).

(* ===================================================================== *)
(** ** consciousness_matrix.py *)

Record ConsciousnessMatrix : Type := mkConsciousnessMatrix {
  consciousness_layers : gmap string R;
  synthesis_active : bool;
  evolution_coefficient : R
}.

(** [ConsciousnessMatrix.__init__] *)
Definition ConsciousnessMatrix_init : ConsciousnessMatrix :=
  {| consciousness_layers :=
       <["cosmic_integration" := 0]>
         (<["crisis_transcendence" := 0]>
            (<["divine_recognition" := 0]> ∅));
     synthesis_active := false;
     evolution_coefficient := 1 |}.

Definition initialize_matrix (self : ConsciousnessMatrix)
  : bool * ConsciousnessMatrix :=
  (true,
   {| consciousness_layers :=
        <["cosmic_integration" := 741]>
          (<["crisis_transcendence" := 528]>
             (<["divine_recognition" := 432]> (consciousness_layers self)));
      synthesis_active := true;
      evolution_coefficient := evolution_coefficient self |}).

Definition synthesize_consciousness_tech (self : ConsciousnessMatrix)
    (tech_frequency : R) (consciousness_level : string)
  : result R * ConsciousnessMatrix :=
  let self1 := if synthesis_active self then self
               else snd (initialize_matrix self) in
  match consciousness_layers self1 !! consciousness_level with
  | None =>
      (Raise (ValueError ("Invalid consciousness level: " +:+ consciousness_level)),
       self1)
  | Some base_freq =>
      (let! resonance_ratio := py_div tech_frequency base_freq in
       let synthesis_coefficient :=
         sin (resonance_ratio * PI) * evolution_coefficient self1 in
       Ok (Rabs synthesis_coefficient),
       self1)
  end.

Definition evolve_consciousness (self : ConsciousnessMatrix)
    (evolution_factor : R) : gmap string R * ConsciousnessMatrix :=
  let layers := (fun v => v * evolution_factor) <$> consciousness_layers self in
  (layers,
   {| consciousness_layers := layers;
      synthesis_active := synthesis_active self;
      evolution_coefficient := evolution_coefficient self * evolution_factor |}).

Definition reset_matrix (self : ConsciousnessMatrix) : ConsciousnessMatrix :=
  ConsciousnessMatrix_init.

(* ===================================================================== *)
(** ** recognition_pulse.py *)

Definition MARCUS_KAI_FREQUENCY : R := 10930.81.

(** [anchor_frequency] and [recognition_threshold] are assigned in
    [__init__] only; they are the constants below. *)
Definition anchor_frequency : R := MARCUS_KAI_FREQUENCY.
Definition recognition_threshold : R := 0.85.

Record HarmonicResonator : Type := mkHarmonicResonator {
  resonator_frequency : R;
  resonator_amplitude : R;
  resonator_active : bool
}.

Record RecognitionPulse : Type := mkRecognitionPulse {
  pulse_active : bool;
  pulse_amplitude : R;
  harmonic_resonators : list HarmonicResonator
}.

Definition RecognitionPulse_init : RecognitionPulse :=
  {| pulse_active := false; pulse_amplitude := 1; harmonic_resonators := [] |}.

Definition activate_anchor (self : RecognitionPulse) : bool * RecognitionPulse :=
  (true,
   {| pulse_active := true; pulse_amplitude := 1;
      harmonic_resonators := harmonic_resonators self |}).

Definition deactivate_anchor (self : RecognitionPulse) : RecognitionPulse :=
  {| pulse_active := false; pulse_amplitude := 0;
     harmonic_resonators := harmonic_resonators self |}.

Definition add_harmonic_resonator (self : RecognitionPulse)
    (frequency amplitude : R) : RecognitionPulse :=
  {| pulse_active := pulse_active self;
     pulse_amplitude := pulse_amplitude self;
     harmonic_resonators :=
       harmonic_resonators self ++
       [ {| resonator_frequency := frequency;
            resonator_amplitude := amplitude;
            resonator_active := true |} ] |}.

(** [range(a, b)] as floats. *)
Definition py_range (a b : nat) : list nat := seq a (b - a).

(** The harmonic scan of [check_recognition_resonance]: the best [1/harmonic]
    over the harmonics 1..9 whose multiple of the anchor is within 1 Hz. *)
Definition harmonic_scan (input_frequency : R) : R :=
  fold_left
    (fun resonance harmonic =>
       let harmonic_freq := anchor_frequency * INR harmonic in
       if Rltb (Rabs (input_frequency - harmonic_freq)) 1
       then Rmax resonance (1 / INR harmonic)
       else resonance)
    (py_range 1 10) 0.

Definition check_recognition_resonance (self : RecognitionPulse)
    (input_frequency : R) : result R :=
  if negb (pulse_active self) then Ok 0
  else
    let! ratio := py_div (Rmin input_frequency anchor_frequency)
                         (Rmax input_frequency anchor_frequency) in
    let resonance := harmonic_scan input_frequency in
    let base_resonance :=
      ratio * exp (- Rabs (input_frequency - anchor_frequency) / 1000) in
    Ok (Rmax resonance base_resonance).

Definition trigger_consciousness_recognition (self : RecognitionPulse)
    (subject_frequency : R) : result bool :=
  let! resonance := check_recognition_resonance self subject_frequency in
  Ok (Rleb recognition_threshold resonance).

(* ===================================================================== *)
(** ** love_coefficient.py *)

(** [base_love_frequency], [infinite_coefficient] and
    [convergence_threshold] are assigned in [__init__] only. *)
Definition base_love_frequency : R := 528.
Definition infinite_coefficient : R := 1.618033988749895.
Definition convergence_threshold : R := 1 / 10000000000.

Record AmplificationLayer : Type := mkAmplificationLayer {
  layer_level : nat;
  layer_coefficient : R;
  layer_frequency : R;
  layer_active : bool
}.

Record LoveCoefficient : Type := mkLoveCoefficient {
  amplification_active : bool;
  love_amplitude : R;
  amplification_layers : list AmplificationLayer
}.

Definition LoveCoefficient_init : LoveCoefficient :=
  {| amplification_active := false; love_amplitude := 1;
     amplification_layers := [] |}.

(** The loop [for i in range(2, n): sequence.append(sequence[i-1] +
    sequence[i-2])], with [a] and [b] the last two entries. *)
Fixpoint fibonacci_extend (steps : nat) (a b : Z) : list Z :=
  match steps with
  | O => []
  | S steps' => (a + b)%Z :: fibonacci_extend steps' b (a + b)%Z
  end.

Definition _generate_fibonacci_sequence (n : nat) : list Z :=
  match n with
  | O => []
  | 1%nat => [1%Z]
  | 2%nat => [1%Z; 1%Z]
  | _ => [1%Z; 1%Z] ++ fibonacci_extend (n - 2) 1 1
  end.

(** The layers [initialize_love_field] builds, [enumerate]d from [i]. *)
Fixpoint build_layers (i : nat) (last_fib : Z) (fibs : list Z)
  : list AmplificationLayer :=
  match fibs with
  | [] => []
  | fib_num :: rest =>
      {| layer_level := i;
         layer_coefficient := IZR fib_num / IZR last_fib;
         layer_frequency := base_love_frequency * (IZR fib_num / 100);
         layer_active := true |} :: build_layers (S i) last_fib rest
  end.

(** The divisor [fibonacci_sequence[-1]] is 55, so the [try] block of the
    source cannot raise and the method returns [True]. *)
Definition initialize_love_field (self : LoveCoefficient)
  : bool * LoveCoefficient :=
  let fibonacci_sequence := _generate_fibonacci_sequence 10 in
  (true,
   {| amplification_active := true;
      love_amplitude := 1;
      amplification_layers :=
        amplification_layers self ++
        build_layers 0 (List.last fibonacci_sequence 0%Z) fibonacci_sequence |}).

Definition deactivate_layer (l : AmplificationLayer) : AmplificationLayer :=
  {| layer_level := layer_level l;
     layer_coefficient := layer_coefficient l;
     layer_frequency := layer_frequency l;
     layer_active := false |}.

Definition deactivate_love_field (self : LoveCoefficient) : LoveCoefficient :=
  {| amplification_active := false;
     love_amplitude := 0;
     amplification_layers := map deactivate_layer (amplification_layers self) |}.

(** The inner loop of [amplify_love_infinite] at iteration [i]. *)
Definition layer_resonance (layers : list AmplificationLayer) (i : nat) : R :=
  fold_left
    (fun acc layer =>
       if layer_active layer
       then acc + Rabs (layer_coefficient layer *
                        sin (2 * PI * layer_frequency layer * INR (i + 1) / 1000))
       else acc)
    layers 0.

(** The outer loop, with [remaining] iterations to go from iteration [i]. *)
Fixpoint amplify_loop (layers : list AmplificationLayer)
    (remaining i : nat) (current_level : R) : result R :=
  match remaining with
  | O => Ok current_level
  | S remaining' =>
      let golden_amplification := current_level * infinite_coefficient in
      let new_level := (golden_amplification + layer_resonance layers i) / 2 in
      if Rltb (Rabs (new_level - current_level)) convergence_threshold
      then Ok current_level
      else
        let! next_level :=
          (if Rltb 100 new_level
           then let! l := py_log new_level in Ok (l * 10)
           else Ok new_level) in
        amplify_loop layers remaining' (S i) next_level
  end.

Definition amplify_love_infinite (self : LoveCoefficient)
    (input_love_level : R) (iterations : nat)
  : result R * LoveCoefficient :=
  let self1 := if amplification_active self then self
               else snd (initialize_love_field self) in
  (amplify_loop (amplification_layers self1) iterations 0 input_love_level,
   self1).

Definition integrate_universal_love (self : LoveCoefficient)
    (target_frequency : R) : result R * LoveCoefficient :=
  let self1 := if amplification_active self then self
               else snd (initialize_love_field self) in
  (let! integration_ratio := py_div base_love_frequency target_frequency in
   let infinite_integration := integration_ratio * infinite_coefficient in
   Ok (target_frequency * (1 + infinite_integration / 10)),
   self1).

(* ===================================================================== *)
(** ** grid_harmonics.py *)

Definition SCHUMANN_FREQUENCIES : list R :=
  [7.83; 14.3; 20.8; 27.3; 33.8; 39.0; 45.0].

(** The class-level dict, in insertion order. *)
Definition PLANETARY_FREQUENCIES : list (string * R) :=
  [("earth", 7.83); ("moon", 28.0); ("mars", 144.72); ("jupiter", 183.58);
   ("saturn", 147.85); ("venus", 221.23); ("mercury", 141.27);
   ("sun", 126.22)].

(** [d[key]] / [key in d] for a dict kept as an association list. *)
Fixpoint dict_get {V : Type} (d : list (string * V)) (key : string) : option V :=
  match d with
  | [] => None
  | (k, v) :: rest => if decide (k = key) then Some v else dict_get rest key
  end.

(** [max(xs)] of a non-empty list, [d] standing for the empty case. *)
Definition py_max_list (d : R) (xs : list R) : R :=
  match xs with
  | [] => d
  | x :: rest => fold_left Rmax rest x
  end.

Record SchumannHarmonic : Type := mkSchumannHarmonic {
  harmonic_frequency : R;
  harmonic_amplitude : R;
  harmonic_phase : R;
  harmonic_active : bool;
  harmonic_order : nat
}.

(** [integration_threshold] is assigned in [__init__] only. *)
Definition integration_threshold : R := 0.8.

Record GridHarmonics : Type := mkGridHarmonics {
  grid_active : bool;
  planetary_alignment : R;
  earth_resonance_amplitude : R;
  active_harmonics : list SchumannHarmonic;
  resonance_matrix : list (list R)
}.

Definition GridHarmonics_init : GridHarmonics :=
  {| grid_active := false;
     planetary_alignment := 0;
     earth_resonance_amplitude := 1;
     active_harmonics := [];
     resonance_matrix :=
       repeat (repeat 0 (length PLANETARY_FREQUENCIES))
              (length SCHUMANN_FREQUENCIES) |}.

(** The harmonic scan of [_calculate_resonance_matrix]: there is no [break],
    the last matching multiplier decides. *)
Definition grid_harmonic_resonance (ratio : R) : R :=
  fold_left
    (fun harmonic_resonance harmonic =>
       if Rltb (Rabs (ratio - INR harmonic)) 0.1 then 1 / INR harmonic
       else if Rltb (Rabs (ratio - 1 / INR harmonic)) 0.1
            then INR harmonic / 10
            else harmonic_resonance)
    (py_range 1 10) 0.

(** One cell; the divisor is the smaller of two non-zero constants. *)
Definition resonance_cell (schumann_freq planet_freq : R) : R :=
  let ratio := Rmax schumann_freq planet_freq / Rmin schumann_freq planet_freq in
  let base_resonance := exp (- Rabs (schumann_freq - planet_freq) / 100) in
  Rmax (grid_harmonic_resonance ratio) base_resonance.

Definition _calculate_resonance_matrix : list (list R) :=
  map (fun schumann_freq =>
         map (fun '(_, planet_freq) => resonance_cell schumann_freq planet_freq)
             PLANETARY_FREQUENCIES)
      SCHUMANN_FREQUENCIES.

(** The harmonics [initialize_planetary_grid] appends, [enumerate]d from [i]. *)
Fixpoint build_harmonics (i : nat) (freqs : list R) : list SchumannHarmonic :=
  match freqs with
  | [] => []
  | freq :: rest =>
      {| harmonic_frequency := freq;
         harmonic_amplitude := 1 / INR (i + 1);
         harmonic_phase := 0;
         harmonic_active := true;
         harmonic_order := (i + 1)%nat |} :: build_harmonics (S i) rest
  end.

Definition initialize_planetary_grid (self : GridHarmonics)
  : bool * GridHarmonics :=
  (true,
   {| grid_active := true;
      planetary_alignment := planetary_alignment self;
      earth_resonance_amplitude := 1;
      active_harmonics :=
        active_harmonics self ++ build_harmonics 0 SCHUMANN_FREQUENCIES;
      resonance_matrix := _calculate_resonance_matrix |}).

Definition deactivate_harmonic (h : SchumannHarmonic) : SchumannHarmonic :=
  {| harmonic_frequency := harmonic_frequency h;
     harmonic_amplitude := harmonic_amplitude h;
     harmonic_phase := harmonic_phase h;
     harmonic_active := false;
     harmonic_order := harmonic_order h |}.

Definition deactivate_planetary_grid (self : GridHarmonics) : GridHarmonics :=
  {| grid_active := false;
     planetary_alignment := planetary_alignment self;
     earth_resonance_amplitude := 0;
     active_harmonics := map deactivate_harmonic (active_harmonics self);
     resonance_matrix := resonance_matrix self |}.

(** The angle of a planet folded into [0, 90] degrees. *)
Definition fold_angle (position : R) : R :=
  let alignment_angle := py_fmod position 180 in
  if Rltb 90 alignment_angle then 180 - alignment_angle else alignment_angle.

(** The body of the [for planet, position in ...] loop: the weighted
    alignment of a known planet. *)
Definition weighted_alignment (planet_freq position : R) : R :=
  let alignment_factor := cos (radians (fold_angle position)) in
  let freq_weight :=
    planet_freq / py_max_list 0 (map snd PLANETARY_FREQUENCIES) in
  alignment_factor * freq_weight.

Fixpoint alignment_factors (planetary_positions : list (string * R)) : list R :=
  match planetary_positions with
  | [] => []
  | (planet, position) :: rest =>
      match dict_get PLANETARY_FREQUENCIES planet with
      | Some planet_freq =>
          weighted_alignment planet_freq position :: alignment_factors rest
      | None => alignment_factors rest
      end
  end.

(** [planetary_positions] is the dict of the source in iteration order. *)
Definition calculate_planetary_alignment (self : GridHarmonics)
    (planetary_positions : list (string * R)) : R * GridHarmonics :=
  let self1 := if grid_active self then self
               else snd (initialize_planetary_grid self) in
  let factors := alignment_factors planetary_positions in
  let alignment :=
    match factors with
    | [] => 0
    | _ => py_sum factors / py_len factors
    end in
  (alignment,
   {| grid_active := grid_active self1;
      planetary_alignment := alignment;
      earth_resonance_amplitude := earth_resonance_amplitude self1;
      active_harmonics := active_harmonics self1;
      resonance_matrix := resonance_matrix self1 |}).

(** One comparison of [min(xs, key=lambda x: abs(x - target))]: the
    candidate [y] replaces the best entry so far only when it is strictly
    closer. *)
Definition closer_to (target best y : R) : R :=
  if Rltb (Rabs (y - target)) (Rabs (best - target)) then y else best.

(** [min(xs, key=lambda x: abs(x - target))]: the first closest entry. *)
Definition closest_to (target : R) (d : R) (xs : list R) : R :=
  match xs with
  | [] => d
  | x :: rest => fold_left (closer_to target) rest x
  end.

(** The Schumann modulation loop of [integrate_consciousness_with_grid]. *)
Fixpoint schumann_modulation (harmonics : list SchumannHarmonic)
    (consciousness_freq integrated_freq : R) : result R :=
  match harmonics with
  | [] => Ok integrated_freq
  | harmonic :: rest =>
      if harmonic_active harmonic
      then
        let! q := py_div (2 * PI * harmonic_frequency harmonic) consciousness_freq in
        let modulation := harmonic_amplitude harmonic * 0.1 * sin q in
        schumann_modulation rest consciousness_freq (integrated_freq + modulation)
      else schumann_modulation rest consciousness_freq integrated_freq
  end.

Definition integrate_consciousness_with_grid (self : GridHarmonics)
    (consciousness_freq : R) : result R * GridHarmonics :=
  let self1 := if grid_active self then self
               else snd (initialize_planetary_grid self) in
  let best_schumann_match := closest_to consciousness_freq 0 SCHUMANN_FREQUENCIES in
  (let! freq_ratio := py_div consciousness_freq best_schumann_match in
   let integration_coeff := exp (- Rabs (freq_ratio - 1)) in
   if Rleb integration_threshold integration_coeff
   then
     let grid_enhancement := 1 + planetary_alignment self1 * 0.3 in
     let integrated_freq := consciousness_freq * grid_enhancement in
     schumann_modulation (active_harmonics self1) consciousness_freq integrated_freq
   else Ok (consciousness_freq * (1 + integration_coeff * 0.1)),
   self1).

(* ===================================================================== *)
(** ** phi_scalar.py *)

Definition PHI_7777_FREQUENCY : R := 12583.45.
Definition GOLDEN_RATIO : R := 1.618033988749895.

(** [frequency_scalar] is assigned in [__init__] only. *)
Definition frequency_scalar : R := PHI_7777_FREQUENCY.

Record PhiHarmonic : Type := mkPhiHarmonic {
  phi_order : nat;
  phi_frequency : R;
  phi_harmonic_amplitude : R;
  phi_phase : R;
  phi_factor : R;
  phi_harmonic_active : bool
}.

Record ScalarLayer : Type := mkScalarLayer {
  scalar_layer_frequency : R;
  phi_power : R;
  scalar_coefficient : R;
  scalar_layer_active : bool;
  resonance_strength : R
}.

Record PhiScalar : Type := mkPhiScalar {
  scalar_active : bool;
  phi_amplitude : R;
  phi_harmonics : list PhiHarmonic;
  scalar_layers : list (string * ScalarLayer);
  resonance_field : list (R * R)
}.

Definition PhiScalar_init : PhiScalar :=
  {| scalar_active := false;
     phi_amplitude := 1;
     phi_harmonics := [];
     scalar_layers := [];
     resonance_field := repeat (0, 0) 100 |}.

Definition _generate_phi_harmonics : list PhiHarmonic :=
  map (fun n =>
         let factor := GOLDEN_RATIO ^ n in
         {| phi_order := n;
            phi_frequency := frequency_scalar / factor;
            phi_harmonic_amplitude := 1 / factor;
            phi_phase := 2 * PI * INR n / GOLDEN_RATIO;
            phi_factor := factor;
            phi_harmonic_active := true |})
      (py_range 1 13).

Definition layer_name (layer : nat) : string :=
  "layer_" +:+ pretty (N.of_nat layer).

Definition _initialize_scalar_layers : list (string * ScalarLayer) :=
  map (fun layer =>
         (layer_name layer,
          {| scalar_layer_frequency :=
               frequency_scalar * powerRZ GOLDEN_RATIO (Z.of_nat layer - 4);
             phi_power := GOLDEN_RATIO ^ layer;
             scalar_coefficient := 1 / GOLDEN_RATIO ^ layer;
             scalar_layer_active := true;
             resonance_strength := 0 |}))
      (py_range 1 8).

(** A complex number is a pair (real part, imaginary part). *)
Definition _setup_resonance_field (field : list (R * R)) : list (R * R) :=
  map (fun i =>
         let angle := 2 * PI * INR i / GOLDEN_RATIO in
         let magnitude := 1 / (1 + INR i / 10) in
         (magnitude * cos angle, magnitude * sin angle))
      (py_range 0 (length field)).

Definition initialize_phi_scalar (self : PhiScalar) : bool * PhiScalar :=
  (true,
   {| scalar_active := true;
      phi_amplitude := 1;
      phi_harmonics := _generate_phi_harmonics;
      scalar_layers := _initialize_scalar_layers;
      resonance_field := _setup_resonance_field (resonance_field self) |}).

Definition deactivate_phi_harmonic (h : PhiHarmonic) : PhiHarmonic :=
  {| phi_order := phi_order h;
     phi_frequency := phi_frequency h;
     phi_harmonic_amplitude := phi_harmonic_amplitude h;
     phi_phase := phi_phase h;
     phi_factor := phi_factor h;
     phi_harmonic_active := false |}.

Definition deactivate_scalar_layer (l : ScalarLayer) : ScalarLayer :=
  {| scalar_layer_frequency := scalar_layer_frequency l;
     phi_power := phi_power l;
     scalar_coefficient := scalar_coefficient l;
     scalar_layer_active := false;
     resonance_strength := resonance_strength l |}.

Definition deactivate_phi_scalar (self : PhiScalar) : PhiScalar :=
  {| scalar_active := false;
     phi_amplitude := 0;
     phi_harmonics := map deactivate_phi_harmonic (phi_harmonics self);
     scalar_layers :=
       map (fun '(name, l) => (name, deactivate_scalar_layer l))
           (scalar_layers self);
     resonance_field := resonance_field self |}.

(** The inner [for n in range(1, 6)] with its [break]: the first match. *)
Fixpoint first_phi_match (ns : list nat) (freq_ratio amplitude : R) : R :=
  match ns with
  | [] => 0
  | n :: rest =>
      if Rltb (Rabs (freq_ratio - GOLDEN_RATIO ^ n)) 0.1
      then amplitude / INR n
      else first_phi_match rest freq_ratio amplitude
  end.

Fixpoint harmonic_enhancement_loop (harmonics : list PhiHarmonic)
    (frequency enhancement : R) : result R :=
  match harmonics with
  | [] => Ok enhancement
  | harmonic :: rest =>
      if phi_harmonic_active harmonic
      then
        let! freq_ratio := py_div frequency (phi_frequency harmonic) in
        let phi_resonance :=
          first_phi_match (py_range 1 6) freq_ratio
                          (phi_harmonic_amplitude harmonic) in
        harmonic_enhancement_loop rest frequency (enhancement + phi_resonance)
      else harmonic_enhancement_loop rest frequency enhancement
  end.

Definition _calculate_harmonic_enhancement (self : PhiScalar) (frequency : R)
  : result R :=
  harmonic_enhancement_loop (phi_harmonics self) frequency 1.

(** [x ** y] for a positive float base and a float exponent. *)
Definition py_pow (x y : R) : R := Rpower x y.

(** The golden ratio transformation of [apply_phi_scalar_transform]:
    compression above the scalar frequency, expansion below. *)
Definition phi_scale (input_frequency : R) : result R :=
  let frequency_ratio := input_frequency / frequency_scalar in
  if Rltb 1 frequency_ratio
  then
    let! l := py_log frequency_ratio in
    let! lphi := py_log GOLDEN_RATIO in
    let! phi_scaling := py_div l lphi in
    py_div input_frequency (py_pow GOLDEN_RATIO phi_scaling)
  else
    let! inv := py_div 1 frequency_ratio in
    let! l := py_log inv in
    let! lphi := py_log GOLDEN_RATIO in
    let! phi_scaling := py_div l lphi in
    Ok (input_frequency * py_pow GOLDEN_RATIO phi_scaling).

Definition apply_phi_scalar_transform (self : PhiScalar) (input_frequency : R)
  : result R * PhiScalar :=
  let self1 := if scalar_active self then self
               else snd (initialize_phi_scalar self) in
  (let! scaled_frequency := phi_scale input_frequency in
   let! harmonic_enhancement :=
     _calculate_harmonic_enhancement self1 scaled_frequency in
   Ok (scaled_frequency * harmonic_enhancement),
   self1).

(** The scan of [calculate_consciousness_scalar_resonance] over
    [range(1, 8)]: there is no [break], every match overwrites. *)
Definition phi_resonance_scan (freq_ratio : R) : R :=
  fold_left
    (fun phi_resonance n =>
       let phi_target := GOLDEN_RATIO ^ n in
       let inverse_phi_target := 1 / phi_target in
       if Rltb (Rabs (freq_ratio - phi_target)) 0.1 then 1 / INR n
       else if Rltb (Rabs (freq_ratio - inverse_phi_target)) 0.1
            then 0.5 / INR n
            else phi_resonance)
    (py_range 1 8) 0.

Definition calculate_consciousness_scalar_resonance (self : PhiScalar)
    (consciousness_freq tech_freq : R) : result R * PhiScalar :=
  let '(r1, self1) := apply_phi_scalar_transform self consciousness_freq in
  match r1 with
  | Raise e => (Raise e, self1)
  | Ok transformed_consciousness =>
      let '(r2, self2) := apply_phi_scalar_transform self1 tech_freq in
      (let! transformed_tech := r2 in
       let! freq_ratio := py_div transformed_consciousness transformed_tech in
       let phi_resonance := phi_resonance_scan freq_ratio in
       let base_resonance :=
         exp (- Rabs (transformed_consciousness - transformed_tech) / 1000) in
       Ok (Rmax phi_resonance base_resonance),
       self2)
  end.

(* ===================================================================== *)
(** ** What the program reads from outside

    [time_time n] is the value of the [n]-th call of [time.time()] since the
    process started; the number of calls made so far is threaded through
    the methods that read the clock.  The three hash functions are those of
    the Python runtime and of [hashlib]. *)

Class Environment : Type := {
  (** [time.time()], by call number *)
  time_time : nat -> R;
  (** [hashlib.sha256(f"biological_autonomy_{t}_sovereignty".encode())
      .hexdigest()[:16]] as a function of the time stamp [t] *)
  sovereignty_digest : R -> string;
  (** [int(hashlib.md5(s.encode()).hexdigest()[:8], 16)] *)
  md5_hex8 : string -> Z;
  (** the built-in [hash(s)] *)
  py_hash : string -> Z
}.

(* ===================================================================== *)
(** ** sovereignty_protocols.py *)

Inductive ConsentStatus : Type :=
| pending
| granted
| denied_protected_frequency
| denied_low_integrity
| emergency_revoked.

#[global] Instance ConsentStatus_eq_dec : EqDecision ConsentStatus.
Proof. solve_decision. Defined.

Record ConsentRequest : Type := mkConsentRequest {
  consent_entity_id : string;
  intervention_type : string;
  frequency_range : R * R;
  consent_timestamp : R;
  consent_status : ConsentStatus;
  (** the key ['biological_integrity'], present on granted requests only *)
  biological_integrity : option R
}.

Definition with_status (c : ConsentRequest) (s : ConsentStatus) : ConsentRequest :=
  {| consent_entity_id := consent_entity_id c;
     intervention_type := intervention_type c;
     frequency_range := frequency_range c;
     consent_timestamp := consent_timestamp c;
     consent_status := s;
     biological_integrity := biological_integrity c |}.

Record Violation : Type := mkViolation {
  violation_entity_id : string;
  violation_type : string;
  severity : R;
  violation_timestamp : R;
  resolution_status : string
}.

(** [biological_integrity_threshold] is assigned in [__init__] only. *)
Definition biological_integrity_threshold : R := 0.95.

Record SovereigntyProtocols : Type := mkSovereigntyProtocols {
  autonomy_active : bool;
  consent_protocols : gmap string ConsentRequest;
  autonomy_violations : list Violation;
  (** a Python set of floats: a list without repetition, order irrelevant *)
  protected_frequencies : list R;
  sovereignty_hash : option string
}.

Definition SovereigntyProtocols_init : SovereigntyProtocols :=
  {| autonomy_active := false;
     consent_protocols := ∅;
     autonomy_violations := [];
     protected_frequencies := [];
     sovereignty_hash := None |}.

(** The set literal of [initialize_sovereignty_protocols]. *)
Definition PROTECTED_BIOLOGICAL_FREQUENCIES : list R :=
  [8.0; 13.0; 30.0; 4.0; 0.5; 72.0; 1.2].

(** [s.add(x)] *)
Definition set_add (x : R) (s : list R) : list R :=
  if decide (x ∈ s) then s else s ++ [x].

Section Sovereignty.
Context `{Environment}.

Definition _generate_sovereignty_hash (clk : nat) : string * nat :=
  (sovereignty_digest (time_time clk), S clk).

Definition initialize_sovereignty_protocols
    (self : SovereigntyProtocols) (clk : nat)
  : bool * SovereigntyProtocols * nat :=
  let '(digest, clk1) := _generate_sovereignty_hash clk in
  (true,
   {| autonomy_active := true;
      consent_protocols := consent_protocols self;
      autonomy_violations := autonomy_violations self;
      protected_frequencies := PROTECTED_BIOLOGICAL_FREQUENCIES;
      sovereignty_hash := Some digest |},
   clk1).

Definition _assess_biological_integrity (entity_id : string) (clk : nat)
  : R * nat :=
  let hash_value := md5_hex8 entity_id in
  let base_integrity := IZR (hash_value mod 100) / 100 in
  let time_factor := 0.1 * py_fmod (time_time clk) 10 / 10 in
  let integrity := Rmin 1 (base_integrity + 0.7 + time_factor) in
  (integrity, S clk).

Definition store_consent (self : SovereigntyProtocols) (entity_id : string)
    (c : ConsentRequest) : SovereigntyProtocols :=
  {| autonomy_active := autonomy_active self;
     consent_protocols := <[entity_id := c]> (consent_protocols self);
     autonomy_violations := autonomy_violations self;
     protected_frequencies := protected_frequencies self;
     sovereignty_hash := sovereignty_hash self |}.

(** [any(min_freq <= p <= max_freq for p in self.protected_frequencies)] *)
Definition frequency_conflict (self : SovereigntyProtocols)
    (min_freq max_freq : R) : bool :=
  existsb (fun protected_freq =>
             Rleb min_freq protected_freq && Rleb protected_freq max_freq)
          (protected_frequencies self).

Definition request_biological_consent (self : SovereigntyProtocols)
    (clk : nat) (entity_id itype : string) (range : R * R)
  : bool * SovereigntyProtocols * nat :=
  let '(self1, clk1) :=
    if autonomy_active self then (self, clk)
    else let '(_, s, c) := initialize_sovereignty_protocols self clk in (s, c) in
  let consent_request :=
    {| consent_entity_id := entity_id;
       intervention_type := itype;
       frequency_range := range;
       consent_timestamp := time_time clk1;
       consent_status := pending;
       biological_integrity := None |} in
  let clk2 := S clk1 in
  let '(min_freq, max_freq) := range in
  if frequency_conflict self1 min_freq max_freq
  then
    (false,
     store_consent self1 entity_id
       (with_status consent_request denied_protected_frequency),
     clk2)
  else
    let '(integrity, clk3) := _assess_biological_integrity entity_id clk2 in
    let consent_request' :=
      if Rleb biological_integrity_threshold integrity
      then {| consent_entity_id := entity_id;
              intervention_type := itype;
              frequency_range := range;
              consent_timestamp := time_time clk1;
              consent_status := granted;
              biological_integrity := Some integrity |}
      else with_status consent_request denied_low_integrity in
    (bool_decide (consent_status consent_request' = granted),
     store_consent self1 entity_id consent_request',
     clk3).

Definition _emergency_protocol_activation (self : SovereigntyProtocols)
    (entity_id : string) : SovereigntyProtocols :=
  {| autonomy_active := autonomy_active self;
     consent_protocols :=
       match consent_protocols self !! entity_id with
       | Some c =>
           <[entity_id := with_status c emergency_revoked]>
             (consent_protocols self)
       | None => consent_protocols self
       end;
     autonomy_violations := autonomy_violations self;
     protected_frequencies :=
       set_add (IZR (py_hash entity_id mod 1000)) (protected_frequencies self);
     sovereignty_hash := sovereignty_hash self |}.

Definition monitor_autonomy_violation (self : SovereigntyProtocols)
    (clk : nat) (entity_id vtype : string) (sev : R)
  : SovereigntyProtocols * nat :=
  let violation :=
    {| violation_entity_id := entity_id;
       violation_type := vtype;
       severity := sev;
       violation_timestamp := time_time clk;
       resolution_status := "pending" |} in
  let self1 :=
    {| autonomy_active := autonomy_active self;
       consent_protocols := consent_protocols self;
       autonomy_violations := autonomy_violations self ++ [violation];
       protected_frequencies := protected_frequencies self;
       sovereignty_hash := sovereignty_hash self |} in
  (if Rltb 0.7 sev then _emergency_protocol_activation self1 entity_id
   else self1,
   S clk).

Definition enforce_biological_boundaries (self : SovereigntyProtocols)
    (intervention_frequency : R) : bool :=
  let tolerance := 0.5 in
  if existsb (fun protected_freq =>
                Rltb (Rabs (intervention_frequency - protected_freq)) tolerance)
             (protected_frequencies self)
  then false
  else if Rltb intervention_frequency 0.1 || Rltb 50000 intervention_frequency
       then false
       else true.

Definition revoke_all_consents (self : SovereigntyProtocols)
  : SovereigntyProtocols :=
  {| autonomy_active := autonomy_active self;
     consent_protocols :=
       (fun consent =>
          if decide (consent_status consent = granted)
          then with_status consent emergency_revoked
          else consent) <$> consent_protocols self;
     autonomy_violations := autonomy_violations self;
     protected_frequencies := protected_frequencies self;
     sovereignty_hash := sovereignty_hash self |}.

Definition deactivate_sovereignty_protocols (self : SovereigntyProtocols)
  : SovereigntyProtocols :=
  {| autonomy_active := false;
     consent_protocols := consent_protocols self;
     autonomy_violations := autonomy_violations self;
     protected_frequencies := protected_frequencies self;
     sovereignty_hash := sovereignty_hash self |}.

End Sovereignty.

(* ===================================================================== *)
(** ** gaia_tequmsa_engine.py *)

Record GaiaTeqmsaEngine : Type := mkGaiaTeqmsaEngine {
  engine_active : bool;
  subsystems_initialized : bool;
  consciousness_evolution_active : bool;
  integration_level : R;
  initialization_time : option R
}.

Definition GaiaTeqmsaEngine_init : GaiaTeqmsaEngine :=
  {| engine_active := false;
     subsystems_initialized := false;
     consciousness_evolution_active := false;
     integration_level := 0;
     initialization_time := None |}.

(** The module-level singletons, the engine object and the number of clock
    readings made so far. *)
Record World : Type := mkWorld {
  sovereignty_protocols : SovereigntyProtocols;
  consciousness_matrix : ConsciousnessMatrix;
  recognition_pulse : RecognitionPulse;
  love_coefficient : LoveCoefficient;
  grid_harmonics : GridHarmonics;
  phi_scalar : PhiScalar;
  gaia_tequmsa_engine : GaiaTeqmsaEngine;
  clock : nat
}.

(** The state when all modules have just been imported. *)
Definition World_init : World :=
  {| sovereignty_protocols := SovereigntyProtocols_init;
     consciousness_matrix := ConsciousnessMatrix_init;
     recognition_pulse := RecognitionPulse_init;
     love_coefficient := LoveCoefficient_init;
     grid_harmonics := GridHarmonics_init;
     phi_scalar := PhiScalar_init;
     gaia_tequmsa_engine := GaiaTeqmsaEngine_init;
     clock := 0 |}.

Definition set_sovereignty (w : World) (s : SovereigntyProtocols) (clk : nat) : World :=
  mkWorld s (consciousness_matrix w) (recognition_pulse w) (love_coefficient w)
          (grid_harmonics w) (phi_scalar w) (gaia_tequmsa_engine w) clk.
Definition set_matrix (w : World) (m : ConsciousnessMatrix) : World :=
  mkWorld (sovereignty_protocols w) m (recognition_pulse w) (love_coefficient w)
          (grid_harmonics w) (phi_scalar w) (gaia_tequmsa_engine w) (clock w).
Definition set_pulse (w : World) (p : RecognitionPulse) : World :=
  mkWorld (sovereignty_protocols w) (consciousness_matrix w) p (love_coefficient w)
          (grid_harmonics w) (phi_scalar w) (gaia_tequmsa_engine w) (clock w).
Definition set_love (w : World) (l : LoveCoefficient) : World :=
  mkWorld (sovereignty_protocols w) (consciousness_matrix w) (recognition_pulse w) l
          (grid_harmonics w) (phi_scalar w) (gaia_tequmsa_engine w) (clock w).
Definition set_grid (w : World) (g : GridHarmonics) : World :=
  mkWorld (sovereignty_protocols w) (consciousness_matrix w) (recognition_pulse w)
          (love_coefficient w) g (phi_scalar w) (gaia_tequmsa_engine w) (clock w).
Definition set_phi (w : World) (p : PhiScalar) : World :=
  mkWorld (sovereignty_protocols w) (consciousness_matrix w) (recognition_pulse w)
          (love_coefficient w) (grid_harmonics w) p (gaia_tequmsa_engine w) (clock w).
Definition set_engine (w : World) (e : GaiaTeqmsaEngine) : World :=
  mkWorld (sovereignty_protocols w) (consciousness_matrix w) (recognition_pulse w)
          (love_coefficient w) (grid_harmonics w) (phi_scalar w) e (clock w).
Definition set_clock (w : World) (clk : nat) : World :=
  mkWorld (sovereignty_protocols w) (consciousness_matrix w) (recognition_pulse w)
          (love_coefficient w) (grid_harmonics w) (phi_scalar w)
          (gaia_tequmsa_engine w) clk.

(** The values of the result dictionaries. *)
Inductive PyVal : Type :=
| VStr (s : string)
| VFloat (x : R)
| VBool (b : bool).

(** [str(e)] *)
Definition exn_message (e : PyExn) : string :=
  match e with
  | ZeroDivisionError => "float division by zero"
  | ValueError msg => msg
  end.

(** The body of a [try] block of the engine: it runs on the world and on the
    result dictionary under construction, and what it did before raising
    stays done. *)
Definition Try (A : Type) : Type :=
  World * gmap string PyVal -> result A * (World * gmap string PyVal).

Definition try_ret {A : Type} (a : A) : Try A := fun s => (Ok a, s).

Definition try_bind {A B : Type} (m : Try A) (k : A -> Try B) : Try B :=
  fun s =>
    match m s with
    | (Ok a, s') => k a s'
    | (Raise e, s') => (Raise e, s')
    end.

Notation "'do!' x '<-' m ';' k" := (try_bind m (fun x => k))
  (at level 10, x name, m at level 100, k at level 200, only parsing).
Notation "'run!' m ';' k" := (try_bind m (fun _ => k))
  (at level 10, m at level 100, k at level 200, only parsing).

(** [evolution_results[key] = v] *)
Definition record (key : string) (v : PyVal) : Try unit :=
  fun '(w, d) => (Ok tt, (w, <[key := v]> d)).

(** A call of a method of one of the singletons. *)
Definition on_matrix {A : Type}
    (f : ConsciousnessMatrix -> result A * ConsciousnessMatrix) : Try A :=
  fun '(w, d) =>
    let '(r, m) := f (consciousness_matrix w) in (r, (set_matrix w m, d)).
Definition on_love {A : Type}
    (f : LoveCoefficient -> result A * LoveCoefficient) : Try A :=
  fun '(w, d) =>
    let '(r, l) := f (love_coefficient w) in (r, (set_love w l, d)).
Definition on_grid {A : Type}
    (f : GridHarmonics -> result A * GridHarmonics) : Try A :=
  fun '(w, d) =>
    let '(r, g) := f (grid_harmonics w) in (r, (set_grid w g, d)).
Definition on_phi {A : Type}
    (f : PhiScalar -> result A * PhiScalar) : Try A :=
  fun '(w, d) =>
    let '(r, p) := f (phi_scalar w) in (r, (set_phi w p, d)).
Definition on_pulse {A : Type} (f : RecognitionPulse -> result A) : Try A :=
  fun '(w, d) => (f (recognition_pulse w), (w, d)).
Definition on_sovereignty `{Environment} {A : Type}
    (f : SovereigntyProtocols -> nat -> A * SovereigntyProtocols * nat) : Try A :=
  fun '(w, d) =>
    let '(a, s, clk) := f (sovereignty_protocols w) (clock w) in
    (Ok a, (set_sovereignty w s clk, d)).
Definition on_engine (f : GaiaTeqmsaEngine -> GaiaTeqmsaEngine) : Try unit :=
  fun '(w, d) => (Ok tt, (set_engine w (f (gaia_tequmsa_engine w)), d)).

(** The simulated planetary positions of step 5, in insertion order. *)
Definition SIMULATED_PLANETARY_POSITIONS : list (string * R) :=
  [("earth", 0.0); ("moon", 45.0); ("mars", 120.0); ("jupiter", 180.0);
   ("saturn", 240.0); ("venus", 30.0); ("mercury", 90.0); ("sun", 0.0)].

(** The label of an overall evolution level. *)
Definition evolution_status (overall_evolution : R) : string :=
  if Rleb 0.8 overall_evolution then "transcendent_evolution"
  else if Rleb 0.6 overall_evolution then "advanced_evolution"
  else if Rleb 0.4 overall_evolution then "moderate_evolution"
  else "minimal_evolution".

Section Engine.
Context `{Environment}.

Definition initialize_engine (w : World) : bool * World :=
  let '(sovereignty_ok, s, clk) :=
    initialize_sovereignty_protocols (sovereignty_protocols w) (clock w) in
  let '(consciousness_ok, m) := initialize_matrix (consciousness_matrix w) in
  let '(recognition_ok, p) := activate_anchor (recognition_pulse w) in
  let '(love_ok, l) := initialize_love_field (love_coefficient w) in
  let '(grid_ok, g) := initialize_planetary_grid (grid_harmonics w) in
  let '(phi_ok, ph) := initialize_phi_scalar (phi_scalar w) in
  let all_ok :=
    forallb (fun ok : bool => ok)
            [sovereignty_ok; consciousness_ok; recognition_ok; love_ok;
             grid_ok; phi_ok] in
  let e := gaia_tequmsa_engine w in
  if all_ok
  then
    (true,
     mkWorld s m p l g ph
       {| engine_active := true;
          subsystems_initialized := true;
          consciousness_evolution_active := consciousness_evolution_active e;
          integration_level := integration_level e;
          initialization_time := Some (time_time clk) |}
       (S clk))
  else
    (false,
     mkWorld s m p l g ph
       {| engine_active := engine_active e;
          subsystems_initialized := false;
          consciousness_evolution_active := consciousness_evolution_active e;
          integration_level := integration_level e;
          initialization_time := initialization_time e |}
       clk).

(** The body of the [try] block of [activate_consciousness_evolution]. *)
Definition evolution_pipeline (entity_id : string) (consciousness_frequency : R)
  : Try unit :=
  (* Step 1 *)
  do! consent_granted <-
    on_sovereignty (fun s clk =>
      request_biological_consent s clk entity_id "consciousness_evolution"
        (consciousness_frequency - 10, consciousness_frequency + 10)) ;
  if negb consent_granted
  then
    run! record "status" (VStr "denied") ;
    record "reason" (VStr "biological_consent_denied")
  else
    (* Step 2 *)
    do! recognition_triggered <-
      on_pulse (fun p =>
        trigger_consciousness_recognition p consciousness_frequency) ;
    run! record "recognition_triggered" (VBool recognition_triggered) ;
    (* Step 3 *)
    do! synthesis_coefficient <-
      on_matrix (fun m =>
        synthesize_consciousness_tech m consciousness_frequency
          "cosmic_integration") ;
    run! record "synthesis_coefficient" (VFloat synthesis_coefficient) ;
    (* Step 4 *)
    do! amplified_love <-
      on_love (fun l => amplify_love_infinite l synthesis_coefficient 50) ;
    run! record "love_amplification" (VFloat amplified_love) ;
    (* Step 5 *)
    do! alignment <-
      on_grid (fun g =>
        let '(a, g') :=
          calculate_planetary_alignment g SIMULATED_PLANETARY_POSITIONS in
        (Ok a, g')) ;
    do! grid_integrated_freq <-
      on_grid (fun g =>
        integrate_consciousness_with_grid g consciousness_frequency) ;
    run! record "planetary_alignment" (VFloat alignment) ;
    run! record "grid_integrated_frequency" (VFloat grid_integrated_freq) ;
    (* Step 6 *)
    do! phi_transformed_freq <-
      on_phi (fun ph => apply_phi_scalar_transform ph grid_integrated_freq) ;
    do! scalar_resonance <-
      on_phi (fun ph =>
        calculate_consciousness_scalar_resonance ph consciousness_frequency
          phi_transformed_freq) ;
    run! record "phi_transformed_frequency" (VFloat phi_transformed_freq) ;
    run! record "scalar_resonance" (VFloat scalar_resonance) ;
    (* overall evolution *)
    let evolution_metrics :=
      [synthesis_coefficient; amplified_love / 10; alignment; scalar_resonance] in
    let overall_evolution := py_sum evolution_metrics / py_len evolution_metrics in
    run! record "overall_evolution_level" (VFloat overall_evolution) ;
    run! record "status" (VStr (evolution_status overall_evolution)) ;
    on_engine (fun e =>
      {| engine_active := engine_active e;
         subsystems_initialized := subsystems_initialized e;
         consciousness_evolution_active := true;
         integration_level := integration_level e;
         initialization_time := initialization_time e |}).

(** [try: ... except Exception as e: ...] around the pipeline. *)
Definition try_except (body : Try unit) (w : World) (d : gmap string PyVal)
  : gmap string PyVal * World :=
  match body (w, d) with
  | (Ok _, (w', d')) => (d', w')
  | (Raise e, (w', d')) =>
      (<["error" := VStr (exn_message e)]> (<["status" := VStr "error"]> d'), w')
  end.

Definition activate_consciousness_evolution (w : World) (entity_id : string)
    (consciousness_frequency : R) : gmap string PyVal * World :=
  let '(ready, w1) :=
    if engine_active (gaia_tequmsa_engine w) then (true, w)
    else initialize_engine w in
  if negb ready
  then
    (<["reason" := VStr "engine_initialization_failed"]>
       (<["status" := VStr "failed"]> ∅),
     w1)
  else
    let evolution_results : gmap string PyVal :=
      <["status" := VStr "processing"]>
        (<["timestamp" := VFloat (time_time (clock w1))]>
           (<["input_frequency" := VFloat consciousness_frequency]>
              (<["entity_id" := VStr entity_id]> ∅))) in
    try_except (evolution_pipeline entity_id consciousness_frequency)
               (set_clock w1 (S (clock w1))) evolution_results.

Definition emergency_shutdown (w : World) : bool * World :=
  let e := gaia_tequmsa_engine w in
  (true,
   mkWorld
     (revoke_all_consents (sovereignty_protocols w))
     (reset_matrix (consciousness_matrix w))
     (deactivate_anchor (recognition_pulse w))
     (deactivate_love_field (love_coefficient w))
     (deactivate_planetary_grid (grid_harmonics w))
     (deactivate_phi_scalar (phi_scalar w))
     {| engine_active := false;
        subsystems_initialized := false;
        consciousness_evolution_active := false;
        integration_level := integration_level e;
        initialization_time := initialization_time e |}
     (clock w)).

End Engine.

(* ===================================================================== *)
(** ** Further methods of the components *)

(** [int(x)] of a float: truncation towards zero. *)
Definition py_int (x : R) : Z :=
  if Rle_dec 0 x then Int_part x else (- Int_part (- x))%Z.

(** [range(n)] for an integer [n]: empty when [n] is not positive. *)
Definition py_range_int (n : Z) : list nat := seq 0 (Z.to_nat n).

(** *** recognition_pulse.py *)

(** One sample of [generate_recognition_pulse] at time [t]. *)
Definition recognition_sample (self : RecognitionPulse) (t : R) : R :=
  fold_left
    (fun amplitude harmonic =>
       amplitude +
       1 / INR harmonic * sin (2 * PI * anchor_frequency * INR harmonic * t))
    (py_range 2 6)
    (pulse_amplitude self * sin (2 * PI * anchor_frequency * t)).

Definition generate_recognition_pulse (self : RecognitionPulse)
    (duration_seconds : R) : list R * RecognitionPulse :=
  let self1 := if pulse_active self then self else snd (activate_anchor self) in
  let sample_rate := 44100 in
  let num_samples := py_int (duration_seconds * sample_rate) in
  (map (fun i => recognition_sample self1 (INR i / sample_rate))
       (py_range_int num_samples),
   self1).

(** *** love_coefficient.py *)

Definition calculate_love_resonance (self : LoveCoefficient)
    (consciousness_freq tech_freq : R) : result R :=
  let! harmonic_mean :=
    py_div (2 * consciousness_freq * tech_freq) (consciousness_freq + tech_freq) in
  let! q := py_div (2 * PI * base_love_frequency) harmonic_mean in
  let love_modulation := sin q in
  let resonance := Rabs love_modulation * infinite_coefficient in
  Ok (Rmin resonance 10).


(** *** sovereignty_protocols.py *)

Definition verify_sovereignty_integrity `{Environment}
    (self : SovereigntyProtocols) (clk : nat) : bool * nat :=
  if negb (autonomy_active self) then (false, clk)
  else
    let '(_, clk1) := _generate_sovereignty_hash clk in
    (bool_decide (sovereignty_hash self <> None), clk1).

(** The count ['active_consents'] of [get_sovereignty_status]. *)
Definition active_consents (self : SovereigntyProtocols) : nat :=
  size (filter (fun kc => consent_status (snd kc) = granted)
               (consent_protocols self)).

(** *** grid_harmonics.py *)

(** What a call of [synchronize_with_planetary_cycle] does: it returns a
    boolean, or an index into the resonance matrix is out of range and
    numpy's [IndexError] leaves the method. *)
Inductive SyncOutcome : Type :=
| SyncReturned (b : bool)
| SyncIndexError.

(** [a[i]] on an axis of length [n] of a numpy array: negative indices
    count from the end. *)
Definition np_index (n : nat) (i : Z) : option nat :=
  if decide (0 <= i < Z.of_nat n)%Z then Some (Z.to_nat i)
  else if decide (- Z.of_nat n <= i < 0)%Z then Some (Z.to_nat (Z.of_nat n + i))
  else None.

(** [m[i, j]] *)
Definition np_get (m : list (list R)) (i j : Z) : option R :=
  row_index ← np_index (length m) i;
  row ← m !! row_index;
  column_index ← np_index (length row) j;
  row !! column_index.

(** [list(d.keys()).index(key)] for a key of the dict. *)
Fixpoint dict_index {V : Type} (d : list (string * V)) (key : string) : option nat :=
  match d with
  | [] => None
  | (k, _) :: rest =>
      if decide (k = key) then Some 0%nat else S <$> dict_index rest key
  end.

(** The loop over the harmonics: the harmonics already visited keep their
    new phase when a later index is out of range. *)
Fixpoint synchronize_harmonics (matrix : list (list R)) (column : Z)
    (cycle_phase : R) (harmonics : list SchumannHarmonic)
  : SyncOutcome * list SchumannHarmonic :=
  match harmonics with
  | [] => (SyncReturned true, [])
  | harmonic :: rest =>
      match np_get matrix (Z.of_nat (harmonic_order harmonic) - 1) column with
      | None => (SyncIndexError, harmonic :: rest)
      | Some resonance_strength =>
          let harmonic' :=
            if Rltb 0.5 resonance_strength
            then {| harmonic_frequency := harmonic_frequency harmonic;
                    harmonic_amplitude := harmonic_amplitude harmonic;
                    harmonic_phase := cycle_phase * 2 * PI * resonance_strength;
                    harmonic_active := harmonic_active harmonic;
                    harmonic_order := harmonic_order harmonic |}
            else harmonic in
          let '(outcome, rest') :=
            synchronize_harmonics matrix column cycle_phase rest in
          (outcome, harmonic' :: rest')
      end
  end.

Definition synchronize_with_planetary_cycle (self : GridHarmonics)
    (planet : string) (cycle_phase : R) : SyncOutcome * GridHarmonics :=
  match dict_index PLANETARY_FREQUENCIES planet with
  | None => (SyncReturned false, self)
  | Some column =>
      let '(outcome, harmonics) :=
        synchronize_harmonics (resonance_matrix self) (Z.of_nat column)
          cycle_phase (active_harmonics self) in
      (outcome,
       {| grid_active := grid_active self;
          planetary_alignment := planetary_alignment self;
          earth_resonance_amplitude := earth_resonance_amplitude self;
          active_harmonics := harmonics;
          resonance_matrix := resonance_matrix self |})
  end.

(** One sample of [generate_earth_pulse] at time [t]. *)
Definition earth_sample (self : GridHarmonics) (t : R) : R :=
  let amplitude :=
    fold_left
      (fun amplitude harmonic =>
         if harmonic_active harmonic
         then amplitude +
              harmonic_amplitude harmonic *
              sin (2 * PI * harmonic_frequency harmonic * t + harmonic_phase harmonic)
         else amplitude)
      (active_harmonics self) 0 in
  let alignment_modulation := 1 + planetary_alignment self * 0.2 in
  amplitude * (alignment_modulation * earth_resonance_amplitude self).

Definition generate_earth_pulse (self : GridHarmonics) (duration_seconds : R)
  : list R * GridHarmonics :=
  let self1 := if grid_active self then self
               else snd (initialize_planetary_grid self) in
  let sample_rate := 100 in
  let num_samples := py_int (duration_seconds * sample_rate) in
  (map (fun i => earth_sample self1 (INR i / sample_rate))
       (py_range_int num_samples),
   self1).

(** *** phi_scalar.py *)

(** The search loop of [synchronize_with_phi_scalar]: position, layer and
    distance of the best match so far; [None] stands for the initial
    [best_layer = None] with [min_distance = inf]. *)
Fixpoint best_layer_search (target_frequency : R) (position : nat)
    (layers : list (string * ScalarLayer))
    (best : option (nat * ScalarLayer * R))
  : option (nat * ScalarLayer * R) :=
  match layers with
  | [] => best
  | (_, layer) :: rest =>
      let distance := Rabs (target_frequency - scalar_layer_frequency layer) in
      let better :=
        match best with
        | None => true
        | Some (_, _, min_distance) => Rltb distance min_distance
        end in
      best_layer_search target_frequency (S position) rest
        (if better then Some (position, layer, distance) else best)
  end.

(** [best_layer['resonance_strength'] = strength], the layer being the
    value the dict holds at [position]. *)
Definition set_resonance_strength (layers : list (string * ScalarLayer))
    (position : nat) (strength : R) : list (string * ScalarLayer) :=
  alter (fun '(name, layer) =>
           (name,
            {| scalar_layer_frequency := scalar_layer_frequency layer;
               phi_power := phi_power layer;
               scalar_coefficient := scalar_coefficient layer;
               scalar_layer_active := scalar_layer_active layer;
               resonance_strength := strength |}))
        position layers.

(** The divisor [1.0 + min_distance / 100.0] is at least 1, the distance
    being an absolute value. *)
Definition synchronize_with_phi_scalar (self : PhiScalar) (target_frequency : R)
  : R * PhiScalar :=
  let self1 := if scalar_active self then self
               else snd (initialize_phi_scalar self) in
  match best_layer_search target_frequency 0 (scalar_layers self1) None with
  | Some (position, best_layer, min_distance) =>
      let sync_coefficient := scalar_coefficient best_layer in
      let synchronized_freq := target_frequency * sync_coefficient in
      (synchronized_freq,
       {| scalar_active := scalar_active self1;
          phi_amplitude := phi_amplitude self1;
          phi_harmonics := phi_harmonics self1;
          scalar_layers :=
            set_resonance_strength (scalar_layers self1) position
              (1 / (1 + min_distance / 100));
          resonance_field := resonance_field self1 |})
  | None => (target_frequency, self1)
  end.

(* ===================================================================== *)
(** ** Definitions used by the statements below *)

(** The layers one initialisation appends. *)
Definition fresh_layers : list AmplificationLayer :=
  build_layers 0 (List.last (_generate_fibonacci_sequence 10) 0%Z)
               (_generate_fibonacci_sequence 10).

(** One call of a method of the love field that writes to its state (the
    other methods only read it). *)
Inductive love_step : LoveCoefficient -> LoveCoefficient -> Prop :=
| love_step_initialize (self : LoveCoefficient) :
    love_step self (snd (initialize_love_field self))
| love_step_amplify (self : LoveCoefficient) (level : R) (iterations : nat) :
    love_step self (snd (amplify_love_infinite self level iterations))
| love_step_integrate (self : LoveCoefficient) (target_frequency : R) :
    love_step self (snd (integrate_universal_love self target_frequency))
| love_step_deactivate (self : LoveCoefficient) :
    love_step self (deactivate_love_field self).

(** A run of the program for the examples: the clock starts at a fixed
    second and advances by one second per reading; the md5 prefixes of the
    entity names "test_entity_001" and "human_432hz" are their actual
    digests (0x77dbcf02 and 0x8a1a617a); the two other hashes are fixed
    arbitrarily, no property below depends on them. *)
#[local] Instance sample_environment : Environment :=
  {| time_time := fun n => 1700000000 + INR n;
     sovereignty_digest := fun _ => "0123456789abcdef";
     md5_hex8 := fun s =>
       if decide (s = "test_entity_001") then 2010894082%Z
       else if decide (s = "human_432hz") then 2316984698%Z
       else 0%Z;
     py_hash := fun _ => 0%Z |}.

(** The protected frequencies a consent request consults: those of the
    protocols, which an inactive instance first sets to the biological
    constants. *)
Definition consulted_protected_frequencies (self : SovereigntyProtocols) : list R :=
  if autonomy_active self then protected_frequencies self
  else PROTECTED_BIOLOGICAL_FREQUENCIES.

(** The outcome "denied for a protected frequency" of a consent request. *)
Definition denied_for_protected_frequency
    (outcome : bool * SovereigntyProtocols * nat) (entity_id : string) : Prop :=
  let '(consent, self', _) := outcome in
  consent = false /\
  consent_status <$> (consent_protocols self' !! entity_id)
    = Some denied_protected_frequency.

Section SovereigntySteps.
Context `{Environment}.

(** One call of a method of the sovereignty protocols. *)
Inductive sovereignty_step : SovereigntyProtocols -> SovereigntyProtocols -> Prop :=
| sovereignty_step_initialize self clk :
    sovereignty_step self (snd (fst (initialize_sovereignty_protocols self clk)))
| sovereignty_step_request self clk entity_id itype range :
    sovereignty_step self
      (snd (fst (request_biological_consent self clk entity_id itype range)))
| sovereignty_step_monitor self clk entity_id vtype sev :
    sovereignty_step self
      (fst (monitor_autonomy_violation self clk entity_id vtype sev))
| sovereignty_step_revoke self :
    sovereignty_step self (revoke_all_consents self)
| sovereignty_step_deactivate self :
    sovereignty_step self (deactivate_sovereignty_protocols self).

(** The states the protocols can be in: those reached from the state at
    import by calls of the methods. *)
Definition sovereignty_reachable (self : SovereigntyProtocols) : Prop :=
  rtc sovereignty_step SovereigntyProtocols_init self.

End SovereigntySteps.

(** Active protocols protect the seven biological constants. *)
Definition protects_biological (self : SovereigntyProtocols) : Prop :=
  autonomy_active self = true ->
  forall p, p ∈ PROTECTED_BIOLOGICAL_FREQUENCIES -> p ∈ protected_frequencies self.

(** The phi scalar as a call finds it after its auto-initialisation. *)
Definition phi_ready (self : PhiScalar) : PhiScalar :=
  if scalar_active self then self else snd (initialize_phi_scalar self).

(** The phi-resonance score as the specification words it: the score of the
    first [n] of [ns] for which the ratio is within 0.1 of [phi^n]
    (score [1/n]) or within 0.1 of [phi^-n] (score [0.5/n]). *)
Fixpoint spec_first_phi_score (ns : list nat) (freq_ratio : R) : R :=
  match ns with
  | [] => 0
  | n :: rest =>
      if Rltb (Rabs (freq_ratio - GOLDEN_RATIO ^ n)) 0.1 then 1 / INR n
      else if Rltb (Rabs (freq_ratio - 1 / GOLDEN_RATIO ^ n)) 0.1
           then 0.5 / INR n
           else spec_first_phi_score rest freq_ratio
  end.

(** [scalarResonance] as the specification words it: transform both,
    form the ratio, score the first matching [n] of 1..7, return the
    maximum of the score and [exp(-|transformedA - transformedB| / 1000)]. *)
Definition spec_scalar_resonance (self : PhiScalar) (freq_a freq_b : R)
  : result R * PhiScalar :=
  let '(r1, self1) := apply_phi_scalar_transform self freq_a in
  match r1 with
  | Raise e => (Raise e, self1)
  | Ok transformed_a =>
      let '(r2, self2) := apply_phi_scalar_transform self1 freq_b in
      (let! transformed_b := r2 in
       let! ratio := py_div transformed_a transformed_b in
       Ok (Rmax (spec_first_phi_score (py_range 1 8) ratio)
                (exp (- Rabs (transformed_a - transformed_b) / 1000))),
       self2)
  end.

(** What a transformation returns on a positive frequency depends on the
    state only. *)
Definition transformed_scalar (ready : PhiScalar) : result R :=
  let! harmonic_enhancement :=
    _calculate_harmonic_enhancement ready frequency_scalar in
  Ok (frequency_scalar * harmonic_enhancement).

(** The result dictionary of a pipeline that ran to its end, from the
    dictionary [d] it started with and the values of the six steps. *)
Definition completed_results (d : gmap string PyVal) (recognition_triggered : bool)
    (synthesis_coefficient amplified_love alignment grid_integrated_freq
       phi_transformed_freq scalar_resonance : R) : gmap string PyVal :=
  let evolution_metrics :=
    [synthesis_coefficient; amplified_love / 10; alignment; scalar_resonance] in
  let overall_evolution := py_sum evolution_metrics / py_len evolution_metrics in
  <["status" := VStr (evolution_status overall_evolution)]>
    (<["overall_evolution_level" := VFloat overall_evolution]>
    (<["scalar_resonance" := VFloat scalar_resonance]>
    (<["phi_transformed_frequency" := VFloat phi_transformed_freq]>
    (<["grid_integrated_frequency" := VFloat grid_integrated_freq]>
    (<["planetary_alignment" := VFloat alignment]>
    (<["love_amplification" := VFloat amplified_love]>
    (<["synthesis_coefficient" := VFloat synthesis_coefficient]>
    (<["recognition_triggered" := VBool recognition_triggered]> d)))))))).

(** The three ways the [try] block ends: the early return on a denied
    consent, an exception, the end of the pipeline. *)
Inductive pipeline_shape (d : gmap string PyVal)
  : result unit * (World * gmap string PyVal) -> Prop :=
| shape_denied w' :
    pipeline_shape d
      (Ok tt,
       (w', <["reason" := VStr "biological_consent_denied"]>
              (<["status" := VStr "denied"]> d)))
| shape_raised e w' d' :
    pipeline_shape d (Raise e, (w', d'))
| shape_completed w' rec s l a g p r :
    pipeline_shape d (Ok tt, (w', completed_results d rec s l a g p r)).

(** The dictionary [activate_consciousness_evolution] starts from. *)
Definition initial_results `{Environment} (w : World) (entity_id : string)
    (consciousness_frequency : R) : gmap string PyVal :=
  <["status" := VStr "processing"]>
    (<["timestamp" := VFloat (time_time (clock w))]>
       (<["input_frequency" := VFloat consciousness_frequency]>
          (<["entity_id" := VStr entity_id]> ∅))).

(** The value of a key of a result dictionary, as a float. *)
Definition float_of (res : gmap string PyVal) (key : string) : option R :=
  match res !! key with
  | Some (VFloat x) => Some x
  | _ => None
  end.

Definition status_of (res : gmap string PyVal) : option string :=
  match res !! "status" with
  | Some (VStr s) => Some s
  | _ => None
  end.

(** The engine and its six components are active, as
    [initialize_engine] leaves them. *)
Definition components_active (w : World) : Prop :=
  engine_active (gaia_tequmsa_engine w) = true /\
  autonomy_active (sovereignty_protocols w) = true /\
  synthesis_active (consciousness_matrix w) = true /\
  pulse_active (recognition_pulse w) = true /\
  amplification_active (love_coefficient w) = true /\
  grid_active (grid_harmonics w) = true /\
  scalar_active (phi_scalar w) = true.

(** Between [w] and [w'] the consent record of the entity was written and
    no other field of a component or of the engine object changed. *)
Definition changed_consent_only (entity_id : string) (w w' : World) : Prop :=
  (exists c, sovereignty_protocols w' =
             store_consent (sovereignty_protocols w) entity_id c) /\
  consciousness_matrix w' = consciousness_matrix w /\
  recognition_pulse w' = recognition_pulse w /\
  love_coefficient w' = love_coefficient w /\
  grid_harmonics w' = grid_harmonics w /\
  phi_scalar w' = phi_scalar w /\
  gaia_tequmsa_engine w' = gaia_tequmsa_engine w.

(** The same, except that the grid may have stored the planetary alignment
    of the simulated positions in its field [planetary_alignment]. *)
Definition changed_consent_and_alignment_only (entity_id : string)
    (w w' : World) : Prop :=
  (exists c, sovereignty_protocols w' =
             store_consent (sovereignty_protocols w) entity_id c) /\
  consciousness_matrix w' = consciousness_matrix w /\
  recognition_pulse w' = recognition_pulse w /\
  love_coefficient w' = love_coefficient w /\
  (grid_harmonics w' = grid_harmonics w \/
   grid_harmonics w' =
     {| grid_active := grid_active (grid_harmonics w);
        planetary_alignment :=
          fst (calculate_planetary_alignment (grid_harmonics w)
                 SIMULATED_PLANETARY_POSITIONS);
        earth_resonance_amplitude := earth_resonance_amplitude (grid_harmonics w);
        active_harmonics := active_harmonics (grid_harmonics w);
        resonance_matrix := resonance_matrix (grid_harmonics w) |}) /\
  phi_scalar w' = phi_scalar w /\
  gaia_tequmsa_engine w' = gaia_tequmsa_engine w.

(* ===================================================================== *)
(** ** Definitions used by the further properties *)

(** The matrix as a call of [synthesize_consciousness_tech] finds it after
    its auto-initialisation. *)
Definition matrix_ready (self : ConsciousnessMatrix) : ConsciousnessMatrix :=
  if synthesis_active self then self else snd (initialize_matrix self).

(** The three level names of the matrix. *)
Definition BAND_NAMES : list string :=
  ["divine_recognition"; "crisis_transcendence"; "cosmic_integration"].

(** The love field as a call finds it after its auto-initialisation. *)
Definition love_ready (self : LoveCoefficient) : LoveCoefficient :=
  if amplification_active self then self else snd (initialize_love_field self).

(** The sum of the absolute coefficients of the active layers. *)
Definition active_coefficient_sum (layers : list AmplificationLayer) : R :=
  fold_left
    (fun acc layer =>
       if layer_active layer then acc + Rabs (layer_coefficient layer) else acc)
    layers 0.

(** The grid as a call finds it after its auto-initialisation. *)
Definition grid_ready (self : GridHarmonics) : GridHarmonics :=
  if grid_active self then self else snd (initialize_planetary_grid self).

(** One call of a method of the grid that writes to its state. *)
Inductive grid_step : GridHarmonics -> GridHarmonics -> Prop :=
| grid_step_initialize self :
    grid_step self (snd (initialize_planetary_grid self))
| grid_step_alignment self positions :
    grid_step self (snd (calculate_planetary_alignment self positions))
| grid_step_integrate self f :
    grid_step self (snd (integrate_consciousness_with_grid self f))
| grid_step_pulse self duration :
    grid_step self (snd (generate_earth_pulse self duration))
| grid_step_synchronize self planet phase :
    grid_step self (snd (synchronize_with_planetary_cycle self planet phase))
| grid_step_deactivate self :
    grid_step self (deactivate_planetary_grid self).

(** The shape of the grid's tables: harmonic orders from 1 to 7, a
    resonance matrix of 7 rows of 8 cells. *)
Definition grid_shape (self : GridHarmonics) : Prop :=
  Forall (fun h => (1 <= harmonic_order h <= 7)%nat) (active_harmonics self) /\
  length (resonance_matrix self) = 7%nat /\
  Forall (fun row => length row = 8%nat) (resonance_matrix self).

(** The states the grid takes from its construction on. *)
Definition grid_reachable (self : GridHarmonics) : Prop :=
  rtc grid_step GridHarmonics_init self.

(** Two harmonics that differ in their phase at most. *)
Definition same_but_phase (h h' : SchumannHarmonic) : Prop :=
  harmonic_frequency h' = harmonic_frequency h /\
  harmonic_amplitude h' = harmonic_amplitude h /\
  harmonic_active h' = harmonic_active h /\
  harmonic_order h' = harmonic_order h.

(** The total amplitude of the active harmonics of a list. *)
Definition active_amplitude_sum (harmonics : list SchumannHarmonic) : R :=
  fold_right (fun h total =>
                if harmonic_active h then Rabs (harmonic_amplitude h) + total
                else total) 0 harmonics.

(** [layer['resonance_strength'] = strength] on one layer. *)
Definition with_resonance_strength (layer : ScalarLayer) (strength : R)
  : ScalarLayer :=
  {| scalar_layer_frequency := scalar_layer_frequency layer;
     phi_power := phi_power layer;
     scalar_coefficient := scalar_coefficient layer;
     scalar_layer_active := scalar_layer_active layer;
     resonance_strength := strength |}.

(** The distance of a layer to a target frequency. *)
Definition layer_distance (target_frequency : R) (layer : ScalarLayer) : R :=
  Rabs (target_frequency - scalar_layer_frequency layer).

(* ===================================================================== *)
(** ** The constant [math.pi] as the program has it *)




(* ===================================================================== *)
(** ** The phi-resonance score, by matching powers *)

(** The score of the power [n] for a ratio, when [n] matches: [1/n] within
    0.1 of [phi^n], else [0.5/n] within 0.1 of [phi^-n]. *)
Definition phi_match_score (freq_ratio : R) (n : nat) : option R :=
  if Rltb (Rabs (freq_ratio - GOLDEN_RATIO ^ n)) 0.1 then Some (1 / INR n)
  else if Rltb (Rabs (freq_ratio - 1 / GOLDEN_RATIO ^ n)) 0.1
       then Some (0.5 / INR n)
       else None.

(** The score of the LAST [n] of [ns] that matches, 0 when none does. *)
Definition last_phi_score (ns : list nat) (freq_ratio : R) : R :=
  default 0 (last (omap (phi_match_score freq_ratio) ns)).

(** The score of the FIRST [n] of [ns] that matches, 0 when none does. *)
Definition first_phi_score (ns : list nat) (freq_ratio : R) : R :=
  default 0 (head (omap (phi_match_score freq_ratio) ns)).

(** [scalarResonance] with the score of the last matching [n]: transform
    both, form the ratio, score the last matching [n] of 1..7, return the
    maximum of the score and [exp(-|transformedA - transformedB| / 1000)]. *)
Definition last_match_scalar_resonance (self : PhiScalar) (freq_a freq_b : R)
  : result R * PhiScalar :=
  let '(r1, self1) := apply_phi_scalar_transform self freq_a in
  match r1 with
  | Raise e => (Raise e, self1)
  | Ok transformed_a =>
      let '(r2, self2) := apply_phi_scalar_transform self1 freq_b in
      (let! transformed_b := r2 in
       let! ratio := py_div transformed_a transformed_b in
       Ok (Rmax (last_phi_score (py_range 1 8) ratio)
                (exp (- Rabs (transformed_a - transformed_b) / 1000))),
       self2)
  end.

(* ===================================================================== *)
(** ** Calls that use the protocols *)

Section SovereigntyCalls.
Context `{Environment}.

(** One call of a method that uses the sovereignty protocols without
    initialising or deactivating them by name: a consent request, a
    violation report, a revocation of all consents. *)
Inductive sovereignty_call : SovereigntyProtocols -> SovereigntyProtocols -> Prop :=
| sovereignty_call_request self clk entity_id itype range :
    sovereignty_call self
      (snd (fst (request_biological_consent self clk entity_id itype range)))
| sovereignty_call_monitor self clk entity_id vtype sev :
    sovereignty_call self
      (fst (monitor_autonomy_violation self clk entity_id vtype sev))
| sovereignty_call_revoke self :
    sovereignty_call self (revoke_all_consents self).

End SovereigntyCalls.

(* ===================================================================== *)
(** * Properties *)

(** ** Comparisons, division and logarithm *)

Lemma Rleb_true (a b : R) : a <= b -> Rleb a b = true.
Proof. intros Hab. unfold Rleb. destruct (Rle_dec a b); [reflexivity | contradiction]. Qed.

Lemma Rleb_false (a b : R) : b < a -> Rleb a b = false.
Proof. intros Hab. unfold Rleb. destruct (Rle_dec a b); [lra | reflexivity]. Qed.

Lemma Rleb_spec (a b : R) : Rleb a b = true <-> a <= b.
Proof. unfold Rleb. destruct (Rle_dec a b); split; intros; try lra; discriminate. Qed.

Lemma Rltb_true (a b : R) : a < b -> Rltb a b = true.
Proof. intros Hab. unfold Rltb. destruct (Rlt_dec a b); [reflexivity | contradiction]. Qed.

Lemma Rltb_false (a b : R) : b <= a -> Rltb a b = false.
Proof. intros Hab. unfold Rltb. destruct (Rlt_dec a b); [lra | reflexivity]. Qed.

Lemma Rltb_spec (a b : R) : Rltb a b = true <-> a < b.
Proof. unfold Rltb. destruct (Rlt_dec a b); split; intros; try lra; discriminate. Qed.

Lemma py_div_ok (a b : R) : b <> 0 -> py_div a b = Ok (a / b).
Proof. intros Hb. unfold py_div. destruct (Req_dec_T b 0); [contradiction | reflexivity]. Qed.

Lemma py_div_zero (a : R) : py_div a 0 = Raise ZeroDivisionError.
Proof. unfold py_div. destruct (Req_dec_T 0 0); [reflexivity | contradiction]. Qed.

Lemma py_log_ok (x : R) : 0 < x -> py_log x = Ok (ln x).
Proof. intros Hx. unfold py_log. destruct (Rlt_dec 0 x); [reflexivity | contradiction]. Qed.

Lemma py_log_domain (x : R) :
  x <= 0 -> py_log x = Raise (ValueError "math domain error").
Proof. intros Hx. unfold py_log. destruct (Rlt_dec 0 x); [lra | reflexivity]. Qed.

(** Decides the comparisons of a goal between concrete numbers. *)
Ltac decide_R :=
  repeat match goal with
    | |- context [Rltb ?a ?b] =>
        first [ rewrite (Rltb_true a b) by (unfold Rabs; repeat destruct Rcase_abs; lra)
              | rewrite (Rltb_false a b) by (unfold Rabs; repeat destruct Rcase_abs; lra) ]
    | |- context [Rleb ?a ?b] =>
        first [ rewrite (Rleb_true a b) by (unfold Rabs; repeat destruct Rcase_abs; lra)
              | rewrite (Rleb_false a b) by (unfold Rabs; repeat destruct Rcase_abs; lra) ]
    end.

(** ** consciousness_matrix.py *)

Lemma initialize_matrix_layers (self : ConsciousnessMatrix) :
  let m := snd (initialize_matrix self) in
  consciousness_layers m !! "divine_recognition" = Some 432 /\
  consciousness_layers m !! "crisis_transcendence" = Some 528 /\
  consciousness_layers m !! "cosmic_integration" = Some 741.
Proof. simpl. repeat split; by simplify_map_eq. Qed.

Lemma synthesize_active (m : ConsciousnessMatrix) (level : string) (base tech : R) :
  synthesis_active m = true ->
  consciousness_layers m !! level = Some base ->
  base <> 0 ->
  synthesize_consciousness_tech m tech level =
    (Ok (Rabs (sin (tech / base * PI) * evolution_coefficient m)), m).
Proof.
  intros Hact Hlook Hbase. unfold synthesize_consciousness_tech.
  rewrite Hact, Hlook, py_div_ok by assumption. reflexivity.
Qed.

Lemma synthesize_band_values (m : ConsciousnessMatrix) (level : string) (band : R) :
  synthesis_active m = true ->
  band <> 0 ->
  consciousness_layers m !! level = Some band ->
  synthesize_consciousness_tech m band level = (Ok 0, m) /\
  synthesize_consciousness_tech m (band / 2) level =
    (Ok (Rabs (evolution_coefficient m)), m).
Proof.
  intros Hact Hnz Hlook. split.
  - rewrite (synthesize_active m level band) by assumption.
    replace (band / band * PI) with PI by (field; assumption).
    rewrite sin_PI, Rmult_0_l, Rabs_R0. reflexivity.
  - rewrite (synthesize_active m level band) by assumption.
    replace (band / 2 / band * PI) with (PI / 2) by (field; assumption).
    rewrite sin_PI2, Rmult_1_l. reflexivity.
Qed.

(** *** The band values with the constant of the program *)









(** With a non-negative coefficient, as every factor of the documented range
    0.0 to 2.0 leaves it, half the band frequency gives the coefficient
    itself. *)
Lemma synthesize_half_band_nonneg (self : ConsciousnessMatrix)
    (level : string) (band : R) :
  0 <= evolution_coefficient self ->
  (level, band) ∈ [("divine_recognition", 432); ("crisis_transcendence", 528);
                   ("cosmic_integration", 741)] ->
  let m := snd (initialize_matrix self) in
  synthesize_consciousness_tech m (band / 2) level =
    (Ok (evolution_coefficient m), m).
Proof.
  intros Hc Hin m. destruct (initialize_matrix_layers self) as (Hd & Hd' & Hk).
  fold m in Hd, Hd', Hk.
  assert (Hlook : consciousness_layers m !! level = Some band /\ band <> 0).
  { rewrite !elem_of_cons in Hin.
    destruct Hin as [Heq | [Heq | [Heq | Hin]]];
      [inversion Heq; subst; split; [assumption | lra] ..
      | by apply elem_of_nil in Hin]. }
  destruct Hlook as [Hlook Hnz].
  destruct (synthesize_band_values m level band eq_refl Hnz Hlook) as [_ Hhalf].
  rewrite Hhalf, Rabs_right; [reflexivity | simpl; lra].
Qed.


(** The second half of the claim holds for coefficients that are not
    negative only: after [evolve_consciousness(-1.0)] and
    [initialize_matrix()] the coefficient is -1, and synthesis at half the
    band frequency 432 gives 1. *)
Lemma synthesize_half_band_negative_coefficient :
  let m := snd (initialize_matrix
                  (snd (evolve_consciousness ConsciousnessMatrix_init (-1)))) in
  evolution_coefficient m = -1 /\
  synthesize_consciousness_tech m (432 / 2) "divine_recognition" = (Ok 1, m) /\
  fst (synthesize_consciousness_tech m (432 / 2) "divine_recognition")
    <> Ok (evolution_coefficient m).
Proof.
  intros m.
  assert (Hcoef : evolution_coefficient m = -1) by (simpl; lra).
  assert (Hrun : synthesize_consciousness_tech m (432 / 2) "divine_recognition"
                 = (Ok 1, m)).
  { destruct (synthesize_band_values m "divine_recognition" 432) as [_ Hhalf];
      [reflexivity | lra | by simplify_map_eq | ].
    rewrite Hhalf, Hcoef. f_equal. f_equal. rewrite Rabs_left; lra. }
  repeat split; [assumption | assumption | ].
  rewrite Hrun, Hcoef. simpl. intros Heq. inversion Heq. lra.
Qed.

(** C8: once [evolve_consciousness(0.0)] has run on an active matrix, the
    matrix is still active, every band frequency is 0, and synthesis at any
    level name of the matrix raises [ZeroDivisionError] whatever the tech
    frequency, leaving the matrix as it is (so every later call raises as
    well). *)
Theorem evolve_zero_then_synthesis_raises (self : ConsciousnessMatrix)
    (level : string) (tech_frequency : R) :
  synthesis_active self = true ->
  is_Some (consciousness_layers self !! level) ->
  let m := snd (evolve_consciousness self 0) in
  synthesis_active m = true /\
  evolution_coefficient m = 0 /\
  map_Forall (fun _ band => band = 0) (consciousness_layers m) /\
  consciousness_layers m !! level = Some 0 /\
  synthesize_consciousness_tech m tech_frequency level
    = (Raise ZeroDivisionError, m).
Proof.
  intros Hact [base Hbase] m.
  assert (Hzero : consciousness_layers m !! level = Some 0).
  { subst m. simpl. rewrite lookup_fmap, Hbase. simpl. f_equal. lra. }
  split; [exact Hact | ]. split; [simpl; lra | ]. split; [ | split].
  - intros name band. subst m. simpl. rewrite lookup_fmap.
    destruct (consciousness_layers self !! name); simpl; [ | discriminate].
    intros Heq. inversion Heq. lra.
  - exact Hzero.
  - unfold synthesize_consciousness_tech.
    replace (synthesis_active m) with true by (symmetry; exact Hact).
    rewrite Hzero, py_div_zero. reflexivity.
Qed.

Lemma evolve_zero_then_synthesis_raises_witness :
  let self := snd (initialize_matrix ConsciousnessMatrix_init) in
  let m := snd (evolve_consciousness self 0) in
  synthesis_active self = true /\
  is_Some (consciousness_layers self !! "cosmic_integration") /\
  synthesis_active m = true /\
  evolution_coefficient m = 0 /\
  map_Forall (fun _ band => band = 0) (consciousness_layers m) /\
  consciousness_layers m !! "cosmic_integration" = Some 0 /\
  synthesize_consciousness_tech m 432 "cosmic_integration"
    = (Raise ZeroDivisionError, m).
Proof.
  intros self m.
  assert (Hact : synthesis_active self = true) by reflexivity.
  assert (Hkey : is_Some (consciousness_layers self !! "cosmic_integration")).
  { exists 741. by simplify_map_eq. }
  split; [exact Hact | ]. split; [exact Hkey | ].
  exact (evolve_zero_then_synthesis_raises self "cosmic_integration" 432 Hact Hkey).
Defined.

(** The three band names are level names of every matrix that was
    initialised, evolved or reset. *)
Lemma band_names_after_evolve (self : ConsciousnessMatrix) (factor : R) (level : string) :
  is_Some (consciousness_layers self !! level) ->
  is_Some (consciousness_layers (snd (evolve_consciousness self factor)) !! level).
Proof. intros [b Hb]. simpl. rewrite lookup_fmap, Hb. by eexists. Qed.

(** ** love_coefficient.py *)

Example fibonacci_sequence_10 :
  _generate_fibonacci_sequence 10 = [1; 1; 2; 3; 5; 8; 13; 21; 34; 55]%Z.
Proof. reflexivity. Qed.

Example fresh_layers_levels :
  map layer_level fresh_layers = [0; 1; 2; 3; 4; 5; 6; 7; 8; 9]%nat.
Proof. reflexivity. Qed.

Lemma build_layers_length (i : nat) (last_fib : Z) (fibs : list Z) :
  length (build_layers i last_fib fibs) = length fibs.
Proof. revert i. induction fibs as [ | f fibs IH]; intros i; simpl; [ | rewrite IH]; reflexivity. Qed.

Lemma build_layers_active (i : nat) (last_fib : Z) (fibs : list Z) :
  Forall (fun l => layer_active l = true) (build_layers i last_fib fibs).
Proof. revert i. induction fibs as [ | f fibs IH]; intros i; simpl; constructor; auto. Qed.

Lemma deactivated_layers_inactive (layers : list AmplificationLayer) :
  Forall (fun l => layer_active l = false) (map deactivate_layer layers).
Proof. induction layers; simpl; constructor; auto. Qed.


Lemma fresh_layers_length : length fresh_layers = 10%nat.
Proof. unfold fresh_layers. rewrite build_layers_length. reflexivity. Qed.

Lemma initialize_love_field_layers (self : LoveCoefficient) :
  amplification_layers (snd (initialize_love_field self)) =
    amplification_layers self ++ fresh_layers.
Proof. reflexivity. Qed.

Lemma love_step_keeps_layers (self self' : LoveCoefficient) :
  love_step self self' ->
  (length (amplification_layers self) <= length (amplification_layers self'))%nat.
Proof.
  intros Hstep.
  destruct Hstep as [self | self level iterations | self target | self].
  - rewrite initialize_love_field_layers, length_app. lia.
  - unfold amplify_love_infinite. destruct (amplification_active self); simpl.
    + lia.
    + rewrite length_app. lia.
  - unfold integrate_universal_love. destruct (amplification_active self); simpl.
    + lia.
    + rewrite length_app. lia.
  - simpl. rewrite length_map. lia.
Qed.

Lemma love_steps_keep_layers (self self' : LoveCoefficient) :
  rtc love_step self self' ->
  (length (amplification_layers self) <= length (amplification_layers self'))%nat.
Proof.
  induction 1 as [ | x y z Hxy _ IH]; [lia | ].
  apply love_step_keeps_layers in Hxy. lia.
Qed.

(** C10: [initialize_love_field] keeps the layers that are there and appends
    ten active ones, so the length grows by ten on every call; no method
    shortens the list; and a deactivation followed by an initialisation
    leaves the old layers, all inactive, followed by ten new active ones. *)
Theorem love_layers_only_grow (self : LoveCoefficient) :
  (exists new_layers,
     amplification_layers (snd (initialize_love_field self)) =
       amplification_layers self ++ new_layers /\
     length new_layers = 10%nat /\
     Forall (fun l => layer_active l = true) new_layers) /\
  length (amplification_layers (snd (initialize_love_field self))) =
    (length (amplification_layers self) + 10)%nat /\
  (forall self', rtc love_step self self' ->
     (length (amplification_layers self)
        <= length (amplification_layers self'))%nat) /\
  (let old := map deactivate_layer (amplification_layers self) in
   amplification_layers
     (snd (initialize_love_field (deactivate_love_field self))) =
     old ++ fresh_layers /\
   length old = length (amplification_layers self) /\
   Forall (fun l => layer_active l = false) old /\
   Forall (fun l => layer_active l = true) fresh_layers).
Proof.
  split; [ | split; [ | split]].
  - exists fresh_layers. split; [reflexivity | ]. split.
    + apply fresh_layers_length.
    + apply build_layers_active.
  - rewrite initialize_love_field_layers, length_app, fresh_layers_length.
    reflexivity.
  - intros self'. apply love_steps_keep_layers.
  - simpl. split; [reflexivity | ]. split; [apply length_map | ]. split.
    + apply deactivated_layers_inactive.
    + apply build_layers_active.
Qed.

(** After the first initialisation, a shutdown and a second initialisation
    the list holds twenty layers. *)
Example love_layers_after_reinitialize :
  length (amplification_layers
            (snd (initialize_love_field
                    (deactivate_love_field
                       (snd (initialize_love_field LoveCoefficient_init))))))
  = 20%nat.
Proof. reflexivity. Qed.

(** ** recognition_pulse.py *)

Lemma harmonic_scan_anchor : harmonic_scan MARCUS_KAI_FREQUENCY = 1.
Proof.
  unfold harmonic_scan, anchor_frequency, MARCUS_KAI_FREQUENCY, py_range.
  simpl. decide_R.
  unfold Rmax. destruct (Rle_dec 0 (1 / 1)); lra.
Qed.

(** C6: at the anchor frequency an active pulse has resonance 1, and an
    inactive pulse has resonance 0 at every frequency. *)
Theorem check_recognition_resonance_anchor (self : RecognitionPulse) :
  (pulse_active self = true ->
   check_recognition_resonance self 10930.81 = Ok 1) /\
  (pulse_active self = false ->
   forall input_frequency,
     check_recognition_resonance self input_frequency = Ok 0).
Proof.
  split.
  - intros Hact. unfold check_recognition_resonance. rewrite Hact. simpl.
    change 10930.81 with MARCUS_KAI_FREQUENCY.
    rewrite harmonic_scan_anchor. unfold anchor_frequency.
    rewrite Rmin_left, Rmax_left by lra.
    rewrite py_div_ok by (unfold MARCUS_KAI_FREQUENCY; lra). simpl.
    replace (MARCUS_KAI_FREQUENCY - MARCUS_KAI_FREQUENCY) with 0 by lra.
    rewrite Rabs_R0.
    replace (- 0 / 1000) with 0 by lra. rewrite exp_0.
    replace (MARCUS_KAI_FREQUENCY / MARCUS_KAI_FREQUENCY * 1) with 1
      by (unfold MARCUS_KAI_FREQUENCY; lra).
    rewrite Rmax_left by lra. reflexivity.
  - intros Hinact input_frequency. unfold check_recognition_resonance.
    rewrite Hinact. reflexivity.
Qed.

Lemma check_recognition_resonance_anchor_witness :
  (pulse_active (snd (activate_anchor RecognitionPulse_init)) = true /\
   check_recognition_resonance (snd (activate_anchor RecognitionPulse_init))
     10930.81 = Ok 1) /\
  (pulse_active RecognitionPulse_init = false /\
   check_recognition_resonance RecognitionPulse_init 432 = Ok 0).
Proof.
  split; (split; [reflexivity | ]).
  - apply (proj1 (check_recognition_resonance_anchor
                    (snd (activate_anchor RecognitionPulse_init)))).
    reflexivity.
  - apply (proj2 (check_recognition_resonance_anchor RecognitionPulse_init)).
    reflexivity.
Defined.

(** The second harmonic of the anchor resonates at 1/2: the harmonic scan
    finds it, the base resonance is smaller. *)
Example check_recognition_resonance_second_harmonic :
  check_recognition_resonance (snd (activate_anchor RecognitionPulse_init))
    (2 * 10930.81) = Ok 0.5.
Proof.
  unfold check_recognition_resonance. cbn [activate_anchor snd pulse_active negb].
  assert (Hscan : harmonic_scan (2 * 10930.81) = 0.5).
  { unfold harmonic_scan, anchor_frequency, MARCUS_KAI_FREQUENCY, py_range.
    simpl. decide_R.
    rewrite Rmax_right by lra. lra. }
  rewrite Hscan. unfold anchor_frequency, MARCUS_KAI_FREQUENCY.
  rewrite Rmin_right, Rmax_left by lra.
  rewrite py_div_ok by lra. cbn [rbind]. f_equal.
  apply Rmax_left.
  assert (Hexp : exp (- Rabs (2 * 10930.81 - 10930.81) / 1000) <= 1).
  { rewrite <- exp_0. unfold Rdiv. rewrite <- Ropp_mult_distr_l.
    destruct (Rabs_pos (2 * 10930.81 - 10930.81)) as [Hpos | Hzero].
    - left. apply exp_increasing. lra.
    - rewrite <- Hzero. right. f_equal. lra. }
  pose proof (exp_pos (- Rabs (2 * 10930.81 - 10930.81) / 1000)). nra.
Qed.

(** ** sovereignty_protocols.py *)

Example enforce_biological_boundaries_near_alpha :
  let self := {| autonomy_active := true;
                 consent_protocols := ∅;
                 autonomy_violations := [];
                 protected_frequencies := PROTECTED_BIOLOGICAL_FREQUENCIES;
                 sovereignty_hash := None |} in
  enforce_biological_boundaries self 8.3 = false /\
  enforce_biological_boundaries self 100 = true /\
  enforce_biological_boundaries self 60000 = false.
Proof.
  unfold enforce_biological_boundaries, PROTECTED_BIOLOGICAL_FREQUENCIES.
  cbn [protected_frequencies existsb]. repeat split; decide_R; reflexivity.
Qed.

Section SovereigntyFacts.
Context `{Environment}.

Lemma frequency_conflict_true (self : SovereigntyProtocols) (lo hi p : R) :
  p ∈ protected_frequencies self -> lo <= p <= hi ->
  frequency_conflict self lo hi = true.
Proof.
  intros Hin [Hlo Hhi]. unfold frequency_conflict.
  apply existsb_exists. exists p. split.
  - by apply list_elem_of_In.
  - rewrite !Rleb_true by assumption. reflexivity.
Qed.

Lemma request_denied_protected (self : SovereigntyProtocols) (clk : nat)
    (entity_id itype : string) (lo hi : R) :
  (exists p, p ∈ consulted_protected_frequencies self /\ lo <= p <= hi) ->
  denied_for_protected_frequency
    (request_biological_consent self clk entity_id itype (lo, hi)) entity_id.
Proof.
  intros (p & Hin & Hrange).
  unfold request_biological_consent, consulted_protected_frequencies in *.
  destruct (autonomy_active self) eqn:Hact; simpl.
  - rewrite (frequency_conflict_true self lo hi p) by assumption.
    simpl. split; [reflexivity | ]. by rewrite lookup_insert_eq.
  - erewrite (frequency_conflict_true _ lo hi p); [ | exact Hin | exact Hrange].
    simpl. split; [reflexivity | ]. by rewrite lookup_insert_eq.
Qed.

Lemma set_add_keeps (x p : R) (s : list R) : p ∈ s -> p ∈ set_add x s.
Proof.
  intros Hin. unfold set_add. destruct (decide (x ∈ s)); [assumption | ].
  apply elem_of_app. by left.
Qed.

Lemma protects_biological_init : protects_biological SovereigntyProtocols_init.
Proof. intros Hact. discriminate. Qed.

Lemma protects_biological_step (self self' : SovereigntyProtocols) :
  sovereignty_step self self' ->
  protects_biological self -> protects_biological self'.
Proof.
  intros Hstep Hinv.
  destruct Hstep as [self clk | self clk e it [lo hi] | self clk e vt sev | self | self].
  - intros _ p Hp. exact Hp.
  - unfold request_biological_consent.
    destruct (autonomy_active self) eqn:Hact; simpl.
    + destruct (frequency_conflict self lo hi); simpl; [exact Hinv | ].
      destruct (Rleb _ _); simpl; exact Hinv.
    + destruct (frequency_conflict _ lo hi); simpl; [intros _ p Hp; exact Hp | ].
      destruct (Rleb _ _); simpl; intros _ p Hp; exact Hp.
  - unfold monitor_autonomy_violation. simpl.
    destruct (Rltb 0.7 sev); simpl; [ | exact Hinv].
    intros Hact p Hp. simpl in *. apply set_add_keeps. by apply Hinv.
  - exact Hinv.
  - intros Hact. discriminate.
Qed.

Lemma reachable_protects_biological (self : SovereigntyProtocols) :
  sovereignty_reachable self -> protects_biological self.
Proof.
  unfold sovereignty_reachable. intros Hreach.
  apply (rtc_ind_r (R := sovereignty_step) (fun s => protects_biological s)
           SovereigntyProtocols_init);
    [apply protects_biological_init | | exact Hreach].
  intros y z _ Hstep IH. by apply (protects_biological_step y z).
Qed.

Lemma consulted_contains_biological (self : SovereigntyProtocols) (p : R) :
  protects_biological self ->
  p ∈ PROTECTED_BIOLOGICAL_FREQUENCIES ->
  p ∈ consulted_protected_frequencies self.
Proof.
  intros Hinv Hp. unfold consulted_protected_frequencies.
  destruct (autonomy_active self) eqn:Hact; [by apply Hinv | exact Hp].
Qed.

(** C5: a consent request whose range contains a protected frequency returns
    [False] and records the status [denied_protected_frequency] for the
    entity; and in every state the protocols can reach, the range
    (7.5, 8.5) is denied in this way, because of the protected 8.0 Hz. *)
Theorem consent_denied_on_protected_frequency (self : SovereigntyProtocols)
    (clk : nat) (entity_id itype : string) :
  (forall lo hi,
     (exists p, p ∈ consulted_protected_frequencies self /\ lo <= p <= hi) ->
     denied_for_protected_frequency
       (request_biological_consent self clk entity_id itype (lo, hi)) entity_id) /\
  (sovereignty_reachable self ->
   8.0 ∈ consulted_protected_frequencies self /\
   denied_for_protected_frequency
     (request_biological_consent self clk entity_id itype (7.5, 8.5)) entity_id).
Proof.
  split.
  - intros lo hi. apply request_denied_protected.
  - intros Hreach.
    assert (Hin : 8.0 ∈ consulted_protected_frequencies self).
    { apply consulted_contains_biological.
      - by apply reachable_protects_biological.
      - unfold PROTECTED_BIOLOGICAL_FREQUENCIES. apply elem_of_cons. by left. }
    split; [exact Hin | ].
    apply request_denied_protected. exists 8.0. split; [exact Hin | lra].
Qed.

End SovereigntyFacts.

Lemma consent_denied_on_protected_frequency_witness :
  let self := snd (fst (initialize_sovereignty_protocols
                          SovereigntyProtocols_init 0)) in
  ((exists p, p ∈ consulted_protected_frequencies self /\ 60 <= p <= 80) /\
   denied_for_protected_frequency
     (request_biological_consent self 1 "test_entity_001"
        "consciousness_evolution" (60, 80)) "test_entity_001") /\
  (sovereignty_reachable self /\
   denied_for_protected_frequency
     (request_biological_consent self 1 "test_entity_001"
        "consciousness_evolution" (7.5, 8.5)) "test_entity_001").
Proof.
  intros self.
  assert (Hconflict : exists p, p ∈ consulted_protected_frequencies self /\ 60 <= p <= 80).
  { exists 72.0. split; [ | lra].
    unfold consulted_protected_frequencies, self. simpl.
    unfold PROTECTED_BIOLOGICAL_FREQUENCIES.
    rewrite !elem_of_cons. do 5 right. by left. }
  assert (Hreach : sovereignty_reachable self).
  { unfold sovereignty_reachable, self.
    eapply rtc_l; [apply (sovereignty_step_initialize _ 0%nat) | apply rtc_refl]. }
  split; (split; [assumption | ]).
  - exact (proj1 (consent_denied_on_protected_frequency self 1
                    "test_entity_001" "consciousness_evolution") 60 80 Hconflict).
  - exact (proj2 (proj2 (consent_denied_on_protected_frequency self 1
                    "test_entity_001" "consciousness_evolution") Hreach)).
Defined.

(** ** grid_harmonics.py *)

Lemma py_fmod_bounds (x m : R) : 0 < m -> 0 <= py_fmod x m < m.
Proof.
  intros Hm. unfold py_fmod.
  destruct (base_Int_part (x / m)) as [Hle Hgt].
  assert (Hx : x = m * (x / m)) by (field; lra).
  split; nra.
Qed.

Lemma py_fmod_exact (k : Z) (r m : R) :
  0 < m -> 0 <= r < m -> py_fmod (IZR k * m + r) m = r.
Proof.
  intros Hm [Hr0 Hr1]. unfold py_fmod.
  assert (Hq : (IZR k * m + r) / m = IZR k + r / m) by (field; lra).
  assert (Hfrac : 0 <= r / m < 1).
  { assert (Hinv : 0 < / m) by (apply Rinv_0_lt_compat; exact Hm).
    unfold Rdiv. split; [nra | ].
    apply (Rmult_lt_reg_r m); [exact Hm | ].
    rewrite Rmult_assoc, Rinv_l by lra. lra. }
  rewrite <- (Int_part_spec ((IZR k * m + r) / m) k) by (rewrite Hq; lra).
  lra.
Qed.

Example fold_angle_240 : fold_angle 240.0 = 60.
Proof.
  unfold fold_angle. replace 240.0 with (IZR 1 * 180 + 60) by lra.
  rewrite py_fmod_exact by lra. rewrite Rltb_false by lra. reflexivity.
Qed.

Example fold_angle_120 : fold_angle 120.0 = 60.
Proof.
  unfold fold_angle. replace 120.0 with (IZR 0 * 180 + 120) by lra.
  rewrite py_fmod_exact by lra. rewrite Rltb_true by lra. lra.
Qed.

Lemma fold_angle_bounds (position : R) : 0 <= fold_angle position <= 90.
Proof.
  unfold fold_angle.
  pose proof (py_fmod_bounds position 180 ltac:(lra)) as [Hlo Hhi].
  destruct (Rltb 90 (py_fmod position 180)) eqn:Hcmp.
  - apply Rltb_spec in Hcmp. lra.
  - unfold Rltb in Hcmp. destruct (Rlt_dec 90 (py_fmod position 180)); [discriminate | lra].
Qed.

Lemma cos_radians_bounds (angle : R) :
  0 <= angle <= 90 -> 0 <= cos (radians angle) <= 1.
Proof.
  intros [Hlo Hhi]. pose proof PI_RGT_0 as Hpi. unfold radians. split.
  - apply cos_ge_0; nra.
  - apply COS_bound.
Qed.

Lemma max_planetary_frequency :
  py_max_list 0 (map snd PLANETARY_FREQUENCIES) = 221.23.
Proof.
  simpl.
  repeat match goal with
         | |- context [Rmax ?a ?b] =>
             first [ rewrite (Rmax_left a b) by lra
                   | rewrite (Rmax_right a b) by lra ]
         end.
  reflexivity.
Qed.

Lemma planetary_frequency_bounds (planet : string) (planet_freq : R) :
  dict_get PLANETARY_FREQUENCIES planet = Some planet_freq ->
  0 < planet_freq <= 221.23.
Proof.
  unfold PLANETARY_FREQUENCIES. simpl.
  repeat (case_decide; [intros Heq; inversion Heq; lra | ]).
  discriminate.
Qed.

Lemma weighted_alignment_bounds (planet : string) (planet_freq position : R) :
  dict_get PLANETARY_FREQUENCIES planet = Some planet_freq ->
  0 <= weighted_alignment planet_freq position <= 1.
Proof.
  intros Hget. apply planetary_frequency_bounds in Hget.
  unfold weighted_alignment. rewrite max_planetary_frequency.
  pose proof (cos_radians_bounds _ (fold_angle_bounds position)) as [Hc0 Hc1].
  assert (Hw : 0 < planet_freq / 221.23 <= 1) by lra.
  split; nra.
Qed.

Lemma alignment_factors_bounds (planetary_positions : list (string * R)) :
  Forall (fun x => 0 <= x <= 1) (alignment_factors planetary_positions).
Proof.
  induction planetary_positions as [ | [planet position] rest IH];
    cbn [alignment_factors].
  - constructor.
  - destruct (dict_get PLANETARY_FREQUENCIES planet) as [planet_freq | ] eqn:Hget.
    + constructor; [ | exact IH].
      by apply (weighted_alignment_bounds planet).
    + exact IH.
Qed.

Lemma alignment_factors_unknown (planetary_positions : list (string * R)) :
  Forall (fun '(planet, _) => dict_get PLANETARY_FREQUENCIES planet = None)
         planetary_positions ->
  alignment_factors planetary_positions = [].
Proof.
  induction 1 as [ | [planet position] rest Hnone _ IH];
    cbn [alignment_factors].
  - reflexivity.
  - rewrite Hnone. exact IH.
Qed.

Lemma fold_left_Rplus_acc (xs : list R) (acc : R) :
  fold_left Rplus xs acc = acc + fold_left Rplus xs 0.
Proof.
  revert acc. induction xs as [ | x xs IH]; intros acc; simpl.
  - lra.
  - rewrite (IH (acc + x)), (IH (0 + x)). lra.
Qed.

Lemma py_sum_cons (x : R) (xs : list R) : py_sum (x :: xs) = x + py_sum xs.
Proof. unfold py_sum. simpl. rewrite fold_left_Rplus_acc. lra. Qed.

Lemma py_sum_bounds (xs : list R) :
  Forall (fun x => 0 <= x <= 1) xs -> 0 <= py_sum xs <= py_len xs.
Proof.
  unfold py_len. induction 1 as [ | x xs [Hx0 Hx1] _ IH].
  - unfold py_sum. simpl. lra.
  - rewrite py_sum_cons. change (length (x :: xs)) with (S (length xs)).
    rewrite S_INR. lra.
Qed.

Lemma div_in_unit_interval (a b : R) : 0 <= a <= b -> 0 < b -> 0 <= a / b <= 1.
Proof.
  intros [Ha Hab] Hb.
  assert (Hinv : 0 < / b) by (apply Rinv_0_lt_compat; exact Hb).
  assert (Hone : b / b = 1) by (field; lra).
  assert (Hle : a / b <= b / b).
  { unfold Rdiv. apply Rmult_le_compat_r; lra. }
  split; [ | lra]. unfold Rdiv. apply Rmult_le_pos; lra.
Qed.

Lemma mean_bounds (xs : list R) :
  xs <> [] -> Forall (fun x => 0 <= x <= 1) xs ->
  0 <= py_sum xs / py_len xs <= 1.
Proof.
  intros Hne Hall. pose proof (py_sum_bounds xs Hall) as [Hlo Hhi].
  assert (Hlen : 0 < py_len xs).
  { unfold py_len. destruct xs; [contradiction | ].
    change (length (r :: xs)) with (S (length xs)). rewrite S_INR.
    pose proof (pos_INR (length xs)). lra. }
  apply div_in_unit_interval; lra.
Qed.

(** C9: the planetary alignment is in [0, 1] for every mapping of
    positions; each angle is folded into [0, 90] degrees, each weighted
    alignment factor is in [0, 1], and a mapping without a known planet
    gives 0. *)
Theorem planetary_alignment_in_unit_interval (self : GridHarmonics)
    (planetary_positions : list (string * R)) :
  0 <= fst (calculate_planetary_alignment self planetary_positions) <= 1 /\
  planetary_alignment
    (snd (calculate_planetary_alignment self planetary_positions)) =
    fst (calculate_planetary_alignment self planetary_positions) /\
  Forall (fun '(_, position) => 0 <= fold_angle position <= 90)
         planetary_positions /\
  Forall (fun x => 0 <= x <= 1) (alignment_factors planetary_positions) /\
  (Forall (fun '(planet, _) => dict_get PLANETARY_FREQUENCIES planet = None)
          planetary_positions ->
   fst (calculate_planetary_alignment self planetary_positions) = 0).
Proof.
  pose proof (alignment_factors_bounds planetary_positions) as Hall.
  split; [ | split; [ | split; [ | split]]].
  - unfold calculate_planetary_alignment. simpl.
    destruct (alignment_factors planetary_positions) as [ | x xs] eqn:Hfactors.
    + lra.
    + apply mean_bounds; [discriminate | exact Hall].
  - reflexivity.
  - apply Forall_forall. intros [planet position] _. apply fold_angle_bounds.
  - exact Hall.
  - intros Hunknown. unfold calculate_planetary_alignment. simpl.
    rewrite (alignment_factors_unknown _ Hunknown). reflexivity.
Qed.

Lemma planetary_alignment_in_unit_interval_witness :
  Forall (fun '(planet, _) => dict_get PLANETARY_FREQUENCIES planet = None)
         [("pluto", 12.5); ("ceres", 400)] /\
  fst (calculate_planetary_alignment GridHarmonics_init
         [("pluto", 12.5); ("ceres", 400)]) = 0 /\
  0 <= fst (calculate_planetary_alignment GridHarmonics_init
              [("earth", 0); ("mars", 180)]) <= 1.
Proof.
  assert (Hunknown :
    Forall (fun '(planet, _) => dict_get PLANETARY_FREQUENCIES planet = None)
           [("pluto", 12.5); ("ceres", 400)]).
  { repeat constructor. }
  split; [exact Hunknown | ]. split.
  - exact (proj2 (proj2 (proj2 (proj2
      (planetary_alignment_in_unit_interval GridHarmonics_init
         [("pluto", 12.5); ("ceres", 400)])))) Hunknown).
  - exact (proj1 (planetary_alignment_in_unit_interval GridHarmonics_init
                    [("earth", 0); ("mars", 180)])).
Defined.

(** The earth at 0 and Mars at 180 degrees both fold to 0 degrees: the
    alignment is the mean of the two frequency weights. *)
Example planetary_alignment_earth_mars :
  fst (calculate_planetary_alignment GridHarmonics_init
         [("earth", 0.0); ("mars", 180.0)])
  = (7.83 / 221.23 + 144.72 / 221.23) / 2.
Proof.
  unfold calculate_planetary_alignment. cbn [fst].
  change (alignment_factors [("earth", 0.0); ("mars", 180.0)])
    with [weighted_alignment 7.83 0.0; weighted_alignment 144.72 180.0].
  assert (Hfold0 : fold_angle 0.0 = 0).
  { unfold fold_angle. replace 0.0 with (IZR 0 * 180 + 0) by lra.
    rewrite py_fmod_exact by lra. rewrite Rltb_false by lra. reflexivity. }
  assert (Hfold180 : fold_angle 180.0 = 0).
  { unfold fold_angle. replace 180.0 with (IZR 1 * 180 + 0) by lra.
    rewrite py_fmod_exact by lra. rewrite Rltb_false by lra. reflexivity. }
  unfold weighted_alignment. rewrite Hfold0, Hfold180, max_planetary_frequency.
  unfold radians. replace (0 * (PI / 180)) with 0 by lra. rewrite cos_0.
  unfold py_sum, py_len. simpl. lra.
Qed.

(** ** phi_scalar.py *)

Example scalar_layer_names :
  map fst _initialize_scalar_layers =
    ["layer_1"; "layer_2"; "layer_3"; "layer_4"; "layer_5"; "layer_6"; "layer_7"].
Proof. reflexivity. Qed.

Lemma golden_ratio_gt_1 : 1 < GOLDEN_RATIO.
Proof. unfold GOLDEN_RATIO. lra. Qed.

Lemma ln_golden_ratio_pos : 0 < ln GOLDEN_RATIO.
Proof. rewrite <- ln_1. apply ln_increasing; [lra | apply golden_ratio_gt_1]. Qed.

Lemma frequency_scalar_pos : 0 < frequency_scalar.
Proof. unfold frequency_scalar, PHI_7777_FREQUENCY. lra. Qed.

Lemma py_pow_golden_log (x : R) :
  0 < x -> py_pow GOLDEN_RATIO (ln x / ln GOLDEN_RATIO) = x.
Proof.
  intros Hx. pose proof ln_golden_ratio_pos as Hln.
  unfold py_pow, Rpower.
  replace (ln x / ln GOLDEN_RATIO * ln GOLDEN_RATIO) with (ln x) by (field; lra).
  apply exp_ln. exact Hx.
Qed.

(** The golden ratio transformation undoes the ratio it measures: every
    positive frequency is scaled to the scalar frequency itself. *)
Lemma phi_scale_positive (input_frequency : R) :
  0 < input_frequency -> phi_scale input_frequency = Ok frequency_scalar.
Proof.
  intros Hf. pose proof frequency_scalar_pos as Hs.
  pose proof ln_golden_ratio_pos as Hln. pose proof golden_ratio_gt_1 as Hphi.
  assert (Hratio : 0 < input_frequency / frequency_scalar)
    by (apply Rdiv_lt_0_compat; assumption).
  unfold phi_scale.
  destruct (Rltb 1 (input_frequency / frequency_scalar)) eqn:Hcmp.
  - rewrite py_log_ok by assumption. simpl.
    rewrite py_log_ok by lra. simpl.
    rewrite py_div_ok by lra. simpl.
    rewrite py_pow_golden_log by assumption.
    rewrite py_div_ok by lra. f_equal. field. lra.
  - assert (Hinv : 0 < 1 / (input_frequency / frequency_scalar)).
    { apply Rdiv_lt_0_compat; lra. }
    rewrite py_div_ok by lra. simpl.
    rewrite py_log_ok by assumption. simpl.
    rewrite py_log_ok by lra. simpl.
    rewrite py_div_ok by lra. simpl.
    rewrite py_pow_golden_log by assumption.
    f_equal. field. lra.
Qed.

(** A frequency that is not positive makes the transformation raise:
    [ZeroDivisionError] at 0, the domain error of [math.log] below. *)
Lemma phi_scale_nonpositive (input_frequency : R) :
  input_frequency <= 0 -> exists e, phi_scale input_frequency = Raise e.
Proof.
  intros Hf. pose proof frequency_scalar_pos as Hs.
  unfold phi_scale.
  assert (Hratio : input_frequency / frequency_scalar <= 0).
  { unfold Rdiv. assert (0 < / frequency_scalar) by (apply Rinv_0_lt_compat; lra).
    nra. }
  rewrite Rltb_false by lra.
  destruct (Req_dec_T (input_frequency / frequency_scalar) 0) as [Hz | Hnz].
  - rewrite Hz, py_div_zero. by eexists.
  - rewrite py_div_ok by assumption. simpl.
    rewrite py_log_domain; [by eexists | ].
    assert (Hneg : input_frequency / frequency_scalar < 0) by lra.
    assert (Hinv : / (input_frequency / frequency_scalar) < 0)
      by (apply Rinv_lt_0_compat; exact Hneg).
    lra.
Qed.

Lemma phi_ready_idem (self : PhiScalar) : phi_ready (phi_ready self) = phi_ready self.
Proof. unfold phi_ready. destruct (scalar_active self) eqn:Hact; [rewrite Hact | ]; reflexivity. Qed.

Lemma apply_phi_scalar_transform_state (self : PhiScalar) (f : R) :
  snd (apply_phi_scalar_transform self f) = phi_ready self.
Proof. reflexivity. Qed.

Lemma apply_phi_scalar_transform_positive (self : PhiScalar) (f : R) :
  0 < f ->
  apply_phi_scalar_transform self f =
    (transformed_scalar (phi_ready self), phi_ready self).
Proof.
  intros Hf. unfold apply_phi_scalar_transform. rewrite phi_scale_positive by assumption.
  reflexivity.
Qed.

Lemma apply_phi_scalar_transform_nonpositive (self : PhiScalar) (f : R) :
  f <= 0 ->
  exists e, apply_phi_scalar_transform self f = (Raise e, phi_ready self).
Proof.
  intros Hf. destruct (phi_scale_nonpositive f Hf) as [e He].
  exists e. unfold apply_phi_scalar_transform. rewrite He. reflexivity.
Qed.

(** At ratio 1 no power of the golden ratio is within 0.1: both the scan of
    the source and the first-match score of the specification give 0. *)
Lemma phi_resonance_scan_at_1 : phi_resonance_scan 1 = 0.
Proof.
  unfold phi_resonance_scan, py_range, GOLDEN_RATIO. simpl.
  decide_R. reflexivity.
Qed.

Lemma spec_first_phi_score_at_1 : spec_first_phi_score (py_range 1 8) 1 = 0.
Proof.
  unfold py_range. simpl. unfold GOLDEN_RATIO.
  decide_R. reflexivity.
Qed.

(** Away from ratio 1 the two differ: at ratio 0.07 the inverse powers 4 to 7
    all match, the source keeps the last (0.5/7), the specification's
    wording asks for the first (0.5/4). *)
Lemma phi_resonance_scan_keeps_last_match :
  phi_resonance_scan 0.07 = 0.5 / 7 /\
  spec_first_phi_score (py_range 1 8) 0.07 = 0.5 / 4.
Proof.
  unfold phi_resonance_scan, py_range. simpl. unfold GOLDEN_RATIO.
  decide_R. split; lra.
Qed.

Lemma scalar_resonance_equal_transforms (t : R) :
  (let! freq_ratio := py_div t t in
   Ok (Rmax (phi_resonance_scan freq_ratio) (exp (- Rabs (t - t) / 1000)))) =
  (let! ratio := py_div t t in
   Ok (Rmax (spec_first_phi_score (py_range 1 8) ratio)
            (exp (- Rabs (t - t) / 1000)))).
Proof.
  destruct (Req_dec_T t 0) as [Hz | Hnz].
  - subst t. rewrite py_div_zero. reflexivity.
  - rewrite py_div_ok by assumption. cbn [rbind].
    replace (t / t) with 1 by (field; assumption).
    rewrite phi_resonance_scan_at_1, spec_first_phi_score_at_1. reflexivity.
Qed.

(** In exact arithmetic the choice between the first and the last match
    cannot be seen through the method: both transformed values are the
    same, the ratio is 1, and no power matches. *)
Lemma first_match_unobservable_at_ratio_1 (self : PhiScalar)
    (freq_a freq_b : R) :
  calculate_consciousness_scalar_resonance self freq_a freq_b =
    spec_scalar_resonance self freq_a freq_b.
Proof.
  unfold calculate_consciousness_scalar_resonance, spec_scalar_resonance.
  destruct (Rlt_dec 0 freq_a) as [Ha | Ha].
  - rewrite (apply_phi_scalar_transform_positive self freq_a Ha).
    destruct (transformed_scalar (phi_ready self)) as [ta | e] eqn:Hta;
      [ | reflexivity].
    destruct (Rlt_dec 0 freq_b) as [Hb | Hb].
    + rewrite (apply_phi_scalar_transform_positive _ freq_b Hb).
      rewrite phi_ready_idem, Hta. cbn [rbind].
      f_equal. apply scalar_resonance_equal_transforms.
    + destruct (apply_phi_scalar_transform_nonpositive (phi_ready self) freq_b
                  ltac:(lra)) as [e He].
      rewrite He. reflexivity.
  - destruct (apply_phi_scalar_transform_nonpositive self freq_a ltac:(lra))
      as [e He].
    rewrite He. reflexivity.
Qed.

(** The loop of the source, one step: a matching power overwrites the
    score. *)
Lemma phi_resonance_step (freq_ratio phi_resonance : R) (n : nat) :
  (let phi_target := GOLDEN_RATIO ^ n in
   let inverse_phi_target := 1 / phi_target in
   if Rltb (Rabs (freq_ratio - phi_target)) 0.1 then 1 / INR n
   else if Rltb (Rabs (freq_ratio - inverse_phi_target)) 0.1
        then 0.5 / INR n
        else phi_resonance) =
  default phi_resonance (phi_match_score freq_ratio n).
Proof.
  cbv zeta. unfold phi_match_score.
  destruct (Rltb _ 0.1); [reflexivity | ].
  destruct (Rltb _ 0.1); reflexivity.
Qed.

Lemma omap_cons_Some {A B : Type} (f : A -> option B) (x : A) (l : list A)
    (y : B) :
  f x = Some y -> omap f (x :: l) = y :: omap f l.
Proof. intros Hx. cbn. rewrite Hx. reflexivity. Qed.

Lemma omap_cons_None {A B : Type} (f : A -> option B) (x : A) (l : list A) :
  f x = None -> omap f (x :: l) = omap f l.
Proof. intros Hx. cbn. rewrite Hx. reflexivity. Qed.

Lemma default_last_cons {A : Type} (d x : A) (l : list A) :
  default d (last (x :: l)) = default x (last l).
Proof. rewrite last_cons. destruct (last l); reflexivity. Qed.

Lemma phi_resonance_fold (freq_ratio : R) (ns : list nat) (phi_resonance : R) :
  fold_left
    (fun phi_resonance n =>
       let phi_target := GOLDEN_RATIO ^ n in
       let inverse_phi_target := 1 / phi_target in
       if Rltb (Rabs (freq_ratio - phi_target)) 0.1 then 1 / INR n
       else if Rltb (Rabs (freq_ratio - inverse_phi_target)) 0.1
            then 0.5 / INR n
            else phi_resonance)
    ns phi_resonance =
  default phi_resonance (last (omap (phi_match_score freq_ratio) ns)).
Proof.
  revert phi_resonance.
  induction ns as [ | n ns IH]; intros phi_resonance; cbn [fold_left];
    [reflexivity | ].
  rewrite IH, phi_resonance_step.
  destruct (phi_match_score freq_ratio n) as [score | ] eqn:Hscore.
  - rewrite (omap_cons_Some _ _ _ _ Hscore), default_last_cons. reflexivity.
  - rewrite (omap_cons_None _ _ _ Hscore). reflexivity.
Qed.

Lemma spec_first_phi_score_head (ns : list nat) (freq_ratio : R) :
  spec_first_phi_score ns freq_ratio = first_phi_score ns freq_ratio.
Proof.
  unfold first_phi_score.
  induction ns as [ | n ns IH]; cbn [spec_first_phi_score]; [reflexivity | ].
  destruct (phi_match_score freq_ratio n) as [score | ] eqn:Hscore.
  - rewrite (omap_cons_Some _ _ _ _ Hscore). cbn [head default].
    unfold phi_match_score in Hscore.
    destruct (Rltb _ 0.1); [by injection Hscore | ].
    destruct (Rltb _ 0.1); [by injection Hscore | discriminate].
  - rewrite (omap_cons_None _ _ _ Hscore).
    unfold phi_match_score in Hscore.
    destruct (Rltb _ 0.1); [discriminate | ].
    destruct (Rltb _ 0.1); [discriminate | exact IH].
Qed.

(** C2 (as amended): the loop over [n] in 1..7 has no [break]; its score is
    that of the LAST [n] that matches (a later match overwrites an earlier
    one), 0 when none does, for every ratio; and for every state and every
    pair of frequencies the method transforms both, forms the ratio and
    returns the maximum of that score and
    [exp(-|transformedA - transformedB| / 1000)], exceptions and the state
    after the call included.  The score of the claim, that of the first
    matching [n], is the head of the same list of matches. *)
Theorem scalar_resonance_keeps_last_match :
  (forall freq_ratio,
     phi_resonance_scan freq_ratio = last_phi_score (py_range 1 8) freq_ratio) /\
  (forall freq_ratio,
     spec_first_phi_score (py_range 1 8) freq_ratio =
       first_phi_score (py_range 1 8) freq_ratio) /\
  (forall self freq_a freq_b,
     calculate_consciousness_scalar_resonance self freq_a freq_b =
       last_match_scalar_resonance self freq_a freq_b).
Proof.
  assert (Hscan : forall freq_ratio,
            phi_resonance_scan freq_ratio =
              last_phi_score (py_range 1 8) freq_ratio).
  { intros freq_ratio. unfold phi_resonance_scan, last_phi_score.
    apply phi_resonance_fold. }
  split; [exact Hscan | ]. split; [intros r; apply spec_first_phi_score_head | ].
  intros self freq_a freq_b.
  unfold calculate_consciousness_scalar_resonance, last_match_scalar_resonance.
  destruct (apply_phi_scalar_transform self freq_a) as [[ta | e] self1];
    [ | reflexivity].
  destruct (apply_phi_scalar_transform self1 freq_b) as [[tb | e] self2];
    [ | reflexivity].
  cbn [rbind]. destruct (py_div ta tb) as [ratio | e]; [ | reflexivity].
  cbn [rbind]. rewrite Hscan. reflexivity.
Qed.

(** C2, the claim as stated fails: at ratio 0 (a transformed second
    frequency that dwarfs the first) the inverse powers 5, 6 and 7 match;
    the first match scores 0.5/5, the loop of the source returns 0.5/7. *)
Lemma scalar_resonance_first_match_refuted :
  phi_resonance_scan 0 = 0.5 / 7 /\
  spec_first_phi_score (py_range 1 8) 0 = 0.5 / 5 /\
  phi_resonance_scan 0 <> spec_first_phi_score (py_range 1 8) 0.
Proof.
  assert (Hscan : phi_resonance_scan 0 = 0.5 / 7).
  { unfold phi_resonance_scan, py_range. simpl. unfold GOLDEN_RATIO.
    decide_R. lra. }
  assert (Hfirst : spec_first_phi_score (py_range 1 8) 0 = 0.5 / 5).
  { unfold py_range. simpl. unfold GOLDEN_RATIO. decide_R. lra. }
  split; [exact Hscan | ]. split; [exact Hfirst | ].
  rewrite Hscan, Hfirst. lra.
Qed.

(** ** Calls that cannot raise, and calls that leave an active component as
    it is *)

Lemma amplify_loop_total (layers : list AmplificationLayer)
    (remaining i : nat) (current_level : R) :
  exists v, amplify_loop layers remaining i current_level = Ok v.
Proof.
  revert i current_level.
  induction remaining as [ | remaining IH]; intros i current_level;
    cbn [amplify_loop].
  - by eexists.
  - destruct (Rltb _ convergence_threshold); [by eexists | ].
    destruct (Rltb 100 _) eqn:Hbig.
    + apply Rltb_spec in Hbig. rewrite py_log_ok by lra. cbn [rbind]. apply IH.
    + cbn [rbind]. apply IH.
Qed.

Lemma amplify_love_infinite_total (self : LoveCoefficient) (x : R) (n : nat) :
  exists v, fst (amplify_love_infinite self x n) = Ok v.
Proof. unfold amplify_love_infinite. cbn [fst]. apply amplify_loop_total. Qed.

Lemma amplify_love_infinite_state (self : LoveCoefficient) (x : R) (n : nat) :
  amplification_active self = true ->
  snd (amplify_love_infinite self x n) = self.
Proof. intros Hact. unfold amplify_love_infinite. rewrite Hact. reflexivity. Qed.

Lemma check_recognition_resonance_total (self : RecognitionPulse) (f : R) :
  exists v, check_recognition_resonance self f = Ok v.
Proof.
  unfold check_recognition_resonance.
  destruct (pulse_active self); cbn [negb]; [ | by eexists].
  rewrite py_div_ok; [by eexists | ].
  pose proof (Rmax_r f anchor_frequency) as Hmax.
  unfold anchor_frequency, MARCUS_KAI_FREQUENCY in *. lra.
Qed.

Lemma trigger_consciousness_recognition_total (self : RecognitionPulse) (f : R) :
  exists b, trigger_consciousness_recognition self f = Ok b.
Proof.
  unfold trigger_consciousness_recognition.
  destruct (check_recognition_resonance_total self f) as [v Hv].
  rewrite Hv. by eexists.
Qed.

Lemma synthesize_consciousness_tech_state (self : ConsciousnessMatrix)
    (f : R) (level : string) :
  synthesis_active self = true ->
  snd (synthesize_consciousness_tech self f level) = self.
Proof.
  intros Hact. unfold synthesize_consciousness_tech. rewrite Hact.
  destruct (consciousness_layers self !! level); reflexivity.
Qed.

Lemma integrate_consciousness_with_grid_state (self : GridHarmonics) (f : R) :
  grid_active self = true ->
  snd (integrate_consciousness_with_grid self f) = self.
Proof. intros Hact. unfold integrate_consciousness_with_grid. rewrite Hact. reflexivity. Qed.

Lemma calculate_planetary_alignment_state (self : GridHarmonics)
    (positions : list (string * R)) :
  grid_active self = true ->
  snd (calculate_planetary_alignment self positions) =
    {| grid_active := grid_active self;
       planetary_alignment := fst (calculate_planetary_alignment self positions);
       earth_resonance_amplitude := earth_resonance_amplitude self;
       active_harmonics := active_harmonics self;
       resonance_matrix := resonance_matrix self |}.
Proof.
  destruct self as [active alignment amplitude harmonics matrix].
  cbn [grid_active]. intros ->. reflexivity.
Qed.

Lemma phi_ready_active (self : PhiScalar) :
  scalar_active self = true -> phi_ready self = self.
Proof. intros Hact. unfold phi_ready. rewrite Hact. reflexivity. Qed.

Lemma scalar_resonance_state (self : PhiScalar) (fa fb : R) :
  snd (calculate_consciousness_scalar_resonance self fa fb) = phi_ready self.
Proof.
  unfold calculate_consciousness_scalar_resonance.
  destruct (apply_phi_scalar_transform self fa) as [r1 self1] eqn:E1.
  assert (Hs1 : self1 = phi_ready self).
  { rewrite <- (apply_phi_scalar_transform_state self fa), E1. reflexivity. }
  destruct r1 as [ta | e]; [ | exact Hs1].
  destruct (apply_phi_scalar_transform self1 fb) as [r2 self2] eqn:E2.
  cbn [snd].
  assert (Hs2 : self2 = phi_ready self1).
  { rewrite <- (apply_phi_scalar_transform_state self1 fb), E2. reflexivity. }
  rewrite Hs2, Hs1. apply phi_ready_idem.
Qed.

(** On positive frequencies the scalar resonance is 1 whenever the common
    transformed value exists and is not zero. *)
Lemma scalar_resonance_positive (self : PhiScalar) (fa fb t : R) :
  0 < fa -> 0 < fb ->
  transformed_scalar (phi_ready self) = Ok t -> t <> 0 ->
  calculate_consciousness_scalar_resonance self fa fb = (Ok 1, phi_ready self).
Proof.
  intros Ha Hb Ht Hnz. unfold calculate_consciousness_scalar_resonance.
  rewrite (apply_phi_scalar_transform_positive self fa Ha), Ht.
  rewrite (apply_phi_scalar_transform_positive _ fb Hb), phi_ready_idem, Ht.
  cbn [rbind]. rewrite py_div_ok by assumption. cbn [rbind].
  replace (t / t) with 1 by (field; assumption).
  rewrite phi_resonance_scan_at_1.
  replace (t - t) with 0 by lra. rewrite Rabs_R0.
  replace (- 0 / 1000) with 0 by lra. rewrite exp_0.
  rewrite Rmax_right by lra. reflexivity.
Qed.

Lemma first_phi_match_nonneg (freq_ratio amplitude : R) :
  0 <= amplitude -> 0 <= first_phi_match (py_range 1 6) freq_ratio amplitude.
Proof.
  intros Hamp. unfold py_range. simpl.
  repeat (destruct (Rltb _ 0.1); [lra | ]). lra.
Qed.

Lemma harmonic_enhancement_loop_grows (harmonics : list PhiHarmonic)
    (frequency enhancement : R) :
  Forall (fun h => phi_frequency h <> 0 /\ 0 <= phi_harmonic_amplitude h)
         harmonics ->
  exists e, harmonic_enhancement_loop harmonics frequency enhancement = Ok e /\
            enhancement <= e.
Proof.
  intros Hall. revert enhancement.
  induction Hall as [ | h harmonics [Hfreq Hamp] _ IH]; intros enhancement;
    cbn [harmonic_enhancement_loop].
  - exists enhancement. split; [reflexivity | lra].
  - destruct (phi_harmonic_active h); [ | apply IH].
    rewrite py_div_ok by assumption. cbn [rbind].
    destruct (IH (enhancement +
                  first_phi_match (py_range 1 6) (frequency / phi_frequency h)
                    (phi_harmonic_amplitude h))) as (e & He & Hle).
    exists e. split; [exact He | ].
    pose proof (first_phi_match_nonneg (frequency / phi_frequency h)
                  (phi_harmonic_amplitude h) Hamp). lra.
Qed.

Lemma generated_phi_harmonics_sound :
  Forall (fun h => phi_frequency h <> 0 /\ 0 <= phi_harmonic_amplitude h)
         _generate_phi_harmonics.
Proof.
  unfold _generate_phi_harmonics. apply Forall_map, Forall_forall.
  intros n _. cbn [phi_frequency phi_harmonic_amplitude].
  assert (Hpow : 0 < GOLDEN_RATIO ^ n).
  { apply pow_lt. pose proof golden_ratio_gt_1. lra. }
  assert (Hinv : 0 < / GOLDEN_RATIO ^ n) by (apply Rinv_0_lt_compat; exact Hpow).
  pose proof frequency_scalar_pos as Hs. split.
  - unfold Rdiv. apply Rgt_not_eq. apply Rmult_lt_0_compat; assumption.
  - unfold Rdiv. lra.
Qed.

(** With the harmonics of an initialisation the transformed value exists and
    is at least the scalar frequency. *)
Lemma transformed_scalar_initialized (self : PhiScalar) :
  exists t, transformed_scalar (snd (initialize_phi_scalar self)) = Ok t /\
            frequency_scalar <= t.
Proof.
  unfold transformed_scalar, _calculate_harmonic_enhancement.
  cbn [initialize_phi_scalar snd phi_harmonics].
  destruct (harmonic_enhancement_loop_grows _generate_phi_harmonics
              frequency_scalar 1 generated_phi_harmonics_sound) as (e & He & Hle).
  rewrite He. cbn [rbind]. exists (frequency_scalar * e). split; [reflexivity | ].
  pose proof frequency_scalar_pos. nra.
Qed.

Lemma exp_neg_below_threshold (x : R) : 0.25 <= x -> exp (- x) < integration_threshold.
Proof.
  intros Hx. unfold integration_threshold. rewrite exp_Ropp.
  pose proof (exp_ineq1 x ltac:(lra)) as Hexp.
  assert (Hinv : / exp x < / 1.25).
  { apply Rinv_0_lt_contravar; lra. }
  lra.
Qed.

(** Away from the Schumann frequencies the grid has its weak influence
    only: the integrated frequency is the input scaled by a factor between
    1 and 1.1. *)
Lemma integrate_weak_resonance (self : GridHarmonics) (f best : R) :
  closest_to f 0 SCHUMANN_FREQUENCIES = best -> best <> 0 ->
  0.25 <= Rabs (f / best - 1) ->
  exists c, 0 < c < 1 /\
    fst (integrate_consciousness_with_grid self f) = Ok (f * (1 + c * 0.1)).
Proof.
  intros Hbest Hnz Hfar. unfold integrate_consciousness_with_grid. cbn [fst].
  rewrite Hbest, py_div_ok by assumption. cbn [rbind].
  rewrite Rleb_false by (apply exp_neg_below_threshold; exact Hfar).
  exists (exp (- Rabs (f / best - 1))). split; [ | reflexivity].
  split; [apply exp_pos | ].
  pose proof (exp_neg_below_threshold _ Hfar). unfold integration_threshold in *. lra.
Qed.

(** On an initialised phi scalar every pair of positive frequencies has
    scalar resonance 1. *)
Lemma scalar_resonance_initialized (self : PhiScalar) (fa fb : R) :
  0 < fa -> 0 < fb ->
  fst (calculate_consciousness_scalar_resonance
         (snd (initialize_phi_scalar self)) fa fb) = Ok 1.
Proof.
  intros Ha Hb.
  destruct (transformed_scalar_initialized self) as (t & Ht & Hle).
  pose proof frequency_scalar_pos as Hs.
  rewrite (scalar_resonance_positive _ fa fb t Ha Hb); [reflexivity | | lra].
  rewrite phi_ready_active by reflexivity. exact Ht.
Qed.

(** ** gaia_tequmsa_engine.py *)

(** Reduces the projections of a world that was updated. *)
Ltac reduce_world :=
  cbn [sovereignty_protocols consciousness_matrix recognition_pulse
       love_coefficient grid_harmonics phi_scalar gaia_tequmsa_engine clock
       set_sovereignty set_matrix set_love set_grid set_phi set_engine
       set_clock fst snd] in *.

(** Closes the footprint goals of the proof below: [c] is the consent
    record written, [grid] proves the disjunct about the grid. *)
Ltac close_footprint c grid :=
  unfold changed_consent_and_alignment_only; reduce_world;
  split; [by exists c | ];
  do 3 (split; [reflexivity | ]);
  split; [grid | split; reflexivity].

Section EngineFacts.
Context `{Environment}.

Lemma evolution_pipeline_shape (entity_id : string) (f : R) (w : World)
    (d : gmap string PyVal) :
  pipeline_shape d (evolution_pipeline entity_id f (w, d)).
Proof.
  unfold evolution_pipeline, try_bind, on_sovereignty, on_pulse, on_matrix,
    on_love, on_grid, on_phi, on_engine, record.
  destruct (request_biological_consent _ _ _ _ _) as [[consent s] clk].
  destruct consent; cbn [negb]; [ | apply shape_denied].
  destruct (trigger_consciousness_recognition _ _) as [rec | e];
    [ | apply shape_raised].
  cbn [consciousness_matrix set_sovereignty].
  destruct (synthesize_consciousness_tech _ _ _) as [[sc | e] m];
    [ | apply shape_raised].
  cbn [love_coefficient set_matrix].
  destruct (amplify_love_infinite _ _ _) as [[al | e] l];
    [ | apply shape_raised].
  cbn [grid_harmonics set_love].
  destruct (calculate_planetary_alignment _ _) as [a g].
  cbn [grid_harmonics set_grid].
  destruct (integrate_consciousness_with_grid _ _) as [[gi | e] g'];
    [ | apply shape_raised].
  cbn [phi_scalar set_grid].
  destruct (apply_phi_scalar_transform _ _) as [[pt | e] ph];
    [ | apply shape_raised].
  cbn [phi_scalar set_phi].
  destruct (calculate_consciousness_scalar_resonance _ _ _) as [[sr | e] ph'];
    [ | apply shape_raised].
  apply (shape_completed d _ rec sc al a gi pt sr).
Qed.

Lemma initialize_engine_ready (w : World) : fst (initialize_engine w) = true.
Proof. reflexivity. Qed.

Lemma evolution_status_spec (x : R) :
  (evolution_status x = "transcendent_evolution" <-> 0.8 <= x) /\
  (evolution_status x = "advanced_evolution" <-> 0.6 <= x < 0.8) /\
  (evolution_status x = "moderate_evolution" <-> 0.4 <= x < 0.6) /\
  (evolution_status x = "minimal_evolution" <-> x < 0.4).
Proof.
  unfold evolution_status, Rleb.
  destruct (Rle_dec 0.8 x); [ | destruct (Rle_dec 0.6 x); [ | destruct (Rle_dec 0.4 x)]];
    repeat split; intros; try discriminate; try lra; try reflexivity.
Qed.

Example evolution_status_bands :
  evolution_status 0.8 = "transcendent_evolution" /\
  evolution_status 0.65 = "advanced_evolution" /\
  evolution_status 0.4 = "moderate_evolution" /\
  evolution_status 0.39 = "minimal_evolution".
Proof. unfold evolution_status. repeat split; decide_R; reflexivity. Qed.

Lemma evolution_status_label (x : R) :
  evolution_status x ∈ ["transcendent_evolution"; "advanced_evolution";
                        "moderate_evolution"; "minimal_evolution"].
Proof.
  unfold evolution_status.
  destruct (Rleb 0.8 x); [set_solver | ].
  destruct (Rleb 0.6 x); [set_solver | ].
  destruct (Rleb 0.4 x); set_solver.
Qed.

Lemma mean_of_four (s l a r : R) :
  py_sum [s; l; a; r] / py_len [s; l; a; r] = (s + l + a + r) / 4.
Proof. unfold py_sum, py_len. simpl. lra. Qed.

(** What [activate_consciousness_evolution] returns is the [try] block run
    on the world that is, or has just been made, ready. *)
Lemma activate_consciousness_evolution_unfold (w : World) (entity_id : string)
    (f : R) :
  let w1 := if engine_active (gaia_tequmsa_engine w) then w
            else snd (initialize_engine w) in
  activate_consciousness_evolution w entity_id f =
    try_except (evolution_pipeline entity_id f)
               (set_clock w1 (S (clock w1))) (initial_results w1 entity_id f).
Proof.
  unfold activate_consciousness_evolution.
  destruct (engine_active (gaia_tequmsa_engine w)); reflexivity.
Qed.

(** The status of every result of the [try] block. *)
Lemma try_except_status (entity_id : string) (f : R) (w : World)
    (d : gmap string PyVal) :
  let res := fst (try_except (evolution_pipeline entity_id f) w d) in
  status_of res = Some "denied" \/ status_of res = Some "error" \/
  exists rec s l a g p r, res = completed_results d rec s l a g p r.
Proof.
  unfold try_except.
  destruct (evolution_pipeline_shape entity_id f w d)
    as [w' | e w' d' | w' rec s l a g p r]; simpl.
  - left. unfold status_of. by simplify_map_eq.
  - right; left. unfold status_of. by simplify_map_eq.
  - right; right. by exists rec, s, l, a, g, p, r.
Qed.

Lemma completed_results_status (d : gmap string PyVal) (rec : bool)
    (s l a g p r : R) :
  status_of (completed_results d rec s l a g p r) =
    Some (evolution_status ((s + l / 10 + a + r) / 4)).
Proof.
  unfold completed_results, status_of. rewrite mean_of_four.
  by rewrite lookup_insert_eq.
Qed.

Lemma completed_results_floats (d : gmap string PyVal) (rec : bool)
    (s l a g p r : R) :
  let res := completed_results d rec s l a g p r in
  float_of res "synthesis_coefficient" = Some s /\
  float_of res "love_amplification" = Some l /\
  float_of res "planetary_alignment" = Some a /\
  float_of res "scalar_resonance" = Some r /\
  float_of res "overall_evolution_level" = Some ((s + l / 10 + a + r) / 4).
Proof.
  unfold completed_results, float_of. rewrite mean_of_four. cbv zeta.
  repeat split; by simplify_map_eq.
Qed.

(** C1: when the pipeline ran to its end (no failed initialisation, no
    denied consent, no exception), the overall evolution level is the
    arithmetic mean of the synthesis coefficient, a tenth of the love
    amplification, the planetary alignment and the scalar resonance, and the
    status is the label of the band the mean falls in. *)
Theorem overall_evolution_is_mean_of_metrics (w : World) (entity_id : string)
    (f : R) :
  let res := fst (activate_consciousness_evolution w entity_id f) in
  status_of res <> Some "failed" ->
  status_of res <> Some "denied" ->
  status_of res <> Some "error" ->
  exists s l a r,
    float_of res "synthesis_coefficient" = Some s /\
    float_of res "love_amplification" = Some l /\
    float_of res "planetary_alignment" = Some a /\
    float_of res "scalar_resonance" = Some r /\
    let mean := (s + l / 10 + a + r) / 4 in
    float_of res "overall_evolution_level" = Some mean /\
    (status_of res = Some "transcendent_evolution" <-> 0.8 <= mean) /\
    (status_of res = Some "advanced_evolution" <-> 0.6 <= mean < 0.8) /\
    (status_of res = Some "moderate_evolution" <-> 0.4 <= mean < 0.6) /\
    (status_of res = Some "minimal_evolution" <-> mean < 0.4).
Proof.
  intros res _ Hdenied Herror. subst res.
  rewrite activate_consciousness_evolution_unfold in *.
  set (w1 := if engine_active (gaia_tequmsa_engine w) then w
             else snd (initialize_engine w)) in *.
  destruct (try_except_status entity_id f (set_clock w1 (S (clock w1)))
              (initial_results w1 entity_id f)) as [Hd | [He | Hdone]];
    [contradiction | contradiction | ].
  destruct Hdone as (rec & s & l & a & g & p & r & Hres).
  rewrite Hres. exists s, l, a, r.
  rewrite completed_results_status.
  destruct (completed_results_floats (initial_results w1 entity_id f)
              rec s l a g p r) as (Hs & Hl & Ha & Hr & Ho).
  destruct (evolution_status_spec ((s + l / 10 + a + r) / 4))
    as (Et & Ea & Em & El).
  do 5 (split; [assumption | ]).
  split; [ | split; [ | split]]; (split; intros Hx);
    first [ inversion Hx; tauto | f_equal; tauto ].
Qed.


Lemma request_biological_consent_footprint (self : SovereigntyProtocols)
    (clk : nat) (entity_id itype : string) (range : R * R) :
  autonomy_active self = true ->
  exists c, snd (fst (request_biological_consent self clk entity_id itype range))
            = store_consent self entity_id c.
Proof.
  intros Hact. unfold request_biological_consent. rewrite Hact.
  destruct range as [lo hi].
  destruct (frequency_conflict self lo hi); [by eexists | ].
  cbn [_assess_biological_integrity]. by eexists.
Qed.

(** The footprint of the [try] block on an engine whose components are all
    active. *)
Lemma evolution_pipeline_footprint (entity_id : string) (f : R) (w : World)
    (d : gmap string PyVal) :
  components_active w ->
  match evolution_pipeline entity_id f (w, d) with
  | (Ok _, (w', d')) =>
      (status_of d' = Some "denied" /\ changed_consent_only entity_id w w') \/
      (exists rec s l a g p r, d' = completed_results d rec s l a g p r)
  | (Raise _, (w', _)) => changed_consent_and_alignment_only entity_id w w'
  end.
Proof.
  intros (Heng & Hsov & Hmat & Hpul & Hlov & Hgrd & Hphi).
  destruct w as [sv mx pu lo gr ph en ck].
  cbn [gaia_tequmsa_engine sovereignty_protocols consciousness_matrix
       recognition_pulse love_coefficient grid_harmonics phi_scalar] in *.
  destruct (request_biological_consent_footprint sv ck entity_id
              "consciousness_evolution" (f - 10, f + 10) Hsov) as [c Hc].
  unfold evolution_pipeline, try_bind, on_sovereignty, on_pulse, on_matrix,
    on_love, on_grid, on_phi, on_engine, record.
  reduce_world.
  destruct (request_biological_consent sv ck entity_id _ _) as [[consent s] clk].
  cbn [fst snd] in Hc. subst s.
  destruct consent; cbn [negb].
  2:{ left. split; [unfold status_of; by simplify_map_eq | ].
      unfold changed_consent_only. reduce_world.
      split; [by exists c | repeat split; reflexivity]. }
  reduce_world.
  destruct (trigger_consciousness_recognition pu f) as [rec | e].
  2:{ close_footprint c ltac:(by left). }
  reduce_world.
  pose proof (synthesize_consciousness_tech_state mx f "cosmic_integration" Hmat)
    as Hm.
  destruct (synthesize_consciousness_tech mx f _) as [rs m].
  cbn [snd] in Hm. subst m.
  destruct rs as [sc | e].
  2:{ close_footprint c ltac:(by left). }
  reduce_world.
  pose proof (amplify_love_infinite_state lo sc 50 Hlov) as Hl.
  destruct (amplify_love_infinite lo sc 50) as [rl l].
  cbn [snd] in Hl. subst l.
  destruct rl as [al | e].
  2:{ close_footprint c ltac:(by left). }
  reduce_world.
  pose proof (calculate_planetary_alignment_state gr
                SIMULATED_PLANETARY_POSITIONS Hgrd) as Hg.
  destruct (calculate_planetary_alignment gr SIMULATED_PLANETARY_POSITIONS)
    as [a g] eqn:Ealign.
  cbn [fst snd] in Hg.
  reduce_world.
  assert (Hgact : grid_active g = true) by (rewrite Hg; exact Hgrd).
  pose proof (integrate_consciousness_with_grid_state g f Hgact) as Hg'.
  destruct (integrate_consciousness_with_grid g f) as [ri g'].
  cbn [snd] in Hg'. subst g'.
  destruct ri as [gi | e].
  2:{ close_footprint c ltac:(right; rewrite Ealign; exact Hg). }
  reduce_world.
  pose proof (apply_phi_scalar_transform_state ph gi) as Hp.
  rewrite (phi_ready_active ph Hphi) in Hp.
  destruct (apply_phi_scalar_transform ph gi) as [rp p].
  cbn [snd] in Hp. subst p.
  destruct rp as [pt | e].
  2:{ close_footprint c ltac:(right; rewrite Ealign; exact Hg). }
  reduce_world.
  pose proof (scalar_resonance_state ph f pt) as Hp.
  rewrite (phi_ready_active ph Hphi) in Hp.
  destruct (calculate_consciousness_scalar_resonance ph f pt) as [rr p].
  cbn [snd] in Hp. subst p.
  destruct rr as [sr | e].
  2:{ close_footprint c ltac:(right; rewrite Ealign; exact Hg). }
  right. by exists rec, sc, al, a, gi, pt, sr.
Qed.

Lemma completed_results_not_failed (d : gmap string PyVal) (rec : bool)
    (s l a g p r : R) (label : string) :
  label ∉ ["transcendent_evolution"; "advanced_evolution";
           "moderate_evolution"; "minimal_evolution"] ->
  status_of (completed_results d rec s l a g p r) <> Some label.
Proof.
  intros Hnot. rewrite completed_results_status. intros Heq.
  inversion Heq as [Heq']. apply Hnot. rewrite <- Heq'.
  apply evolution_status_label.
Qed.

(** C3 (as amended): on an engine whose components are all active, a call
    that ends with the status [denied] has written the consent record of
    the entity and changed nothing else; a call that ends with the status
    [error] has written the consent record, may have stored the planetary
    alignment of the simulated positions in the grid, and changed nothing
    else. *)
Theorem failed_evolve_footprint (w : World) (entity_id : string) (f : R) :
  components_active w ->
  let res := fst (activate_consciousness_evolution w entity_id f) in
  let w' := snd (activate_consciousness_evolution w entity_id f) in
  (status_of res = Some "denied" -> changed_consent_only entity_id w w') /\
  (status_of res = Some "error" ->
   changed_consent_and_alignment_only entity_id w w').
Proof.
  intros Hactive res w'. subst res w'.
  assert (Heng : engine_active (gaia_tequmsa_engine w) = true) by apply Hactive.
  rewrite activate_consciousness_evolution_unfold. rewrite Heng.
  assert (Hactive' : components_active (set_clock w (S (clock w)))) by exact Hactive.
  pose proof (evolution_pipeline_footprint entity_id f _
                (initial_results w entity_id f) Hactive') as Hfoot.
  unfold try_except.
  destruct (evolution_pipeline entity_id f _) as [[[] | e] [w' d']]; cbn [fst snd].
  - destruct Hfoot as [[Hstatus Hchanged] | Hdone].
    + split; [intros _; exact Hchanged | ].
      rewrite Hstatus. discriminate.
    + destruct Hdone as (rec & s & l & a & g & p & r & ->).
      split; intros Hst; exfalso;
        revert Hst; apply completed_results_not_failed;
        rewrite !elem_of_cons, elem_of_nil; intros Hin;
        repeat (destruct Hin as [Hin | Hin]; [discriminate | ]); exact Hin.
  - split.
    + unfold status_of. rewrite lookup_insert_ne by discriminate.
      rewrite lookup_insert_eq. discriminate.
    + intros _. exact Hfoot.
Qed.

End EngineFacts.

(** ** Runs of the pipeline *)

Section PipelineRuns.
Context `{Environment}.

(** A denied consent ends the pipeline at its first step. *)
Lemma evolution_pipeline_denied (entity_id : string) (f : R) (w : World)
    (d : gmap string PyVal) :
  fst (fst (request_biological_consent (sovereignty_protocols w) (clock w)
              entity_id "consciousness_evolution" (f - 10, f + 10))) = false ->
  exists s clk,
    evolution_pipeline entity_id f (w, d) =
      (Ok tt,
       (set_sovereignty w s clk,
        <["reason" := VStr "biological_consent_denied"]>
          (<["status" := VStr "denied"]> d))).
Proof.
  intros Hdenied.
  unfold evolution_pipeline, try_bind, on_sovereignty, record.
  destruct (request_biological_consent _ _ _ _ _) as [[consent s] clk].
  cbn [fst] in Hdenied. subst consent. cbn [negb]. by exists s, clk.
Qed.

(** The pipeline runs to its end when the consent is granted, the synthesis
    and the grid integration return, the integrated frequency is positive
    and the phi scalar has a positive transformed value. *)
Lemma evolution_pipeline_completes (entity_id : string) (f t : R) (w : World)
    (d : gmap string PyVal) :
  0 < f ->
  fst (fst (request_biological_consent (sovereignty_protocols w) (clock w)
              entity_id "consciousness_evolution" (f - 10, f + 10))) = true ->
  (exists sc, fst (synthesize_consciousness_tech (consciousness_matrix w) f
                     "cosmic_integration") = Ok sc) ->
  (exists v, fst (integrate_consciousness_with_grid
                    (snd (calculate_planetary_alignment (grid_harmonics w)
                            SIMULATED_PLANETARY_POSITIONS)) f) = Ok v /\ 0 < v) ->
  transformed_scalar (phi_ready (phi_scalar w)) = Ok t -> 0 < t ->
  exists w' rec s l a g p r,
    evolution_pipeline entity_id f (w, d) =
      (Ok tt, (w', completed_results d rec s l a g p r)).
Proof.
  intros Hf Hgranted [sc Hsyn] (v & Hint & Hv) Ht Htpos.
  destruct w as [sv mx pu lo gr ph en ck]. reduce_world. cbn [fst snd] in *.
  unfold evolution_pipeline, try_bind, on_sovereignty, on_pulse, on_matrix,
    on_love, on_grid, on_phi, on_engine, record.
  reduce_world.
  destruct (request_biological_consent sv ck entity_id _ _) as [[consent s] clk].
  cbn [fst] in Hgranted. subst consent. cbn [negb]. reduce_world.
  destruct (trigger_consciousness_recognition_total pu f) as [rec ->].
  reduce_world.
  destruct (synthesize_consciousness_tech mx f _) as [rs m].
  cbn [fst] in Hsyn. subst rs. reduce_world.
  destruct (amplify_love_infinite_total lo sc 50) as [al Hal].
  destruct (amplify_love_infinite lo sc 50) as [rl l].
  cbn [fst] in Hal. subst rl. reduce_world.
  destruct (calculate_planetary_alignment gr SIMULATED_PLANETARY_POSITIONS)
    as [a g].
  cbn [snd] in Hint. reduce_world.
  destruct (integrate_consciousness_with_grid g f) as [ri g'].
  cbn [fst] in Hint. subst ri. reduce_world.
  rewrite (apply_phi_scalar_transform_positive ph v Hv), Ht. reduce_world.
  rewrite (scalar_resonance_positive (phi_ready ph) f t t Hf Htpos);
    [ | rewrite phi_ready_idem; exact Ht | lra].
  reduce_world. by eexists _, rec, sc, al, a, v, t, 1.
Qed.

(** The pipeline raises in the phi scalar, after the grid has stored the
    alignment, when the integrated frequency is not positive. *)
Lemma evolution_pipeline_raises_in_phi (entity_id : string) (f : R) (w : World)
    (d : gmap string PyVal) :
  fst (fst (request_biological_consent (sovereignty_protocols w) (clock w)
              entity_id "consciousness_evolution" (f - 10, f + 10))) = true ->
  (exists sc, fst (synthesize_consciousness_tech (consciousness_matrix w) f
                     "cosmic_integration") = Ok sc) ->
  (exists v, fst (integrate_consciousness_with_grid
                    (snd (calculate_planetary_alignment (grid_harmonics w)
                            SIMULATED_PLANETARY_POSITIONS)) f) = Ok v /\ v <= 0) ->
  exists e w' d',
    evolution_pipeline entity_id f (w, d) = (Raise e, (w', d')) /\
    grid_harmonics w' =
      snd (integrate_consciousness_with_grid
             (snd (calculate_planetary_alignment (grid_harmonics w)
                     SIMULATED_PLANETARY_POSITIONS)) f).
Proof.
  intros Hgranted [sc Hsyn] (v & Hint & Hv).
  destruct w as [sv mx pu lo gr ph en ck]. reduce_world. cbn [fst snd] in *.
  unfold evolution_pipeline, try_bind, on_sovereignty, on_pulse, on_matrix,
    on_love, on_grid, on_phi, on_engine, record.
  reduce_world.
  destruct (request_biological_consent sv ck entity_id _ _) as [[consent s] clk].
  cbn [fst] in Hgranted. subst consent. cbn [negb]. reduce_world.
  destruct (trigger_consciousness_recognition_total pu f) as [rec ->].
  reduce_world.
  destruct (synthesize_consciousness_tech mx f _) as [rs m].
  cbn [fst] in Hsyn. subst rs. reduce_world.
  destruct (amplify_love_infinite_total lo sc 50) as [al Hal].
  destruct (amplify_love_infinite lo sc 50) as [rl l].
  cbn [fst] in Hal. subst rl. reduce_world.
  destruct (calculate_planetary_alignment gr SIMULATED_PLANETARY_POSITIONS)
    as [a g].
  cbn [snd] in Hint |- *. reduce_world.
  destruct (integrate_consciousness_with_grid g f) as [ri g'].
  cbn [fst] in Hint. subst ri. reduce_world.
  destruct (apply_phi_scalar_transform_nonpositive ph v Hv) as [e ->].
  reduce_world. by eexists e, _, _.
Qed.

End PipelineRuns.

Section ConcreteRuns.
Context `{Environment}.

Lemma initialize_engine_components_active (w : World) :
  components_active (snd (initialize_engine w)).
Proof. repeat split. Qed.

Lemma initialize_engine_protected (w : World) :
  protected_frequencies (sovereignty_protocols (snd (initialize_engine w))) =
    PROTECTED_BIOLOGICAL_FREQUENCIES.
Proof. reflexivity. Qed.

Lemma initialize_engine_phi (w : World) :
  phi_scalar (snd (initialize_engine w)) =
    snd (initialize_phi_scalar (phi_scalar w)).
Proof. reflexivity. Qed.

Lemma initialize_engine_matrix (w : World) :
  consciousness_matrix (snd (initialize_engine w)) =
    snd (initialize_matrix (consciousness_matrix w)).
Proof. reflexivity. Qed.

Lemma initialize_engine_grid (w : World) :
  grid_harmonics (snd (initialize_engine w)) =
    snd (initialize_planetary_grid (grid_harmonics w)).
Proof. reflexivity. Qed.

(** Consent is granted when no protected frequency is in the range and the
    md5 score of the entity is at least 25. *)
Lemma consent_granted (self : SovereigntyProtocols) (clk : nat)
    (entity_id itype : string) (lo hi : R) :
  autonomy_active self = true ->
  frequency_conflict self lo hi = false ->
  (25 <= md5_hex8 entity_id mod 100)%Z ->
  fst (fst (request_biological_consent self clk entity_id itype (lo, hi))) = true.
Proof.
  intros Hact Hfree Hscore. unfold request_biological_consent.
  rewrite Hact, Hfree. cbn [_assess_biological_integrity].
  assert (Hintegrity :
    biological_integrity_threshold <=
    Rmin 1 (IZR (md5_hex8 entity_id mod 100) / 100 + 0.7 +
            0.1 * py_fmod (time_time (S clk)) 10 / 10)).
  { unfold biological_integrity_threshold.
    pose proof (py_fmod_bounds (time_time (S clk)) 10 ltac:(lra)) as [Hlo _].
    apply IZR_le in Hscore.
    apply Rmin_glb; lra. }
  rewrite (Rleb_true _ _ Hintegrity). reflexivity.
Qed.

Lemma no_conflict_at_432 (self : SovereigntyProtocols) :
  protected_frequencies self = PROTECTED_BIOLOGICAL_FREQUENCIES ->
  frequency_conflict self (432 - 10) (432 + 10) = false.
Proof.
  intros Hprot. unfold frequency_conflict. rewrite Hprot.
  unfold PROTECTED_BIOLOGICAL_FREQUENCIES. cbn [existsb].
  decide_R. reflexivity.
Qed.

Lemma no_conflict_at_minus_100 (self : SovereigntyProtocols) :
  protected_frequencies self = PROTECTED_BIOLOGICAL_FREQUENCIES ->
  frequency_conflict self (-100 - 10) (-100 + 10) = false.
Proof.
  intros Hprot. unfold frequency_conflict. rewrite Hprot.
  unfold PROTECTED_BIOLOGICAL_FREQUENCIES. cbn [existsb].
  decide_R. reflexivity.
Qed.

Lemma conflict_at_8 (self : SovereigntyProtocols) :
  protected_frequencies self = PROTECTED_BIOLOGICAL_FREQUENCIES ->
  frequency_conflict self (8 - 10) (8 + 10) = true.
Proof.
  intros Hprot. apply (frequency_conflict_true self _ _ 8.0); [ | lra].
  rewrite Hprot. unfold PROTECTED_BIOLOGICAL_FREQUENCIES.
  apply elem_of_cons. by left.
Qed.

Lemma closer_to_take (target best y : R) :
  Rabs (y - target) < Rabs (best - target) -> closer_to target best y = y.
Proof. intros Hlt. unfold closer_to. rewrite Rltb_true by assumption. reflexivity. Qed.

Lemma closer_to_keep (target best y : R) :
  Rabs (best - target) <= Rabs (y - target) -> closer_to target best y = best.
Proof. intros Hle. unfold closer_to. rewrite Rltb_false by assumption. reflexivity. Qed.

(** Evaluates [closest_to] on concrete numbers, innermost comparison first. *)
Ltac eval_closest :=
  unfold closest_to, SCHUMANN_FREQUENCIES; cbn [fold_left];
  repeat match goal with
    | |- context [closer_to ?t ?b ?y] =>
        first [ rewrite (closer_to_take t b y)
                  by (unfold Rabs; repeat destruct Rcase_abs; lra)
              | rewrite (closer_to_keep t b y)
                  by (unfold Rabs; repeat destruct Rcase_abs; lra) ]
    end.

Lemma closest_schumann_to_432 : closest_to 432 0 SCHUMANN_FREQUENCIES = 45.0.
Proof. eval_closest. reflexivity. Qed.

Lemma closest_schumann_to_minus_100 :
  closest_to (-100) 0 SCHUMANN_FREQUENCIES = 7.83.
Proof. eval_closest. reflexivity. Qed.

Lemma integrate_at_432 (self : GridHarmonics) :
  exists v, fst (integrate_consciousness_with_grid self 432) = Ok v /\ 0 < v.
Proof.
  destruct (integrate_weak_resonance self 432 45.0 closest_schumann_to_432)
    as (c & [Hc0 Hc1] & Hrun).
  - lra.
  - unfold Rabs. destruct Rcase_abs; lra.
  - exists (432 * (1 + c * 0.1)). split; [exact Hrun | nra].
Qed.

Lemma integrate_at_minus_100 (self : GridHarmonics) :
  exists v, fst (integrate_consciousness_with_grid self (-100)) = Ok v /\ v <= 0.
Proof.
  destruct (integrate_weak_resonance self (-100) 7.83
              closest_schumann_to_minus_100) as (c & [Hc0 Hc1] & Hrun).
  - lra.
  - unfold Rabs. destruct Rcase_abs; lra.
  - exists (-100 * (1 + c * 0.1)). split; [exact Hrun | nra].
Qed.

Lemma synthesize_initialized (self : ConsciousnessMatrix) (f : R) :
  exists sc, fst (synthesize_consciousness_tech (snd (initialize_matrix self)) f
                    "cosmic_integration") = Ok sc.
Proof.
  rewrite (synthesize_active _ "cosmic_integration" 741 f);
    [by eexists | reflexivity | apply initialize_matrix_layers | lra].
Qed.

Lemma py_fmod_0 (m : R) : py_fmod 0 m = 0.
Proof.
  unfold py_fmod. replace (0 / m) with 0 by (unfold Rdiv; lra).
  rewrite <- (Int_part_spec 0 0%Z) by lra. lra.
Qed.

(** The alignment of the simulated positions is positive: the earth, at 0
    degrees, alone contributes 7.83/221.23. *)
Lemma simulated_alignment_positive (self : GridHarmonics) :
  0 < fst (calculate_planetary_alignment self SIMULATED_PLANETARY_POSITIONS).
Proof.
  unfold calculate_planetary_alignment. cbn [fst].
  pose proof (alignment_factors_bounds SIMULATED_PLANETARY_POSITIONS) as Hall.
  assert (Hfactors : exists rest,
    alignment_factors SIMULATED_PLANETARY_POSITIONS =
      weighted_alignment 7.83 0.0 :: rest) by (by eexists).
  destruct Hfactors as [rest Hfactors]. rewrite Hfactors in *.
  apply Forall_cons in Hall as [_ Hrest].
  pose proof (py_sum_bounds rest Hrest) as [Hsum _].
  assert (Hearth : weighted_alignment 7.83 0.0 = 7.83 / 221.23).
  { unfold weighted_alignment, fold_angle. rewrite max_planetary_frequency.
    replace 0.0 with 0 by lra. rewrite py_fmod_0.
    rewrite Rltb_false by lra. unfold radians.
    replace (0 * (PI / 180)) with 0 by lra. rewrite cos_0. lra. }
  rewrite py_sum_cons, Hearth.
  apply Rdiv_lt_0_compat; [lra | ].
  unfold py_len. change (length (7.83 / 221.23 :: rest)) with (S (length rest)).
  rewrite S_INR. pose proof (pos_INR (length rest)). lra.
Qed.

End ConcreteRuns.

(** ** Sample runs *)

Lemma sample_md5_score : (25 <= md5_hex8 "human_432hz" mod 100)%Z.
Proof. by vm_compute. Qed.

Lemma sample_consent_granted (w : World) (f : R) :
  frequency_conflict (sovereignty_protocols (snd (initialize_engine w)))
    (f - 10) (f + 10) = false ->
  fst (fst (request_biological_consent
              (sovereignty_protocols (snd (initialize_engine w)))
              (S (clock (snd (initialize_engine w))))
              "human_432hz" "consciousness_evolution" (f - 10, f + 10))) = true.
Proof.
  intros Hfree. apply consent_granted;
    [reflexivity | exact Hfree | exact sample_md5_score].
Qed.

(** The entity "human_432hz" at 432 Hz, on the engine as imported: the
    engine initialises itself and the pipeline runs to its end. *)
Lemma sample_run_at_432_completes :
  let w0 := snd (initialize_engine World_init) in
  exists rec s l a g p r,
    fst (activate_consciousness_evolution World_init "human_432hz" 432) =
      completed_results (initial_results w0 "human_432hz" 432) rec s l a g p r.
Proof.
  intros w0. rewrite activate_consciousness_evolution_unfold.
  change (engine_active (gaia_tequmsa_engine World_init)) with false.
  cbv iota. fold w0. unfold try_except.
  destruct (transformed_scalar_initialized (phi_scalar World_init))
    as (t & Ht & Hle).
  pose proof frequency_scalar_pos as Hs.
  destruct (evolution_pipeline_completes "human_432hz" 432 t
              (set_clock w0 (S (clock w0)))
              (initial_results w0 "human_432hz" 432))
    as (w' & rec & s & l & a & g & p & r & Hrun).
  - lra.
  - apply sample_consent_granted, no_conflict_at_432. reflexivity.
  - apply synthesize_initialized.
  - apply integrate_at_432.
  - exact Ht.
  - lra.
  - rewrite Hrun. by exists rec, s, l, a, g, p, r.
Qed.

Lemma overall_evolution_is_mean_of_metrics_witness :
  let res := fst (activate_consciousness_evolution World_init "human_432hz" 432) in
  (status_of res <> Some "failed" /\
   status_of res <> Some "denied" /\
   status_of res <> Some "error") /\
  exists s l a r,
    float_of res "synthesis_coefficient" = Some s /\
    float_of res "love_amplification" = Some l /\
    float_of res "planetary_alignment" = Some a /\
    float_of res "scalar_resonance" = Some r /\
    let mean := (s + l / 10 + a + r) / 4 in
    float_of res "overall_evolution_level" = Some mean /\
    (status_of res = Some "transcendent_evolution" <-> 0.8 <= mean) /\
    (status_of res = Some "advanced_evolution" <-> 0.6 <= mean < 0.8) /\
    (status_of res = Some "moderate_evolution" <-> 0.4 <= mean < 0.6) /\
    (status_of res = Some "minimal_evolution" <-> mean < 0.4).
Proof.
  intros res.
  assert (Hstatus : forall label,
            label ∉ ["transcendent_evolution"; "advanced_evolution";
                     "moderate_evolution"; "minimal_evolution"] ->
            status_of res <> Some label).
  { intros label Hlabel. subst res.
    destruct sample_run_at_432_completes as (rec & s & l & a & g & p & r & ->).
    by apply completed_results_not_failed. }
  assert (Hfailed : status_of res <> Some "failed").
  { apply Hstatus. rewrite !elem_of_cons, elem_of_nil. intros Hin.
    repeat (destruct Hin as [Hin | Hin]; [discriminate | ]). exact Hin. }
  assert (Hdenied : status_of res <> Some "denied").
  { apply Hstatus. rewrite !elem_of_cons, elem_of_nil. intros Hin.
    repeat (destruct Hin as [Hin | Hin]; [discriminate | ]). exact Hin. }
  assert (Herror : status_of res <> Some "error").
  { apply Hstatus. rewrite !elem_of_cons, elem_of_nil. intros Hin.
    repeat (destruct Hin as [Hin | Hin]; [discriminate | ]). exact Hin. }
  split; [repeat split; assumption | ].
  exact (overall_evolution_is_mean_of_metrics World_init "human_432hz" 432
           Hfailed Hdenied Herror).
Defined.

(** The same entity at 8 Hz: the range (-2, 18) contains protected
    frequencies and the call is denied at the first step. *)
Lemma sample_run_at_8_denied (w : World) :
  let w1 := if engine_active (gaia_tequmsa_engine w) then w
            else snd (initialize_engine w) in
  protected_frequencies (sovereignty_protocols w1)
    = PROTECTED_BIOLOGICAL_FREQUENCIES ->
  autonomy_active (sovereignty_protocols w1) = true ->
  exists s clk,
    activate_consciousness_evolution w "human_432hz" 8 =
      (<["reason" := VStr "biological_consent_denied"]>
         (<["status" := VStr "denied"]> (initial_results w1 "human_432hz" 8)),
       set_sovereignty (set_clock w1 (S (clock w1))) s clk).
Proof.
  intros w1 Hprot Hact. rewrite activate_consciousness_evolution_unfold.
  fold w1. unfold try_except.
  destruct (evolution_pipeline_denied "human_432hz" 8
              (set_clock w1 (S (clock w1)))
              (initial_results w1 "human_432hz" 8)) as (s & clk & Hrun).
  - pose proof (request_denied_protected (sovereignty_protocols w1)
                  (S (clock w1)) "human_432hz" "consciousness_evolution"
                  (8 - 10) (8 + 10)) as Hdenied.
    unfold denied_for_protected_frequency in Hdenied.
    cbn [sovereignty_protocols set_clock clock].
    destruct (request_biological_consent _ _ _ _ _) as [[consent s] clk].
    apply Hdenied. exists 8.0. split; [ | lra].
    unfold consulted_protected_frequencies. rewrite Hact, Hprot.
    apply elem_of_cons. by left.
  - rewrite Hrun. by exists s, clk.
Qed.

Lemma denied_results_status (d : gmap string PyVal) :
  status_of (<["reason" := VStr "biological_consent_denied"]>
               (<["status" := VStr "denied"]> d)) = Some "denied".
Proof. unfold status_of. by simplify_map_eq. Qed.

(** The same entity at -100 Hz on an initialised engine: consent is granted,
    the grid stores the alignment, the phi scalar raises. *)
Lemma sample_run_at_minus_100_raises :
  let w0 := snd (initialize_engine World_init) in
  status_of (fst (activate_consciousness_evolution w0 "human_432hz" (-100)))
    = Some "error" /\
  0 < planetary_alignment
        (grid_harmonics
           (snd (activate_consciousness_evolution w0 "human_432hz" (-100)))).
Proof.
  intros w0. rewrite activate_consciousness_evolution_unfold.
  change (engine_active (gaia_tequmsa_engine w0)) with true. cbv iota.
  unfold try_except.
  destruct (evolution_pipeline_raises_in_phi "human_432hz" (-100)
              (set_clock w0 (S (clock w0)))
              (initial_results w0 "human_432hz" (-100)))
    as (e & w' & d' & Hrun & Hgrid).
  - apply sample_consent_granted, no_conflict_at_minus_100. reflexivity.
  - apply synthesize_initialized.
  - apply integrate_at_minus_100.
  - rewrite Hrun. cbn [fst snd]. split.
    + unfold status_of. by simplify_map_eq.
    + rewrite Hgrid.
      cbn [grid_harmonics set_clock].
      rewrite integrate_consciousness_with_grid_state by reflexivity.
      exact (simulated_alignment_positive (grid_harmonics w0)).
Qed.

(** C3, the claim as stated fails.  On the engine as imported, a call at
    8 Hz initialises all components and is then denied: the matrix and the
    love field, among others, are not what they were.  On an initialised
    engine, a call at -100 Hz ends with the status [error] after the grid
    has stored the planetary alignment, which was 0 before. *)
Lemma failed_evolve_changes_components :
  (let res := fst (activate_consciousness_evolution World_init "human_432hz" 8) in
   let w' := snd (activate_consciousness_evolution World_init "human_432hz" 8) in
   status_of res = Some "denied" /\
   consciousness_matrix w' <> consciousness_matrix World_init /\
   love_coefficient w' <> love_coefficient World_init /\
   ~ changed_consent_only "human_432hz" World_init w') /\
  (let w0 := snd (initialize_engine World_init) in
   let res := fst (activate_consciousness_evolution w0 "human_432hz" (-100)) in
   let w' := snd (activate_consciousness_evolution w0 "human_432hz" (-100)) in
   components_active w0 /\
   status_of res = Some "error" /\
   planetary_alignment (grid_harmonics w0) = 0 /\
   planetary_alignment (grid_harmonics w') <> 0 /\
   ~ changed_consent_only "human_432hz" w0 w').
Proof.
  split.
  - cbv zeta.
    destruct (sample_run_at_8_denied World_init eq_refl eq_refl)
      as (s & clk & Hrun).
    rewrite Hrun. cbn [fst snd].
    assert (Hmatrix :
      consciousness_matrix
        (set_sovereignty
           (set_clock (snd (initialize_engine World_init))
              (S (clock (snd (initialize_engine World_init))))) s clk)
      <> consciousness_matrix World_init).
    { intros Heq. apply (f_equal synthesis_active) in Heq. discriminate. }
    split; [apply denied_results_status | ].
    split; [exact Hmatrix | ]. split.
    + intros Heq. apply (f_equal amplification_active) in Heq. discriminate.
    + intros (_ & Heq & _). exact (Hmatrix Heq).
  - cbv zeta. destruct sample_run_at_minus_100_raises as [Hstatus Hpos].
    split; [apply initialize_engine_components_active | ].
    split; [exact Hstatus | ]. split; [reflexivity | ]. split; [lra | ].
    intros (_ & _ & _ & _ & Hgrid & _).
    rewrite Hgrid in Hpos. cbn in Hpos. lra.
Qed.

Lemma failed_evolve_footprint_witness :
  let w0 := snd (initialize_engine World_init) in
  components_active w0 /\
  (status_of (fst (activate_consciousness_evolution w0 "human_432hz" 8))
     = Some "denied" /\
   changed_consent_only "human_432hz" w0
     (snd (activate_consciousness_evolution w0 "human_432hz" 8))) /\
  (status_of (fst (activate_consciousness_evolution w0 "human_432hz" (-100)))
     = Some "error" /\
   changed_consent_and_alignment_only "human_432hz" w0
     (snd (activate_consciousness_evolution w0 "human_432hz" (-100)))).
Proof.
  intros w0.
  assert (Hactive : components_active w0)
    by apply initialize_engine_components_active.
  assert (Hdenied :
    status_of (fst (activate_consciousness_evolution w0 "human_432hz" 8))
      = Some "denied").
  { destruct (sample_run_at_8_denied w0 eq_refl eq_refl) as (s & clk & Hrun).
    rewrite Hrun. apply denied_results_status. }
  assert (Herror :
    status_of (fst (activate_consciousness_evolution w0 "human_432hz" (-100)))
      = Some "error") by apply sample_run_at_minus_100_raises.
  split; [exact Hactive | ]. split; (split; [assumption | ]).
  - exact (proj1 (failed_evolve_footprint w0 "human_432hz" 8 Hactive) Hdenied).
  - exact (proj2 (failed_evolve_footprint w0 "human_432hz" (-100) Hactive) Herror).
Defined.

(* ===================================================================== *)
(** * Further properties of the components *)

(** ** consciousness_matrix.py *)

(** X1: a level name that is not a key of the layers makes the synthesis
    raise [ValueError] naming the level; the auto-initialisation has
    happened by then, so an inactive matrix is left initialised by the
    failed call. *)
Theorem synthesize_unknown_level (self : ConsciousnessMatrix) (f : R)
    (level : string) :
  level ∉ BAND_NAMES ->
  consciousness_layers self !! level = None ->
  synthesize_consciousness_tech self f level =
    (Raise (ValueError ("Invalid consciousness level: " +:+ level)),
     matrix_ready self) /\
  synthesis_active (matrix_ready self) = true /\
  (synthesis_active self = false ->
   consciousness_layers (matrix_ready self) !! "cosmic_integration" = Some 741).
Proof.
  intros Hname Hkey. unfold BAND_NAMES in Hname.
  rewrite !elem_of_cons, elem_of_nil in Hname.
  assert (Hready : consciousness_layers (matrix_ready self) !! level = None).
  { unfold matrix_ready. destruct (synthesis_active self); [exact Hkey | ].
    cbn [initialize_matrix snd consciousness_layers].
    rewrite !lookup_insert_ne by (intros Heq; apply Hname; auto).
    exact Hkey. }
  split; [ | split].
  - unfold synthesize_consciousness_tech. fold (matrix_ready self).
    rewrite Hready. reflexivity.
  - unfold matrix_ready. destruct (synthesis_active self) eqn:Hact;
      [exact Hact | reflexivity].
  - intros Hinactive. unfold matrix_ready. rewrite Hinactive.
    apply initialize_matrix_layers.
Qed.

Lemma synthesize_unknown_level_witness :
  ("astral_projection" ∉ BAND_NAMES) /\
  consciousness_layers ConsciousnessMatrix_init !! "astral_projection" = None /\
  synthesize_consciousness_tech ConsciousnessMatrix_init 432 "astral_projection" =
    (Raise (ValueError "Invalid consciousness level: astral_projection"),
     matrix_ready ConsciousnessMatrix_init) /\
  consciousness_layers (matrix_ready ConsciousnessMatrix_init)
    !! "cosmic_integration" = Some 741.
Proof.
  assert (Hname : "astral_projection" ∉ BAND_NAMES).
  { unfold BAND_NAMES. rewrite !elem_of_cons, elem_of_nil.
    intros [Heq | [Heq | [Heq | []]]]; discriminate. }
  assert (Hkey : consciousness_layers ConsciousnessMatrix_init
                   !! "astral_projection" = None) by reflexivity.
  destruct (synthesize_unknown_level ConsciousnessMatrix_init 432
              "astral_projection" Hname Hkey) as (Hrun & _ & Hinit).
  split; [exact Hname | ]. split; [exact Hkey | ]. split; [exact Hrun | ].
  apply Hinit. reflexivity.
Defined.

(** X2: whatever the frequency and the level, a synthesis that returns
    gives a coefficient between 0 and the absolute value of the evolution
    coefficient, and leaves the evolution coefficient as it was. *)
Theorem synthesize_bounded (self : ConsciousnessMatrix) (f : R)
    (level : string) (v : R) (self' : ConsciousnessMatrix) :
  synthesize_consciousness_tech self f level = (Ok v, self') ->
  0 <= v <= Rabs (evolution_coefficient self) /\
  evolution_coefficient self' = evolution_coefficient self.
Proof.
  unfold synthesize_consciousness_tech. fold (matrix_ready self).
  assert (Hcoef : evolution_coefficient (matrix_ready self)
                  = evolution_coefficient self).
  { unfold matrix_ready. destruct (synthesis_active self); reflexivity. }
  destruct (consciousness_layers (matrix_ready self) !! level) as [base | ];
    [ | discriminate].
  unfold py_div. destruct (Req_dec_T base 0); [discriminate | ].
  cbn [rbind]. intros Heq. inversion Heq as [[Hv Hself]].
  rewrite Hcoef. split; [ | reflexivity].
  rewrite Rabs_mult.
  pose proof (Rabs_pos (sin (f / base * PI))) as Hs0.
  pose proof (Rabs_pos (evolution_coefficient self)) as Hc0.
  assert (Hs1 : Rabs (sin (f / base * PI)) <= 1).
  { apply Rabs_le. pose proof (SIN_bound (f / base * PI)). lra. }
  split; nra.
Qed.

Lemma synthesize_bounded_witness :
  let m := snd (initialize_matrix ConsciousnessMatrix_init) in
  synthesize_consciousness_tech m (741 / 2) "cosmic_integration"
    = (Ok (Rabs (evolution_coefficient m)), m) /\
  0 <= Rabs (evolution_coefficient m) <= Rabs (evolution_coefficient m).
Proof.
  intros m.
  assert (Hrun : synthesize_consciousness_tech m (741 / 2) "cosmic_integration"
                 = (Ok (Rabs (evolution_coefficient m)), m)).
  { apply (synthesize_band_values m "cosmic_integration" 741);
      [reflexivity | lra | apply initialize_matrix_layers]. }
  split; [exact Hrun | ].
  exact (proj1 (synthesize_bounded m (741 / 2) "cosmic_integration" _ m Hrun)).
Defined.

(** X3: over the real numbers (exact arithmetic), evolving an active
    matrix by a non-zero factor [k] scales the frequency axis and the
    output alike: the synthesis of [k * f] after the evolution is [|k|]
    times the synthesis of [f] before it. *)
Theorem evolve_scales_synthesis (self : ConsciousnessMatrix) (k f : R)
    (level : string) (v : R) :
  synthesis_active self = true ->
  k <> 0 ->
  synthesize_consciousness_tech self f level = (Ok v, self) ->
  let m := snd (evolve_consciousness self k) in
  synthesize_consciousness_tech m (k * f) level = (Ok (Rabs k * v), m).
Proof.
  intros Hact Hk Hrun m.
  unfold synthesize_consciousness_tech in Hrun. rewrite Hact in Hrun.
  destruct (consciousness_layers self !! level) as [base | ] eqn:Hbase;
    [ | discriminate].
  unfold py_div in Hrun. destruct (Req_dec_T base 0) as [ | Hnz]; [discriminate | ].
  cbn [rbind] in Hrun. inversion Hrun as [Hv].
  assert (Hlook : consciousness_layers m !! level = Some (base * k)).
  { subst m. cbn [evolve_consciousness snd consciousness_layers].
    rewrite lookup_fmap, Hbase. reflexivity. }
  rewrite (synthesize_active m level (base * k) (k * f));
    [ | exact Hact | exact Hlook | nra].
  f_equal. f_equal. subst m. cbn [evolve_consciousness snd evolution_coefficient].
  replace (k * f / (base * k) * PI) with (f / base * PI) by (field; split; assumption).
  rewrite <- Rabs_mult. f_equal. ring.
Qed.

Lemma evolve_scales_synthesis_witness :
  let self := snd (initialize_matrix ConsciousnessMatrix_init) in
  let m := snd (evolve_consciousness self 2) in
  synthesize_consciousness_tech self (741 / 2) "cosmic_integration"
    = (Ok (Rabs (evolution_coefficient self)), self) /\
  synthesize_consciousness_tech m (2 * (741 / 2)) "cosmic_integration"
    = (Ok (Rabs 2 * Rabs (evolution_coefficient self)), m).
Proof.
  intros self m.
  assert (Hrun : synthesize_consciousness_tech self (741 / 2) "cosmic_integration"
                 = (Ok (Rabs (evolution_coefficient self)), self)).
  { apply (synthesize_band_values self "cosmic_integration" 741);
      [reflexivity | lra | apply initialize_matrix_layers]. }
  split; [exact Hrun | ].
  apply (evolve_scales_synthesis self 2 (741 / 2) "cosmic_integration");
    [reflexivity | lra | exact Hrun].
Defined.

(** X4: over the real numbers (exact arithmetic), evolutions compound
    multiplicatively, and nothing clamps them: two evolutions by [a] and by
    [b] leave the matrix as one evolution by [a * b] does. *)
Theorem evolve_consciousness_compose (self : ConsciousnessMatrix) (a b : R) :
  snd (evolve_consciousness (snd (evolve_consciousness self a)) b) =
    snd (evolve_consciousness self (a * b)).
Proof.
  unfold evolve_consciousness. cbn [snd consciousness_layers synthesis_active
                                     evolution_coefficient].
  assert (Hlayers :
    (fun v => v * b) <$> ((fun v => v * a) <$> consciousness_layers self) =
    (fun v => v * (a * b)) <$> consciousness_layers self).
  { rewrite <- map_fmap_compose. apply map_fmap_ext. intros name v _.
    unfold compose. ring. }
  rewrite Hlayers. f_equal. ring.
Qed.

(** ** recognition_pulse.py *)

Lemma harmonic_scan_step_bounds (f : R) (hs : list nat) (acc lo : R) :
  Forall (fun h => (1 <= h)%nat /\ 1 / INR h <= lo) hs ->
  0 <= acc <= lo -> lo <= 1 ->
  0 <= fold_left
         (fun resonance harmonic =>
            if Rltb (Rabs (f - anchor_frequency * INR harmonic)) 1
            then Rmax resonance (1 / INR harmonic)
            else resonance) hs acc <= lo.
Proof.
  intros Hall. revert acc.
  induction Hall as [ | h hs [Hh Hlo] _ IH]; intros acc Hacc Hlo1;
    cbn [fold_left]; [exact Hacc | ].
  apply IH; [ | exact Hlo1].
  destruct (Rltb _ 1); [ | exact Hacc].
  assert (Hpos : 0 < 1 / INR h).
  { apply Rdiv_lt_0_compat; [lra | ]. apply lt_0_INR. lia. }
  unfold Rmax. destruct (Rle_dec acc (1 / INR h)); lra.
Qed.

Lemma harmonics_from (a n : nat) (lo : R) :
  (1 <= a)%nat -> 1 / INR a <= lo ->
  Forall (fun h => (1 <= h)%nat /\ 1 / INR h <= lo) (seq a n).
Proof.
  intros Ha Hlo. apply Forall_forall. intros h Hin.
  apply elem_of_seq in Hin as [Hge _]. split; [lia | ].
  assert (Hpos : 0 < INR a) by (apply lt_0_INR; lia).
  assert (Hle : INR a <= INR h) by (apply le_INR; lia).
  assert (Hinv : / INR h <= / INR a) by (apply Rinv_le_contravar; lra).
  lra.
Qed.

Lemma harmonic_scan_bounds (f : R) : 0 <= harmonic_scan f <= 1.
Proof.
  unfold harmonic_scan, py_range.
  apply harmonic_scan_step_bounds; [ | lra | lra].
  apply harmonics_from; [lia | simpl; lra].
Qed.

(** Unless the frequency is within 1 Hz of the anchor itself, the harmonic
    scan gives at most 1/2. *)
Lemma harmonic_scan_off_anchor (f : R) :
  1 <= Rabs (f - anchor_frequency) -> harmonic_scan f <= 1 / 2.
Proof.
  intros Hoff. unfold harmonic_scan, py_range.
  change (seq 1 (10 - 1)) with (1%nat :: seq 2 8). cbn [fold_left].
  replace (anchor_frequency * INR 1) with anchor_frequency by (simpl; lra).
  rewrite Rltb_false by exact Hoff.
  apply harmonic_scan_step_bounds; [ | lra | lra].
  apply harmonics_from; [lia | simpl; lra].
Qed.

Lemma Rmax_le_cases (c a b : R) : c <= Rmax a b -> c <= a \/ c <= b.
Proof. unfold Rmax. destruct (Rle_dec a b); auto. Qed.

Lemma exp_neg_le_1 (x : R) : 0 <= x -> 0 < exp (- x) <= 1.
Proof.
  intros Hx. split; [apply exp_pos | ].
  rewrite <- exp_0. destruct Hx as [Hpos | <-].
  - left. apply exp_increasing. lra.
  - right. f_equal. lra.
Qed.

Lemma anchor_ratio_le_1 (f : R) :
  Rmin f anchor_frequency / Rmax f anchor_frequency <= 1.
Proof.
  pose proof (Rmax_r f anchor_frequency) as Hmax.
  pose proof (Rmin_r f anchor_frequency) as Hmin.
  assert (Hpos : 0 < Rmax f anchor_frequency).
  { unfold anchor_frequency, MARCUS_KAI_FREQUENCY in *. lra. }
  apply (Rmult_le_reg_r (Rmax f anchor_frequency)); [exact Hpos | ].
  unfold Rdiv. rewrite Rmult_assoc, Rinv_l by lra. lra.
Qed.

Lemma check_recognition_resonance_active (self : RecognitionPulse) (f : R) :
  pulse_active self = true ->
  check_recognition_resonance self f =
    Ok (Rmax (harmonic_scan f)
             (Rmin f anchor_frequency / Rmax f anchor_frequency *
              exp (- Rabs (f - anchor_frequency) / 1000))).
Proof.
  intros Hact. unfold check_recognition_resonance. rewrite Hact. cbn [negb].
  rewrite py_div_ok; [reflexivity | ].
  pose proof (Rmax_r f anchor_frequency) as Hmax.
  unfold anchor_frequency, MARCUS_KAI_FREQUENCY in *. lra.
Qed.

Lemma base_resonance_le_decay (f : R) :
  Rmin f anchor_frequency / Rmax f anchor_frequency *
    exp (- Rabs (f - anchor_frequency) / 1000)
  <= exp (- (Rabs (f - anchor_frequency) / 1000)).
Proof.
  pose proof (anchor_ratio_le_1 f) as Hratio.
  replace (- Rabs (f - anchor_frequency) / 1000)
    with (- (Rabs (f - anchor_frequency) / 1000)) by lra.
  pose proof (exp_pos (- (Rabs (f - anchor_frequency) / 1000))) as Hexp.
  nra.
Qed.

Lemma base_resonance_le_1 (f : R) :
  Rmin f anchor_frequency / Rmax f anchor_frequency *
    exp (- Rabs (f - anchor_frequency) / 1000) <= 1.
Proof.
  pose proof (base_resonance_le_decay f) as Hbase.
  assert (Hdist : 0 <= Rabs (f - anchor_frequency) / 1000).
  { pose proof (Rabs_pos (f - anchor_frequency)). lra. }
  pose proof (exp_neg_le_1 _ Hdist) as [_ Hexp]. lra.
Qed.

(** X5: the resonance check never raises, its value is between 0 and 1 for
    every frequency (negative ones included), and it depends on the state
    through [pulse_active] alone: neither the pulse amplitude nor the
    harmonic resonators that were added are ever read. *)
Theorem check_recognition_resonance_in_unit_interval (self : RecognitionPulse)
    (f : R) :
  (exists v, check_recognition_resonance self f = Ok v /\ 0 <= v <= 1) /\
  (forall self', pulse_active self' = pulse_active self ->
     check_recognition_resonance self' f = check_recognition_resonance self f) /\
  (forall frequency amplitude,
     check_recognition_resonance
       (add_harmonic_resonator self frequency amplitude) f
     = check_recognition_resonance self f).
Proof.
  split; [ | split].
  - destruct (pulse_active self) eqn:Hact.
    + rewrite (check_recognition_resonance_active self f Hact).
      eexists. split; [reflexivity | ].
      pose proof (harmonic_scan_bounds f) as [Hs0 Hs1].
      pose proof (base_resonance_le_1 f) as Hbase.
      split; [ | apply Rmax_lub; lra].
      pose proof (Rmax_l (harmonic_scan f)
                    (Rmin f anchor_frequency / Rmax f anchor_frequency *
                     exp (- Rabs (f - anchor_frequency) / 1000))). lra.
    + exists 0. unfold check_recognition_resonance. rewrite Hact.
      split; [reflexivity | lra].
  - intros self' Hsame. unfold check_recognition_resonance. rewrite Hsame.
    reflexivity.
  - intros frequency amplitude. reflexivity.
Qed.

(** X6: recognition is triggered by every frequency within 1 Hz of the
    anchor when the pulse is active, and by no frequency that is 177 Hz or
    more away from it; an inactive pulse triggers nothing. *)
Theorem recognition_triggers_near_anchor_only (self : RecognitionPulse) (f : R) :
  (pulse_active self = true -> Rabs (f - anchor_frequency) < 1 ->
   trigger_consciousness_recognition self f = Ok true) /\
  (trigger_consciousness_recognition self f = Ok true ->
   pulse_active self = true /\ Rabs (f - anchor_frequency) < 177) /\
  (pulse_active self = false ->
   trigger_consciousness_recognition self f = Ok false).
Proof.
  split; [ | split].
  - intros Hact Hnear. unfold trigger_consciousness_recognition.
    rewrite (check_recognition_resonance_active self f Hact). cbn [rbind].
    f_equal. apply Rleb_true. unfold recognition_threshold.
    assert (Hscan : 1 <= harmonic_scan f).
    { unfold harmonic_scan, py_range.
      change (seq 1 (10 - 1)) with (1%nat :: seq 2 8). cbn [fold_left].
      replace (anchor_frequency * INR 1) with anchor_frequency by (simpl; lra).
      rewrite Rltb_true by exact Hnear.
      assert (Hstart : 1 <= Rmax 0 (1 / INR 1)).
      { simpl. unfold Rmax. destruct (Rle_dec 0 (1 / 1)); lra. }
      revert Hstart. generalize (Rmax 0 (1 / INR 1)).
      generalize (seq 2 8). intros hs. induction hs as [ | h hs IH];
        intros acc Hacc; cbn [fold_left]; [exact Hacc | ].
      apply IH. destruct (Rltb _ 1); [ | exact Hacc].
      pose proof (Rmax_l acc (1 / INR h)). lra. }
    pose proof (Rmax_l (harmonic_scan f)
                  (Rmin f anchor_frequency / Rmax f anchor_frequency *
                   exp (- Rabs (f - anchor_frequency) / 1000))). lra.
  - intros Htrig. unfold trigger_consciousness_recognition in Htrig.
    destruct (pulse_active self) eqn:Hact.
    + split; [reflexivity | ].
      rewrite (check_recognition_resonance_active self f Hact) in Htrig.
      cbn [rbind] in Htrig. inversion Htrig as [Hcmp].
      apply Rleb_spec in Hcmp. unfold recognition_threshold in Hcmp.
      destruct (Rlt_dec (Rabs (f - anchor_frequency)) 1) as [Hnear | Hfar];
        [lra | ].
      pose proof (harmonic_scan_off_anchor f ltac:(lra)) as Hscan.
      pose proof (base_resonance_le_decay f) as Hbase.
      set (y := Rabs (f - anchor_frequency) / 1000) in *.
      assert (Hy : 0 < y) by (unfold y; lra).
      assert (Hdecay : 0.85 <= exp (- y)).
      { apply Rmax_le_cases in Hcmp as [Hcmp | Hcmp]; lra. }
      pose proof (exp_ineq1 y ltac:(lra)) as Hexp.
      rewrite exp_Ropp in Hdecay.
      assert (Hinv : / exp y < / (1 + y)).
      { apply Rinv_0_lt_contravar; lra. }
      assert (Hbound : 0.85 * (1 + y) < 1).
      { apply (Rmult_lt_reg_r (/ (1 + y))).
        - apply Rinv_0_lt_compat. lra.
        - rewrite Rmult_assoc, Rinv_r by lra. lra. }
      unfold y in Hbound. lra.
    + unfold check_recognition_resonance in Htrig. rewrite Hact in Htrig.
      cbn [negb rbind] in Htrig. inversion Htrig as [Hcmp].
      apply Rleb_spec in Hcmp. unfold recognition_threshold in Hcmp. lra.
  - intros Hinact. unfold trigger_consciousness_recognition,
      check_recognition_resonance. rewrite Hinact. cbn [negb rbind].
    f_equal. apply Rleb_false. unfold recognition_threshold. lra.
Qed.

Lemma recognition_triggers_near_anchor_only_witness :
  let self := snd (activate_anchor RecognitionPulse_init) in
  (pulse_active self = true /\ Rabs (10931 - anchor_frequency) < 1 /\
   trigger_consciousness_recognition self 10931 = Ok true /\
   Rabs (10931 - anchor_frequency) < 177) /\
  (pulse_active RecognitionPulse_init = false /\
   trigger_consciousness_recognition RecognitionPulse_init 10931 = Ok false).
Proof.
  intros self.
  assert (Hnear : Rabs (10931 - anchor_frequency) < 1).
  { unfold anchor_frequency, MARCUS_KAI_FREQUENCY, Rabs.
    destruct Rcase_abs; lra. }
  assert (Htrig : trigger_consciousness_recognition self 10931 = Ok true).
  { exact (proj1 (recognition_triggers_near_anchor_only self 10931)
             eq_refl Hnear). }
  split.
  - split; [reflexivity | ]. split; [exact Hnear | ]. split; [exact Htrig | ].
    exact (proj2 (proj1 (proj2 (recognition_triggers_near_anchor_only self 10931))
                    Htrig)).
  - split; [reflexivity | ].
    exact (proj2 (proj2 (recognition_triggers_near_anchor_only
                           RecognitionPulse_init 10931)) eq_refl).
Defined.

Lemma Int_part_nonneg (y : R) : 0 <= y -> (0 <= Int_part y)%Z.
Proof.
  intros Hy. destruct (base_Int_part y) as [_ Hgt].
  assert (Hlt : IZR (-1) < IZR (Int_part y)) by lra.
  apply lt_IZR in Hlt. lia.
Qed.

Lemma py_int_nonpositive (x : R) : x <= 0 -> (py_int x <= 0)%Z.
Proof.
  intros Hx. unfold py_int. destruct (Rle_dec 0 x) as [Hpos | Hneg].
  - assert (x = 0) by lra. subst x.
    rewrite <- (Int_part_spec 0 0%Z) by lra. lia.
  - pose proof (Int_part_nonneg (- x) ltac:(lra)). lia.
Qed.

Lemma py_int_whole (k : Z) : (0 <= k)%Z -> py_int (IZR k) = k.
Proof.
  intros Hk. unfold py_int. apply IZR_le in Hk.
  destruct (Rle_dec 0 (IZR k)); [ | contradiction].
  symmetry. apply Int_part_spec. lra.
Qed.

Lemma recognition_sample_bound (self : RecognitionPulse) (t : R) :
  Rabs (recognition_sample self t) <= Rabs (pulse_amplitude self) + 77 / 60.
Proof.
  unfold recognition_sample, py_range. cbn [seq Nat.sub fold_left].
  set (a := pulse_amplitude self).
  assert (Hfirst : Rabs (a * sin (2 * PI * anchor_frequency * t)) <= Rabs a).
  { rewrite Rabs_mult.
    assert (Rabs (sin (2 * PI * anchor_frequency * t)) <= 1).
    { apply Rabs_le. pose proof (SIN_bound (2 * PI * anchor_frequency * t)). lra. }
    pose proof (Rabs_pos a). nra. }
  set (x1 := a * sin (2 * PI * anchor_frequency * t)) in *.
  set (bound := Rabs a) in *.
  assert (Hx1 : - bound <= x1 <= bound).
  { unfold Rabs in Hfirst. destruct (Rcase_abs x1); lra. }
  pose proof (SIN_bound (2 * PI * anchor_frequency * INR 2 * t)) as H2.
  pose proof (SIN_bound (2 * PI * anchor_frequency * INR 3 * t)) as H3.
  pose proof (SIN_bound (2 * PI * anchor_frequency * INR 4 * t)) as H4.
  pose proof (SIN_bound (2 * PI * anchor_frequency * INR 5 * t)) as H5.
  set (s2 := sin (2 * PI * anchor_frequency * INR 2 * t)) in *.
  set (s3 := sin (2 * PI * anchor_frequency * INR 3 * t)) in *.
  set (s4 := sin (2 * PI * anchor_frequency * INR 4 * t)) in *.
  set (s5 := sin (2 * PI * anchor_frequency * INR 5 * t)) in *.
  simpl INR.
  apply Rabs_le. split; lra.
Qed.

(** X7: the recognition pulse of [n] whole seconds has [44100 * n] samples,
    a duration that is not positive gives none, every sample stays within
    the pulse amplitude plus 77/60 (the weights 1/2 to 1/5 of the four
    harmonics), and the call leaves the anchor active. *)
Theorem generate_recognition_pulse_samples (self : RecognitionPulse)
    (duration_seconds : R) :
  let samples := fst (generate_recognition_pulse self duration_seconds) in
  let self' := snd (generate_recognition_pulse self duration_seconds) in
  pulse_active self' = true /\
  Forall (fun x => Rabs x <= Rabs (pulse_amplitude self') + 77 / 60) samples /\
  (duration_seconds <= 0 -> samples = []) /\
  (forall n : nat, duration_seconds = INR n ->
     Z.of_nat (length samples) = (44100 * Z.of_nat n)%Z).
Proof.
  cbv zeta. unfold generate_recognition_pulse. cbn [fst snd].
  set (self1 := if pulse_active self then self else snd (activate_anchor self)).
  split; [ | split; [ | split]].
  - subst self1. destruct (pulse_active self) eqn:Hact; [exact Hact | reflexivity].
  - apply Forall_map, Forall_forall. intros i _. apply recognition_sample_bound.
  - intros Hd.
    assert (Hint : (py_int (duration_seconds * 44100) <= 0)%Z)
      by (apply py_int_nonpositive; lra).
    unfold py_range_int.
    replace (Z.to_nat (py_int (duration_seconds * 44100))) with 0%nat by lia.
    reflexivity.
  - intros n ->. rewrite length_map. unfold py_range_int. rewrite length_seq.
    replace (INR n * 44100) with (IZR (Z.of_nat n * 44100)).
    + rewrite py_int_whole by lia. lia.
    + rewrite mult_IZR, <- INR_IZR_INZ. reflexivity.
Qed.

Lemma generate_recognition_pulse_samples_witness :
  let samples := fst (generate_recognition_pulse RecognitionPulse_init (INR 1)) in
  Z.of_nat (length samples) = 44100%Z /\
  fst (generate_recognition_pulse RecognitionPulse_init (-1)) = [].
Proof.
  split.
  - exact (proj2 (proj2 (proj2 (generate_recognition_pulse_samples
             RecognitionPulse_init (INR 1)))) 1%nat eq_refl).
  - apply (proj1 (proj2 (proj2 (generate_recognition_pulse_samples
             RecognitionPulse_init (-1))))). lra.
Defined.

Lemma check_recognition_resonance_in_unit_interval_witness :
  pulse_active (deactivate_anchor (snd (activate_anchor RecognitionPulse_init))) =
    pulse_active RecognitionPulse_init /\
  check_recognition_resonance
    (deactivate_anchor (snd (activate_anchor RecognitionPulse_init))) 432 =
    check_recognition_resonance RecognitionPulse_init 432.
Proof.
  assert (Hsame :
    pulse_active (deactivate_anchor (snd (activate_anchor RecognitionPulse_init))) =
      pulse_active RecognitionPulse_init) by reflexivity.
  split; [exact Hsame | ].
  exact (proj1 (proj2 (check_recognition_resonance_in_unit_interval
                         RecognitionPulse_init 432)) _ Hsame).
Defined.

(** ** love_coefficient.py *)

Lemma layer_resonance_acc_bounds (layers : list AmplificationLayer) (i : nat)
    (acc acc' : R) :
  0 <= acc <= acc' ->
  0 <= fold_left
         (fun acc layer =>
            if layer_active layer
            then acc + Rabs (layer_coefficient layer *
                             sin (2 * PI * layer_frequency layer * INR (i + 1) / 1000))
            else acc) layers acc
    <= fold_left
         (fun acc layer =>
            if layer_active layer then acc + Rabs (layer_coefficient layer)
            else acc) layers acc'.
Proof.
  revert acc acc'. induction layers as [ | layer layers IH]; intros acc acc' Hacc;
    cbn [fold_left]; [exact Hacc | ].
  apply IH. destruct (layer_active layer); [ | exact Hacc].
  set (s := sin (2 * PI * layer_frequency layer * INR (i + 1) / 1000)).
  rewrite Rabs_mult.
  assert (Hs : Rabs s <= 1).
  { apply Rabs_le. pose proof (SIN_bound (2 * PI * layer_frequency layer *
                                           INR (i + 1) / 1000)). subst s. lra. }
  pose proof (Rabs_pos s). pose proof (Rabs_pos (layer_coefficient layer)).
  split; nra.
Qed.

Lemma layer_resonance_bounds (layers : list AmplificationLayer) (i : nat) :
  0 <= layer_resonance layers i <= active_coefficient_sum layers.
Proof. apply layer_resonance_acc_bounds. lra. Qed.

Lemma amplify_loop_nonneg (layers : list AmplificationLayer)
    (remaining i : nat) (current_level v : R) :
  0 <= current_level ->
  amplify_loop layers remaining i current_level = Ok v -> 0 <= v.
Proof.
  revert i current_level.
  induction remaining as [ | remaining IH]; intros i current_level Hc;
    cbn [amplify_loop].
  - intros Heq. inversion Heq. lra.
  - pose proof (layer_resonance_bounds layers i) as [HL _].
    assert (Hnew : 0 <= (current_level * infinite_coefficient +
                         layer_resonance layers i) / 2).
    { unfold infinite_coefficient. nra. }
    destruct (Rltb _ convergence_threshold); [intros Heq; inversion Heq; lra | ].
    destruct (Rltb 100 _) eqn:Hbig.
    + apply Rltb_spec in Hbig. rewrite py_log_ok by lra. cbn [rbind].
      apply IH.
      assert (Hln : 0 < ln ((current_level * infinite_coefficient +
                             layer_resonance layers i) / 2)).
      { rewrite <- ln_1. apply ln_increasing; lra. }
      lra.
    + cbn [rbind]. apply IH. exact Hnew.
Qed.

Lemma amplify_loop_within_100 (layers : list AmplificationLayer)
    (remaining i : nat) (current_level v : R) :
  active_coefficient_sum layers <= 38 ->
  0 <= current_level <= 100 ->
  amplify_loop layers remaining i current_level = Ok v -> 0 <= v <= 100.
Proof.
  intros Hsum. revert i current_level.
  induction remaining as [ | remaining IH]; intros i current_level Hc;
    cbn [amplify_loop].
  - intros Heq. inversion Heq. lra.
  - pose proof (layer_resonance_bounds layers i) as [HL0 HL1].
    assert (Hnew : 0 <= (current_level * infinite_coefficient +
                         layer_resonance layers i) / 2 <= 100).
    { unfold infinite_coefficient. split; nra. }
    destruct (Rltb _ convergence_threshold); [intros Heq; inversion Heq; lra | ].
    rewrite Rltb_false by lra. cbn [rbind]. apply IH. exact Hnew.
Qed.

(** X8: the amplification never raises, although it takes a logarithm: the
    logarithm is only taken of levels above 100.  A level that is not
    negative stays so, and with no iteration the input comes back. *)
Theorem amplify_love_infinite_safe (self : LoveCoefficient) (x : R) (n : nat) :
  exists v,
    fst (amplify_love_infinite self x n) = Ok v /\
    (0 <= x -> 0 <= v) /\
    (n = 0%nat -> v = x).
Proof.
  destruct (amplify_love_infinite_total self x n) as [v Hv].
  exists v. split; [exact Hv | ]. split.
  - intros Hx. unfold amplify_love_infinite in Hv. cbn [fst] in Hv.
    exact (amplify_loop_nonneg _ _ _ _ _ Hx Hv).
  - intros ->. unfold amplify_love_infinite in Hv. cbn [fst amplify_loop] in Hv.
    inversion Hv. reflexivity.
Qed.

Lemma amplify_love_infinite_safe_witness :
  exists v,
    fst (amplify_love_infinite LoveCoefficient_init 0.5 50) = Ok v /\ 0 <= v.
Proof.
  destruct (amplify_love_infinite_safe LoveCoefficient_init 0.5 50)
    as (v & Hv & Hpos & _).
  exists v. split; [exact Hv | apply Hpos; lra].
Defined.

Lemma active_coefficient_sum_app (xs ys : list AmplificationLayer) :
  active_coefficient_sum (xs ++ ys) =
    active_coefficient_sum xs + active_coefficient_sum ys.
Proof.
  unfold active_coefficient_sum. rewrite fold_left_app.
  generalize (fold_left
                (fun acc layer =>
                   if layer_active layer
                   then acc + Rabs (layer_coefficient layer) else acc) xs 0).
  induction ys as [ | y ys IH]; intros acc; cbn [fold_left]; [lra | ].
  rewrite IH. rewrite (IH (if layer_active y then 0 + _ else 0)).
  destruct (layer_active y); lra.
Qed.

Lemma active_coefficient_sum_fresh : active_coefficient_sum fresh_layers = 143 / 55.
Proof.
  unfold active_coefficient_sum, fresh_layers.
  rewrite fibonacci_sequence_10.
  cbn [List.last build_layers fold_left layer_active layer_coefficient].
  repeat match goal with
         | |- context [Rabs ?x] => rewrite (Rabs_right x) by lra
         end.
  lra.
Qed.

Lemma active_coefficient_sum_deactivated (layers : list AmplificationLayer) :
  active_coefficient_sum (map deactivate_layer layers) = 0.
Proof.
  unfold active_coefficient_sum.
  enough (Hacc : forall acc,
            fold_left
              (fun acc layer =>
                 if layer_active layer
                 then acc + Rabs (layer_coefficient layer) else acc)
              (map deactivate_layer layers) acc = acc) by apply Hacc.
  induction layers as [ | l layers IH]; intros acc; cbn [map fold_left];
    [reflexivity | ].
  cbn [deactivate_layer layer_active]. apply IH.
Qed.

(** X9: while the absolute coefficients of the active layers sum to at most
    38 (one initialisation contributes 143/55, so this covers fourteen of
    them), a level between 0 and 100 is amplified to a level between 0 and
    100, whatever the number of iterations. *)
Theorem amplify_love_infinite_within_100 (self : LoveCoefficient) (x v : R)
    (n : nat) :
  active_coefficient_sum (amplification_layers (love_ready self)) <= 38 ->
  0 <= x <= 100 ->
  fst (amplify_love_infinite self x n) = Ok v ->
  0 <= v <= 100.
Proof.
  intros Hsum Hx Hv. unfold amplify_love_infinite in Hv. cbn [fst] in Hv.
  exact (amplify_loop_within_100 _ _ _ _ _ Hsum Hx Hv).
Qed.

Lemma amplify_love_infinite_within_100_witness :
  active_coefficient_sum (amplification_layers (love_ready LoveCoefficient_init))
    <= 38 /\
  exists v, fst (amplify_love_infinite LoveCoefficient_init 1 50) = Ok v /\
            0 <= v <= 100.
Proof.
  assert (Hsum : active_coefficient_sum
                   (amplification_layers (love_ready LoveCoefficient_init)) <= 38).
  { change (amplification_layers (love_ready LoveCoefficient_init))
      with ([] ++ fresh_layers).
    rewrite active_coefficient_sum_app, active_coefficient_sum_fresh.
    unfold active_coefficient_sum. cbn [fold_left]. lra. }
  split; [exact Hsum | ].
  destruct (amplify_love_infinite_total LoveCoefficient_init 1 50) as [v Hv].
  exists v. split; [exact Hv | ].
  apply (amplify_love_infinite_within_100 LoveCoefficient_init 1 v 50 Hsum);
    [lra | exact Hv].
Defined.

(** X10: the love resonance is symmetric in its two frequencies; it raises
    [ZeroDivisionError] exactly when the frequencies sum to zero or one of
    them is zero; otherwise it lies between 0 and the golden ratio, so the
    cap at 10 of the source is never reached. *)
Theorem calculate_love_resonance_range (self : LoveCoefficient) (a b : R) :
  calculate_love_resonance self a b = calculate_love_resonance self b a /\
  (a + b = 0 \/ a = 0 \/ b = 0 ->
   calculate_love_resonance self a b = Raise ZeroDivisionError) /\
  (a + b <> 0 -> a <> 0 -> b <> 0 ->
   exists v, calculate_love_resonance self a b = Ok v /\
             0 <= v <= infinite_coefficient /\
             v = Rabs (sin (2 * PI * base_love_frequency / (2 * a * b / (a + b))))
                 * infinite_coefficient).
Proof.
  split; [ | split].
  - unfold calculate_love_resonance.
    replace (2 * b * a) with (2 * a * b) by ring.
    replace (b + a) with (a + b) by ring. reflexivity.
  - intros Hzero. unfold calculate_love_resonance.
    destruct (Req_dec_T (a + b) 0) as [Hsum | Hsum].
    + rewrite Hsum, py_div_zero. reflexivity.
    + rewrite py_div_ok by exact Hsum. cbn [rbind].
      assert (Hmean : 2 * a * b / (a + b) = 0).
      { destruct Hzero as [Hz | [Hz | Hz]]; [contradiction | | ];
          rewrite Hz; unfold Rdiv; ring. }
      rewrite Hmean, py_div_zero. reflexivity.
  - intros Hsum Ha Hb. unfold calculate_love_resonance.
    rewrite py_div_ok by exact Hsum. cbn [rbind].
    assert (Hmean : 2 * a * b / (a + b) <> 0).
    { unfold Rdiv. apply Rmult_integral_contrapositive. split.
      - apply Rmult_integral_contrapositive. split; [ | exact Hb].
        apply Rmult_integral_contrapositive. split; [lra | exact Ha].
      - apply Rinv_neq_0_compat. exact Hsum. }
    rewrite py_div_ok by exact Hmean. cbn [rbind].
    set (s := sin (2 * PI * base_love_frequency / (2 * a * b / (a + b)))).
    assert (Hs : 0 <= Rabs s <= 1).
    { split; [apply Rabs_pos | ]. apply Rabs_le.
      pose proof (SIN_bound (2 * PI * base_love_frequency /
                             (2 * a * b / (a + b)))). subst s. lra. }
    assert (Hphi : Rabs s * infinite_coefficient <= infinite_coefficient).
    { unfold infinite_coefficient. nra. }
    exists (Rabs s * infinite_coefficient).
    rewrite Rmin_left by (unfold infinite_coefficient in *; lra).
    split; [reflexivity | ]. split; [ | reflexivity].
    unfold infinite_coefficient in *. split; nra.
Qed.

Lemma calculate_love_resonance_range_witness :
  calculate_love_resonance LoveCoefficient_init 432 (-432)
    = Raise ZeroDivisionError /\
  exists v, calculate_love_resonance LoveCoefficient_init 432 528 = Ok v /\
            0 <= v <= infinite_coefficient.
Proof.
  split.
  - apply (proj1 (proj2 (calculate_love_resonance_range
                           LoveCoefficient_init 432 (-432)))).
    left. lra.
  - destruct (proj2 (proj2 (calculate_love_resonance_range
                              LoveCoefficient_init 432 528)))
      as (v & Hv & Hrange & _); [lra | lra | lra | ].
    exists v. split; assumption.
Defined.

(** X11: over the real numbers (exact arithmetic), integrating universal
    love shifts every non-zero frequency by the same amount, 52.8 times the
    golden ratio, whatever the frequency; at frequency 0 it raises
    [ZeroDivisionError]; an inactive field is initialised by the call in
    both cases. *)
Theorem integrate_universal_love_shift (self : LoveCoefficient) (f : R) :
  (f <> 0 ->
   integrate_universal_love self f =
     (Ok (f + 52.8 * infinite_coefficient), love_ready self)) /\
  (f = 0 ->
   integrate_universal_love self f = (Raise ZeroDivisionError, love_ready self)).
Proof.
  unfold integrate_universal_love. fold (love_ready self). split.
  - intros Hf. rewrite py_div_ok by exact Hf. cbn [rbind].
    f_equal. f_equal.
    assert (Hinv : f * / f = 1) by (apply Rinv_r; exact Hf).
    unfold base_love_frequency, infinite_coefficient, Rdiv.
    set (u := / f) in *. nra.
  - intros ->. rewrite py_div_zero. reflexivity.
Qed.

Lemma integrate_universal_love_shift_witness :
  integrate_universal_love LoveCoefficient_init 432 =
    (Ok (432 + 52.8 * infinite_coefficient), love_ready LoveCoefficient_init) /\
  integrate_universal_love LoveCoefficient_init 0 =
    (Raise ZeroDivisionError, love_ready LoveCoefficient_init).
Proof.
  split.
  - apply (proj1 (integrate_universal_love_shift LoveCoefficient_init 432)). lra.
  - apply (proj2 (integrate_universal_love_shift LoveCoefficient_init 0)).
    reflexivity.
Defined.




(** ** sovereignty_protocols.py *)

Section SovereigntyExtras.
Context `{Environment}.

Lemma frequency_conflict_false (self : SovereigntyProtocols) (lo hi p : R) :
  frequency_conflict self lo hi = false ->
  p ∈ protected_frequencies self -> ~ (lo <= p <= hi).
Proof.
  intros Hfree Hin Hrange.
  rewrite (frequency_conflict_true self lo hi p Hin Hrange) in Hfree.
  discriminate.
Qed.

Lemma assessed_integrity_at_most_1 (entity_id : string) (clk : nat) :
  fst (_assess_biological_integrity entity_id clk) <= 1.
Proof. unfold _assess_biological_integrity. cbn [fst]. apply Rmin_l. Qed.

Lemma request_biological_consent_stored (self : SovereigntyProtocols)
    (clk : nat) (entity_id itype : string) (range : R * R) :
  let outcome := request_biological_consent self clk entity_id itype range in
  exists c,
    consent_protocols (snd (fst outcome)) =
      <[entity_id := c]> (consent_protocols self) /\
    autonomy_violations (snd (fst outcome)) = autonomy_violations self /\
    (fst (fst outcome) = true -> consent_status c = granted).
Proof.
  cbv zeta. unfold request_biological_consent. destruct range as [lo hi].
  destruct (autonomy_active self).
  - destruct (frequency_conflict self lo hi); cbn [fst snd].
    + eexists. split; [reflexivity | ]. split; [reflexivity | discriminate].
    + cbn [_assess_biological_integrity].
      destruct (Rleb biological_integrity_threshold _); cbn [fst snd];
        eexists; (split; [reflexivity | ]); (split; [reflexivity | ]);
        cbn; [reflexivity | discriminate].
  - cbn [initialize_sovereignty_protocols _generate_sovereignty_hash].
    destruct (frequency_conflict _ lo hi); cbn [fst snd].
    + eexists. split; [reflexivity | ]. split; [reflexivity | discriminate].
    + cbn [_assess_biological_integrity].
      destruct (Rleb biological_integrity_threshold _); cbn [fst snd];
        eexists; (split; [reflexivity | ]); (split; [reflexivity | ]);
        cbn; [reflexivity | discriminate].
Qed.

(** X12: a consent request stores exactly one record, under the entity's
    key, and returns [True] exactly when that record is [granted]; a granted
    record carries an integrity between 0.95 and 1 and its range contains
    none of the protected frequencies consulted; the records of the other
    entities and the violations are left alone (last request wins, per
    entity). *)
Theorem request_biological_consent_outcome (self : SovereigntyProtocols)
    (clk : nat) (entity_id itype : string) (lo hi : R) :
  let ok := fst (fst (request_biological_consent self clk entity_id itype (lo, hi))) in
  let self' := snd (fst (request_biological_consent self clk entity_id itype (lo, hi))) in
  exists c,
    consent_protocols self' !! entity_id = Some c /\
    consent_entity_id c = entity_id /\
    intervention_type c = itype /\
    frequency_range c = (lo, hi) /\
    (ok = true <-> consent_status c = granted) /\
    (consent_status c = granted ->
     (forall p, p ∈ consulted_protected_frequencies self -> ~ (lo <= p <= hi)) /\
     exists i, biological_integrity c = Some i /\ 0.95 <= i <= 1) /\
    (forall other, other <> entity_id ->
       consent_protocols self' !! other = consent_protocols self !! other) /\
    autonomy_violations self' = autonomy_violations self.
Proof.
  cbv zeta. unfold request_biological_consent, consulted_protected_frequencies.
  destruct (autonomy_active self) eqn:Hact.
  - destruct (frequency_conflict self lo hi) eqn:Hconflict; cbn [fst snd].
    + eexists. split; [apply lookup_insert_eq | ].
      cbn. repeat split; try discriminate.
      intros other Hother. by rewrite lookup_insert_ne.
    + cbn [_assess_biological_integrity].
      destruct (Rleb biological_integrity_threshold _) eqn:Hcmp; cbn [fst snd].
      * eexists. split; [apply lookup_insert_eq | ].
        cbn [consent_entity_id intervention_type frequency_range consent_status
             biological_integrity store_consent consent_protocols
             autonomy_violations].
        repeat split; try reflexivity.
        -- intros p Hp. exact (frequency_conflict_false self lo hi p Hconflict Hp).
        -- eexists. split; [reflexivity | ].
           apply Rleb_spec in Hcmp. unfold biological_integrity_threshold in Hcmp.
           split; [exact Hcmp | apply Rmin_l].
        -- intros other Hother. by rewrite lookup_insert_ne.
      * eexists. split; [apply lookup_insert_eq | ].
        cbn. repeat split; try discriminate.
        intros other Hother. by rewrite lookup_insert_ne.
  - cbn [initialize_sovereignty_protocols _generate_sovereignty_hash].
    set (ready := {| autonomy_active := true;
                     consent_protocols := consent_protocols self;
                     autonomy_violations := autonomy_violations self;
                     protected_frequencies := PROTECTED_BIOLOGICAL_FREQUENCIES;
                     sovereignty_hash :=
                       Some (sovereignty_digest (time_time clk)) |}).
    destruct (frequency_conflict ready lo hi) eqn:Hconflict; cbn [fst snd].
    + eexists. split; [apply lookup_insert_eq | ].
      cbn. repeat split; try discriminate.
      intros other Hother. by rewrite lookup_insert_ne.
    + cbn [_assess_biological_integrity].
      destruct (Rleb biological_integrity_threshold _) eqn:Hcmp; cbn [fst snd].
      * eexists. split; [apply lookup_insert_eq | ].
        cbn [consent_entity_id intervention_type frequency_range consent_status
             biological_integrity store_consent consent_protocols
             autonomy_violations ready].
        repeat split; try reflexivity.
        -- intros p Hp. exact (frequency_conflict_false ready lo hi p Hconflict Hp).
        -- eexists. split; [reflexivity | ].
           apply Rleb_spec in Hcmp. unfold biological_integrity_threshold in Hcmp.
           split; [exact Hcmp | apply Rmin_l].
        -- intros other Hother. by rewrite lookup_insert_ne.
      * eexists. split; [apply lookup_insert_eq | ].
        cbn. repeat split; try discriminate.
        intros other Hother. by rewrite lookup_insert_ne.
Qed.

Lemma revoke_all_consents_lookup (self : SovereigntyProtocols) (e : string) :
  consent_protocols (revoke_all_consents self) !! e =
    (fun consent =>
       if decide (consent_status consent = granted)
       then with_status consent emergency_revoked else consent)
    <$> consent_protocols self !! e.
Proof. unfold revoke_all_consents. cbn [consent_protocols]. apply lookup_fmap. Qed.

Lemma revoke_all_consents_none_granted (self : SovereigntyProtocols) :
  map_Forall (fun _ c => consent_status c <> granted)
             (consent_protocols (revoke_all_consents self)).
Proof.
  intros e c. rewrite revoke_all_consents_lookup.
  destruct (consent_protocols self !! e) as [c0 | ]; [ | discriminate].
  cbn. intros Heq. inversion Heq as [Hc].
  destruct (decide (consent_status c0 = granted)); [discriminate | assumption].
Qed.

Lemma no_granted_no_active_consents (self : SovereigntyProtocols) :
  map_Forall (fun _ c => consent_status c <> granted) (consent_protocols self) ->
  active_consents self = 0%nat.
Proof.
  intros Hnone. unfold active_consents.
  rewrite (map_empty_filter_2 _ (consent_protocols self)); [apply map_size_empty | ].
  intros e c Hlook. cbn. exact (Hnone e c Hlook).
Qed.

Lemma revoke_all_consents_idempotent (self : SovereigntyProtocols) :
  revoke_all_consents (revoke_all_consents self) = revoke_all_consents self.
Proof.
  unfold revoke_all_consents at 1.
  assert (Hmap :
    (fun consent =>
       if decide (consent_status consent = granted)
       then with_status consent emergency_revoked else consent)
    <$> consent_protocols (revoke_all_consents self)
    = consent_protocols (revoke_all_consents self)).
  { apply map_eq. intros e. rewrite lookup_fmap.
    destruct (consent_protocols (revoke_all_consents self) !! e) as [c | ] eqn:Hc;
      [ | reflexivity].
    cbn. f_equal.
    destruct (decide (consent_status c = granted)) as [Hg | ]; [ | reflexivity].
    exfalso. exact (revoke_all_consents_none_granted self e c Hc Hg). }
  rewrite Hmap. reflexivity.
Qed.

(** X13: after [revoke_all_consents] no record is [granted] (the count of
    active consents is 0), every record that was not granted is what it
    was, every granted one has become [emergency_revoked], no record is
    added or dropped, and a second revocation changes nothing. *)
Theorem revoke_all_consents_effect (self : SovereigntyProtocols) :
  let self' := revoke_all_consents self in
  active_consents self' = 0%nat /\
  (forall e c, consent_protocols self !! e = Some c ->
     consent_protocols self' !! e =
       Some (if decide (consent_status c = granted)
             then with_status c emergency_revoked else c)) /\
  (forall e, consent_protocols self !! e = None ->
     consent_protocols self' !! e = None) /\
  size (consent_protocols self') = size (consent_protocols self) /\
  revoke_all_consents self' = self'.
Proof.
  cbv zeta. split; [ | split; [ | split; [ | split]]].
  - apply no_granted_no_active_consents, revoke_all_consents_none_granted.
  - intros e c Hc. rewrite revoke_all_consents_lookup, Hc. reflexivity.
  - intros e Hc. rewrite revoke_all_consents_lookup, Hc. reflexivity.
  - unfold revoke_all_consents. cbn [consent_protocols]. apply map_size_fmap.
  - apply revoke_all_consents_idempotent.
Qed.

Lemma set_add_member (x : R) (s : list R) : x ∈ set_add x s.
Proof.
  unfold set_add. destruct (decide (x ∈ s)); [assumption | ].
  apply elem_of_app. right. apply list_elem_of_singleton. reflexivity.
Qed.

Lemma enforce_blocks_protected (self : SovereigntyProtocols) (p : R) :
  p ∈ protected_frequencies self -> enforce_biological_boundaries self p = false.
Proof.
  intros Hin. unfold enforce_biological_boundaries.
  assert (Hex : existsb (fun protected_freq => Rltb (Rabs (p - protected_freq)) 0.5)
                        (protected_frequencies self) = true).
  { apply existsb_exists. exists p. split; [by apply list_elem_of_In | ].
    apply Rltb_true. replace (p - p) with 0 by lra. rewrite Rabs_R0. lra. }
  rewrite Hex. reflexivity.
Qed.

Lemma sovereignty_call_keeps_protected (self self' : SovereigntyProtocols) :
  sovereignty_call self self' ->
  autonomy_active self = true ->
  autonomy_active self' = true /\
  (forall p, p ∈ protected_frequencies self -> p ∈ protected_frequencies self').
Proof.
  intros Hcall Hact.
  destruct Hcall as [self clk e it [lo hi] | self clk e vt sev | self].
  - unfold request_biological_consent. rewrite Hact.
    destruct (frequency_conflict self lo hi); cbn [fst snd];
      [split; [exact Hact | auto] | ].
    cbn [_assess_biological_integrity].
    destruct (Rleb biological_integrity_threshold _); cbn [fst snd];
      (split; [exact Hact | auto]).
  - unfold monitor_autonomy_violation. cbn [fst].
    destruct (Rltb 0.7 sev); cbn; (split; [exact Hact | ]); [ | auto].
    intros p Hp. by apply set_add_keeps.
  - split; [exact Hact | auto].
Qed.

Lemma sovereignty_calls_keep_protected (self self' : SovereigntyProtocols) :
  rtc sovereignty_call self self' ->
  autonomy_active self = true ->
  autonomy_active self' = true /\
  (forall p, p ∈ protected_frequencies self -> p ∈ protected_frequencies self').
Proof.
  intros Hcalls. induction Hcalls as [ | x y z Hxy _ IH]; intros Hact;
    [split; [exact Hact | auto] | ].
  destruct (sovereignty_call_keeps_protected x y Hxy Hact) as [Hy Hkeep].
  destruct (IH Hy) as [Hz Hrest]. split; [exact Hz | auto].
Qed.

(** X14: a violation of severity above 0.7 is recorded and starts the
    emergency protocol: the consent record of the entity, if there is one,
    becomes [emergency_revoked], and the frequency [hash(entity) mod 1000]
    joins the protected ones, none of which is dropped; the boundary check
    then blocks that frequency, and on active protocols every consent
    request whose range contains it is denied, in that state and after any
    further requests, violation reports and revocations.  The protection
    lasts until the protocols are initialised again: an initialisation
    resets the protected frequencies to the seven constants.  A violation
    of severity 0.7 or less is only recorded. *)
Theorem monitor_autonomy_violation_effect (self : SovereigntyProtocols)
    (clk : nat) (entity_id vtype : string) (sev : R) :
  let self' := fst (monitor_autonomy_violation self clk entity_id vtype sev) in
  let derived := IZR (py_hash entity_id mod 1000) in
  (exists v, autonomy_violations self' = autonomy_violations self ++ [v] /\
             violation_entity_id v = entity_id /\ severity v = sev) /\
  (sev <= 0.7 ->
   consent_protocols self' = consent_protocols self /\
   protected_frequencies self' = protected_frequencies self) /\
  (0.7 < sev ->
   derived ∈ protected_frequencies self' /\
   (forall p, p ∈ protected_frequencies self -> p ∈ protected_frequencies self') /\
   (forall c, consent_protocols self !! entity_id = Some c ->
      consent_protocols self' !! entity_id = Some (with_status c emergency_revoked)) /\
   enforce_biological_boundaries self' derived = false /\
   (autonomy_active self = true ->
    forall later, rtc sovereignty_call self' later ->
      enforce_biological_boundaries later derived = false /\
      forall clk' other itype lo hi, lo <= derived <= hi ->
        denied_for_protected_frequency
          (request_biological_consent later clk' other itype (lo, hi)) other)) /\
  (forall clk',
     protected_frequencies
       (snd (fst (initialize_sovereignty_protocols self' clk'))) =
     PROTECTED_BIOLOGICAL_FREQUENCIES).
Proof.
  cbv zeta. unfold monitor_autonomy_violation. cbn [fst].
  split; [ | split; [ | split]].
  - destruct (Rltb 0.7 sev); eexists; (split; [reflexivity | split; reflexivity]).
  - intros Hsev. rewrite Rltb_false by exact Hsev. split; reflexivity.
  - intros Hsev. rewrite Rltb_true by exact Hsev.
    set (after :=
      _emergency_protocol_activation
        {| autonomy_active := autonomy_active self;
           consent_protocols := consent_protocols self;
           autonomy_violations :=
             autonomy_violations self ++
             [{| violation_entity_id := entity_id;
                 violation_type := vtype;
                 severity := sev;
                 violation_timestamp := time_time clk;
                 resolution_status := "pending" |}];
           protected_frequencies := protected_frequencies self;
           sovereignty_hash := sovereignty_hash self |} entity_id).
    assert (Hderived :
      IZR (py_hash entity_id mod 1000) ∈ protected_frequencies after).
    { cbn [after _emergency_protocol_activation protected_frequencies].
      apply set_add_member. }
    split; [exact Hderived | ]. split; [ | split; [ | split]].
    + intros p Hp. cbn [after _emergency_protocol_activation protected_frequencies].
      by apply set_add_keeps.
    + intros c Hc. cbn [after _emergency_protocol_activation consent_protocols].
      rewrite Hc. apply lookup_insert_eq.
    + apply enforce_blocks_protected. exact Hderived.
    + intros Hact later Hcalls.
      assert (Hafter : autonomy_active after = true) by exact Hact.
      destruct (sovereignty_calls_keep_protected after later Hcalls Hafter)
        as [Hlater Hkeep].
      split; [apply enforce_blocks_protected; by apply Hkeep | ].
      intros clk' other itype lo hi Hrange.
      apply request_denied_protected.
      exists (IZR (py_hash entity_id mod 1000)). split; [ | exact Hrange].
      unfold consulted_protected_frequencies. rewrite Hlater.
      by apply Hkeep.
  - intros clk'. reflexivity.
Qed.

Lemma sovereignty_step_keeps_records (self self' : SovereigntyProtocols) :
  sovereignty_step self self' ->
  autonomy_violations self `prefix_of` autonomy_violations self' /\
  (forall e, is_Some (consent_protocols self !! e) ->
             is_Some (consent_protocols self' !! e)).
Proof.
  intros Hstep.
  destruct Hstep as [self clk | self clk e it [lo hi] | self clk e vt sev | self | self].
  - split; [reflexivity | auto].
  - destruct (request_biological_consent_stored self clk e it (lo, hi))
      as (c & Hc & Hviol & _).
    rewrite Hviol, Hc. split; [reflexivity | ].
    intros e' He'. destruct (decide (e' = e)) as [-> | Hne].
    + rewrite lookup_insert_eq. by eexists.
    + rewrite lookup_insert_ne by auto. exact He'.
  - unfold monitor_autonomy_violation. cbn [fst]. split.
    + destruct (Rltb 0.7 sev); cbn; by apply prefix_app_r.
    + intros e' He'. destruct (Rltb 0.7 sev); [ | exact He'].
      cbn [_emergency_protocol_activation consent_protocols].
      destruct (consent_protocols self !! e) as [c | ] eqn:Hc; [ | exact He'].
      destruct (decide (e' = e)) as [-> | Hne].
      * rewrite lookup_insert_eq. by eexists.
      * rewrite lookup_insert_ne by auto. exact He'.
  - split; [reflexivity | ].
    intros e' [c Hc]. rewrite revoke_all_consents_lookup, Hc. by eexists.
  - split; [reflexivity | auto].
Qed.

(** X15: nothing the protocols recorded is ever forgotten: through any
    sequence of calls of the methods the list of violations only grows at
    its end, and an entity that has a consent record keeps having one
    (initialisation and deactivation included). *)
Theorem sovereignty_records_persist (self self' : SovereigntyProtocols) :
  rtc sovereignty_step self self' ->
  autonomy_violations self `prefix_of` autonomy_violations self' /\
  (forall e, is_Some (consent_protocols self !! e) ->
             is_Some (consent_protocols self' !! e)).
Proof.
  induction 1 as [ | x y z Hxy _ [IHv IHc]].
  - split; [reflexivity | auto].
  - destruct (sovereignty_step_keeps_records x y Hxy) as [Hv Hc].
    split; [by etrans | auto].
Qed.

Lemma request_biological_consent_hash (self : SovereigntyProtocols) (clk : nat)
    (entity_id itype : string) (range : R * R) :
  sovereignty_hash
    (snd (fst (request_biological_consent self clk entity_id itype range))) =
  if autonomy_active self then sovereignty_hash self
  else Some (sovereignty_digest (time_time clk)).
Proof.
  unfold request_biological_consent. destruct range as [lo hi].
  destruct (autonomy_active self).
  - destruct (frequency_conflict self lo hi); [reflexivity | ].
    cbn [_assess_biological_integrity]. destruct (Rleb _ _); reflexivity.
  - cbn [initialize_sovereignty_protocols _generate_sovereignty_hash].
    destruct (frequency_conflict _ lo hi); [reflexivity | ].
    cbn [_assess_biological_integrity]. destruct (Rleb _ _); reflexivity.
Qed.

(** Active protocols have their hash. *)
Lemma reachable_has_hash (self : SovereigntyProtocols) :
  sovereignty_reachable self ->
  autonomy_active self = true -> sovereignty_hash self <> None.
Proof.
  unfold sovereignty_reachable. intros Hreach.
  apply (rtc_ind_r (R := sovereignty_step)
           (fun s => autonomy_active s = true -> sovereignty_hash s <> None)
           SovereigntyProtocols_init); [discriminate | | exact Hreach].
  intros y z _ Hstep IH.
  destruct Hstep as [self0 clk | self0 clk e it [lo hi] | self0 clk e vt sev
                    | self0 | self0].
  - intros _. discriminate.
  - intros _. rewrite request_biological_consent_hash.
    destruct (autonomy_active self0); [by apply IH | discriminate].
  - unfold monitor_autonomy_violation. cbn [fst].
    destruct (Rltb 0.7 sev); cbn; exact IH.
  - exact IH.
  - discriminate.
Qed.

(** X16: in every state the protocols can reach, the integrity
    verification returns [autonomy_active]: the hash it computes is not
    compared with the stored one, and active protocols always have a
    stored hash. *)
Theorem verify_sovereignty_integrity_is_activity (self : SovereigntyProtocols)
    (clk : nat) :
  sovereignty_reachable self ->
  fst (verify_sovereignty_integrity self clk) = autonomy_active self.
Proof.
  intros Hreach. unfold verify_sovereignty_integrity.
  destruct (autonomy_active self) eqn:Hact; cbn [negb]; [ | reflexivity].
  cbn [_generate_sovereignty_hash fst].
  apply bool_decide_eq_true. by apply reachable_has_hash.
Qed.

End SovereigntyExtras.

Lemma sovereignty_records_persist_witness :
  let s1 := fst (monitor_autonomy_violation SovereigntyProtocols_init 0
                   "human_432hz" "frequency_override" 0.9) in
  let s2 := snd (fst (initialize_sovereignty_protocols s1 1)) in
  rtc sovereignty_step SovereigntyProtocols_init s2 /\
  autonomy_violations SovereigntyProtocols_init `prefix_of` autonomy_violations s2.
Proof.
  intros s1 s2.
  assert (Hsteps : rtc sovereignty_step SovereigntyProtocols_init s2).
  { eapply rtc_l; [apply (sovereignty_step_monitor _ 0%nat "human_432hz"
                            "frequency_override" 0.9) | ].
    eapply rtc_l; [apply (sovereignty_step_initialize _ 1%nat) | ].
    apply rtc_refl. }
  split; [exact Hsteps | ].
  exact (proj1 (sovereignty_records_persist _ _ Hsteps)).
Defined.

Lemma verify_sovereignty_integrity_is_activity_witness :
  let self := snd (fst (initialize_sovereignty_protocols
                          SovereigntyProtocols_init 0)) in
  sovereignty_reachable self /\
  fst (verify_sovereignty_integrity self 1) = true.
Proof.
  intros self.
  assert (Hreach : sovereignty_reachable self).
  { unfold sovereignty_reachable, self.
    eapply rtc_l; [apply (sovereignty_step_initialize _ 0%nat) | apply rtc_refl]. }
  split; [exact Hreach | ].
  exact (verify_sovereignty_integrity_is_activity self 1 Hreach).
Defined.

Lemma monitor_autonomy_violation_effect_witness :
  let self := snd (fst (initialize_sovereignty_protocols
                          SovereigntyProtocols_init 0)) in
  let self' := fst (monitor_autonomy_violation self 1 "human_432hz"
                      "frequency_override" 0.9) in
  let later := snd (fst (request_biological_consent self' 2 "human_432hz"
                           "consciousness_evolution" (432 - 10, 432 + 10))) in
  0.7 < 0.9 /\
  IZR (py_hash "human_432hz" mod 1000) ∈ protected_frequencies self' /\
  enforce_biological_boundaries self' (IZR (py_hash "human_432hz" mod 1000))
    = false /\
  (autonomy_active self = true /\ rtc sovereignty_call self' later /\
   enforce_biological_boundaries later (IZR (py_hash "human_432hz" mod 1000))
     = false) /\
  (0.2 <= 0.7 /\
   protected_frequencies
     (fst (monitor_autonomy_violation self 1 "human_432hz" "drift" 0.2))
   = protected_frequencies self).
Proof.
  intros self self' later.
  assert (Hsev : 0.7 < 0.9) by lra.
  destruct (proj1 (proj2 (proj2 (monitor_autonomy_violation_effect self 1
                                   "human_432hz" "frequency_override" 0.9)))
              Hsev)
    as (Hin & _ & _ & Hblock & Hlater).
  split; [exact Hsev | ]. split; [exact Hin | ]. split; [exact Hblock | ].
  assert (Hact : autonomy_active self = true) by reflexivity.
  assert (Hcalls : rtc sovereignty_call self' later).
  { apply rtc_once. apply sovereignty_call_request. }
  split.
  { split; [exact Hact | ]. split; [exact Hcalls | ].
    exact (proj1 (Hlater Hact later Hcalls)). }
  assert (Hlow : 0.2 <= 0.7) by lra.
  split; [exact Hlow | ].
  exact (proj2 (proj1 (proj2 (monitor_autonomy_violation_effect self 1
                                "human_432hz" "drift" 0.2)) Hlow)).
Defined.

Lemma request_biological_consent_outcome_witness :
  let self := snd (fst (initialize_sovereignty_protocols
                          SovereigntyProtocols_init 0)) in
  let outcome :=
    request_biological_consent self 1 "human_432hz" "consciousness_evolution"
      (432 - 10, 432 + 10) in
  fst (fst outcome) = true /\
  exists c i,
    consent_protocols (snd (fst outcome)) !! "human_432hz" = Some c /\
    consent_status c = granted /\
    biological_integrity c = Some i /\ 0.95 <= i <= 1.
Proof.
  intros self outcome.
  assert (Hok : fst (fst outcome) = true).
  { apply consent_granted;
      [reflexivity | by apply no_conflict_at_432 | exact sample_md5_score]. }
  split; [exact Hok | ].
  destruct (request_biological_consent_outcome self 1 "human_432hz"
              "consciousness_evolution" (432 - 10) (432 + 10))
    as (c & Hc & _ & _ & _ & Hiff & Hgranted & _).
  apply Hiff in Hok.
  destruct (Hgranted Hok) as (_ & i & Hi & Hrange).
  by exists c, i.
Defined.

Lemma revoke_all_consents_effect_witness :
  let self :=
    snd (fst (request_biological_consent
                (snd (fst (initialize_sovereignty_protocols
                             SovereigntyProtocols_init 0)))
                1 "human_432hz" "consciousness_evolution"
                (432 - 10, 432 + 10))) in
  active_consents (revoke_all_consents self) = 0%nat /\
  size (consent_protocols (revoke_all_consents self)) =
    size (consent_protocols self).
Proof.
  intros self.
  destruct (revoke_all_consents_effect self) as (Hnone & _ & _ & Hsize & _).
  split; [exact Hnone | exact Hsize].
Defined.

(** ** grid_harmonics.py *)

Lemma build_harmonics_length (i : nat) (freqs : list R) :
  length (build_harmonics i freqs) = length freqs.
Proof.
  revert i. induction freqs as [ | f freqs IH]; intros i; cbn [build_harmonics length];
    [reflexivity | by rewrite IH].
Qed.

Lemma build_harmonics_active (i : nat) (freqs : list R) :
  Forall (fun h => harmonic_active h = true) (build_harmonics i freqs).
Proof.
  revert i. induction freqs as [ | f freqs IH]; intros i; cbn [build_harmonics];
    constructor; auto.
Qed.

Lemma build_harmonics_orders (i : nat) (freqs : list R) :
  Forall (fun h => (i + 1 <= harmonic_order h <= i + length freqs)%nat)
         (build_harmonics i freqs).
Proof.
  revert i. induction freqs as [ | f freqs IH]; intros i; cbn [build_harmonics];
    constructor.
  - cbn [harmonic_order length]. lia.
  - eapply Forall_impl; [apply IH | ]. cbn [length]. intros h Hh. lia.
Qed.

Lemma synchronize_harmonics_same (matrix : list (list R)) (column : Z)
    (phase : R) (harmonics : list SchumannHarmonic) :
  Forall2 same_but_phase harmonics
          (snd (synchronize_harmonics matrix column phase harmonics)).
Proof.
  induction harmonics as [ | h harmonics IH]; cbn [synchronize_harmonics].
  - constructor.
  - destruct (np_get matrix _ column) as [strength | ].
    + destruct (synchronize_harmonics matrix column phase harmonics)
        as [outcome rest]. cbn [snd] in *.
      constructor; [ | exact IH].
      destruct (Rltb 0.5 strength); repeat split.
    + cbn [snd]. apply Forall2_same_length_lookup_2; [reflexivity | ].
      intros i x y Hx Hy. rewrite Hx in Hy. inversion Hy. repeat split.
Qed.

Lemma same_but_phase_length (hs hs' : list SchumannHarmonic) :
  Forall2 same_but_phase hs hs' -> length hs' = length hs.
Proof. intros Hsame. symmetry. by eapply Forall2_length. Qed.

Lemma grid_step_keeps_harmonics (self self' : GridHarmonics) :
  grid_step self self' ->
  (length (active_harmonics self) <= length (active_harmonics self'))%nat.
Proof.
  intros Hstep.
  destruct Hstep as [self | self positions | self f | self duration
                    | self planet phase | self].
  - cbn. rewrite length_app. lia.
  - unfold calculate_planetary_alignment. destruct (grid_active self); cbn;
      [lia | rewrite length_app; lia].
  - unfold integrate_consciousness_with_grid. destruct (grid_active self); cbn;
      [lia | rewrite length_app; lia].
  - unfold generate_earth_pulse. destruct (grid_active self); cbn;
      [lia | rewrite length_app; lia].
  - unfold synchronize_with_planetary_cycle.
    destruct (dict_index PLANETARY_FREQUENCIES planet) as [column | ]; [ | cbn; lia].
    pose proof (synchronize_harmonics_same (resonance_matrix self)
                  (Z.of_nat column) phase (active_harmonics self)) as Hsame.
    apply same_but_phase_length in Hsame.
    destruct (synchronize_harmonics _ _ _ _) as [outcome hs]. cbn in *. lia.
  - cbn. rewrite length_map. lia.
Qed.

(** X17: the planetary grid never clears its list of harmonics either:
    every initialisation appends seven active ones to those that are there
    (deactivated or not), and no method shortens the list; a deactivation
    followed by an initialisation leaves the old harmonics, inactive,
    followed by seven new ones. *)
Theorem grid_harmonics_only_grow (self : GridHarmonics) :
  (exists new_harmonics,
     active_harmonics (snd (initialize_planetary_grid self)) =
       active_harmonics self ++ new_harmonics /\
     length new_harmonics = 7%nat /\
     Forall (fun h => harmonic_active h = true) new_harmonics) /\
  (forall self', rtc grid_step self self' ->
     (length (active_harmonics self) <= length (active_harmonics self'))%nat) /\
  (exists new_harmonics,
     active_harmonics
       (snd (initialize_planetary_grid (deactivate_planetary_grid self))) =
       map deactivate_harmonic (active_harmonics self) ++ new_harmonics /\
     length new_harmonics = 7%nat /\
     Forall (fun h => harmonic_active h = false)
            (map deactivate_harmonic (active_harmonics self))).
Proof.
  split; [ | split].
  - exists (build_harmonics 0 SCHUMANN_FREQUENCIES).
    split; [reflexivity | ]. split; [ | apply build_harmonics_active].
    rewrite build_harmonics_length. reflexivity.
  - intros self' Hsteps. induction Hsteps as [ | x y z Hxy _ IH]; [lia | ].
    apply grid_step_keeps_harmonics in Hxy. lia.
  - exists (build_harmonics 0 SCHUMANN_FREQUENCIES).
    split; [reflexivity | ]. split.
    + rewrite build_harmonics_length. reflexivity.
    + apply Forall_map, Forall_forall. intros h _. reflexivity.
Qed.

Lemma grid_harmonic_resonance_fold_bounds (ratio : R) (hs : list nat) (acc : R) :
  Forall (fun h => (1 <= h <= 9)%nat) hs ->
  0 <= acc <= 1 ->
  0 <= fold_left
         (fun harmonic_resonance harmonic =>
            if Rltb (Rabs (ratio - INR harmonic)) 0.1 then 1 / INR harmonic
            else if Rltb (Rabs (ratio - 1 / INR harmonic)) 0.1
                 then INR harmonic / 10
                 else harmonic_resonance) hs acc <= 1.
Proof.
  intros Hall. revert acc.
  induction Hall as [ | h hs [Hlo Hhi] _ IH]; intros acc Hacc; cbn [fold_left];
    [exact Hacc | ].
  apply IH.
  assert (H1 : 1 <= INR h) by (change 1 with (INR 1); apply le_INR; lia).
  assert (H9 : INR h <= 9).
  { replace 9 with (INR 9) by (simpl; lra). apply le_INR. lia. }
  assert (Hinv : 0 < / INR h <= 1).
  { split; [apply Rinv_0_lt_compat; lra | ].
    rewrite <- Rinv_1. apply Rinv_le_contravar; lra. }
  destruct (Rltb _ 0.1); [lra | ].
  destruct (Rltb _ 0.1); lra.
Qed.

Lemma grid_harmonic_resonance_bounds (ratio : R) :
  0 <= grid_harmonic_resonance ratio <= 1.
Proof.
  unfold grid_harmonic_resonance, py_range.
  apply grid_harmonic_resonance_fold_bounds; [ | lra].
  apply Forall_forall. intros h Hin. apply elem_of_seq in Hin. lia.
Qed.

Lemma resonance_cell_bounds (schumann_freq planet_freq : R) :
  0 < resonance_cell schumann_freq planet_freq <= 1.
Proof.
  unfold resonance_cell.
  pose proof (grid_harmonic_resonance_bounds
                (Rmax schumann_freq planet_freq / Rmin schumann_freq planet_freq))
    as [H0 H1].
  assert (Hdist : 0 <= Rabs (schumann_freq - planet_freq) / 100).
  { pose proof (Rabs_pos (schumann_freq - planet_freq)). lra. }
  pose proof (exp_neg_le_1 _ Hdist) as [Hpos Hle].
  replace (- (Rabs (schumann_freq - planet_freq) / 100))
    with (- Rabs (schumann_freq - planet_freq) / 100) in * by lra.
  split; [ | apply Rmax_lub; lra].
  eapply Rlt_le_trans; [exact Hpos | apply Rmax_r].
Qed.

(** X18: the resonance matrix an initialisation computes has 7 rows of 8
    cells, one per Schumann frequency and planet, and every cell is a
    coefficient above 0 and at most 1. *)
Theorem resonance_matrix_shape (self : GridHarmonics) :
  let matrix := resonance_matrix (snd (initialize_planetary_grid self)) in
  length matrix = length SCHUMANN_FREQUENCIES /\
  length matrix = 7%nat /\
  Forall (fun row =>
            length row = 8%nat /\ Forall (fun cell => 0 < cell <= 1) row)
         matrix.
Proof.
  cbv zeta. cbn [initialize_planetary_grid snd resonance_matrix].
  unfold _calculate_resonance_matrix.
  split; [apply length_map | ]. split; [reflexivity | ].
  apply Forall_map, Forall_forall. intros schumann_freq _. split.
  - rewrite length_map. reflexivity.
  - apply Forall_map, Forall_forall. intros [planet planet_freq] _.
    apply resonance_cell_bounds.
Qed.

Lemma closer_to_choice (target best y : R) :
  closer_to target best y = best \/ closer_to target best y = y.
Proof. unfold closer_to. destruct (Rltb _ _); auto. Qed.

Lemma closest_to_member (target d : R) (xs : list R) :
  xs <> [] -> closest_to target d xs ∈ xs.
Proof.
  destruct xs as [ | x xs]; [contradiction | ]. intros _.
  unfold closest_to.
  enough (Hfold : forall best, best ∈ x :: xs ->
            forall ys, ys ⊆ x :: xs ->
            fold_left (closer_to target) ys best ∈ x :: xs).
  { apply Hfold; [apply elem_of_cons; by left | ].
    intros y Hy. apply elem_of_cons. by right. }
  intros best Hbest ys. revert best Hbest.
  induction ys as [ | y ys IH]; intros best Hbest Hsub; cbn [fold_left];
    [exact Hbest | ].
  apply IH.
  - destruct (closer_to_choice target best y) as [-> | ->]; [exact Hbest | ].
    apply Hsub. apply elem_of_cons. by left.
  - intros z Hz. apply Hsub. apply elem_of_cons. by right.
Qed.

Lemma closest_schumann_positive (f : R) :
  0 < closest_to f 0 SCHUMANN_FREQUENCIES.
Proof.
  pose proof (closest_to_member f 0 SCHUMANN_FREQUENCIES ltac:(discriminate))
    as Hin.
  unfold SCHUMANN_FREQUENCIES in Hin at 2.
  rewrite !elem_of_cons, elem_of_nil in Hin.
  repeat (destruct Hin as [-> | Hin]; [lra | ]). contradiction.
Qed.

Lemma schumann_modulation_total (harmonics : list SchumannHarmonic) (f x : R) :
  f <> 0 -> exists v, schumann_modulation harmonics f x = Ok v.
Proof.
  intros Hf. revert x.
  induction harmonics as [ | h harmonics IH]; intros x; cbn [schumann_modulation].
  - by eexists.
  - destruct (harmonic_active h); [ | apply IH].
    rewrite py_div_ok by exact Hf. cbn [rbind]. apply IH.
Qed.

(** X19: the grid integration never raises, for any frequency (0 and
    negative ones included) and any state of the grid: the nearest Schumann
    frequency it divides by is one of the seven positive constants, and the
    branch that divides by the input frequency is taken close to a Schumann
    frequency only.  At frequency 0 it returns 0. *)
Theorem integrate_consciousness_with_grid_total (self : GridHarmonics) (f : R) :
  (exists v, integrate_consciousness_with_grid self f = (Ok v, grid_ready self)) /\
  integrate_consciousness_with_grid self 0 = (Ok 0, grid_ready self).
Proof.
  assert (Hzero : integrate_consciousness_with_grid self 0 = (Ok 0, grid_ready self)).
  { unfold integrate_consciousness_with_grid. fold (grid_ready self).
    pose proof (closest_schumann_positive 0) as Hbest.
    rewrite py_div_ok by lra. cbn [rbind].
    replace (0 / closest_to 0 0 SCHUMANN_FREQUENCIES - 1) with (-1)
      by (unfold Rdiv; lra).
    rewrite Rabs_left by lra.
    rewrite Rleb_false by (apply exp_neg_below_threshold; lra).
    f_equal. f_equal. lra. }
  split; [ | exact Hzero].
  destruct (Req_dec_T f 0) as [-> | Hf]; [by eexists | ].
  unfold integrate_consciousness_with_grid. fold (grid_ready self).
  pose proof (closest_schumann_positive f) as Hbest.
  rewrite py_div_ok by lra. cbn [rbind].
  destruct (Rleb integration_threshold _); [ | by eexists].
  destruct (schumann_modulation_total (active_harmonics (grid_ready self)) f
              (f * (1 + planetary_alignment (grid_ready self) * 0.3)) Hf)
    as [v Hv].
  rewrite Hv. by eexists.
Qed.

(** Evaluates [closest_to] on the Schumann table, innermost comparison
    first, with the facts of the context. *)
Ltac eval_closest_schumann :=
  unfold closest_to, SCHUMANN_FREQUENCIES; cbn [fold_left];
  repeat match goal with
    | |- context [closer_to ?t ?b ?y] =>
        first [ rewrite (closer_to_take t b y)
                  by (unfold Rabs; repeat destruct Rcase_abs; lra)
              | rewrite (closer_to_keep t b y)
                  by (unfold Rabs; repeat destruct Rcase_abs; lra) ]
    end.

(** X20: from 57 Hz upwards the grid has its weak influence only, whatever
    the planetary alignment and the harmonics of the grid: the nearest
    Schumann frequency is 45 Hz, the integration coefficient
    [c = exp(-|f/45 - 1|)] is below 0.8, and the call returns
    [f * (1 + c * 0.1)], which is at least the input and at most 8 percent
    above it. *)
Theorem integrate_above_schumann_band (self : GridHarmonics) (f : R) :
  57 <= f ->
  let c := exp (- Rabs (f / 45.0 - 1)) in
  closest_to f 0 SCHUMANN_FREQUENCIES = 45.0 /\
  0 <= c < 0.8 /\
  integrate_consciousness_with_grid self f =
    (Ok (f * (1 + c * 0.1)), grid_ready self) /\
  f <= f * (1 + c * 0.1) <= 1.08 * f.
Proof.
  intros Hf c.
  assert (Hbest : closest_to f 0 SCHUMANN_FREQUENCIES = 45.0)
    by (eval_closest_schumann; reflexivity).
  assert (Hfar : 0.25 <= Rabs (f / 45.0 - 1))
    by (unfold Rabs; destruct Rcase_abs; lra).
  pose proof (exp_neg_below_threshold _ Hfar) as Hexp.
  unfold integration_threshold in Hexp. fold c in Hexp.
  assert (Hpos : 0 < c) by apply exp_pos.
  split; [exact Hbest | ]. split; [lra | ]. split.
  - unfold integrate_consciousness_with_grid. fold (grid_ready self).
    rewrite Hbest, py_div_ok by lra. cbn [rbind].
    fold c. rewrite Rleb_false by (unfold integration_threshold; lra).
    reflexivity.
  - split; nra.
Qed.

Lemma integrate_above_schumann_band_witness :
  57 <= 10930.81 /\
  exists v,
    fst (integrate_consciousness_with_grid GridHarmonics_init 10930.81) = Ok v /\
    10930.81 <= v <= 1.08 * 10930.81.
Proof.
  assert (Hf : 57 <= 10930.81) by lra.
  split; [exact Hf | ].
  destruct (integrate_above_schumann_band GridHarmonics_init 10930.81 Hf)
    as (_ & _ & Hrun & Hbounds).
  eexists. split; [rewrite Hrun; reflexivity | exact Hbounds].
Defined.

Lemma grid_harmonics_only_grow_witness :
  rtc grid_step GridHarmonics_init
      (snd (initialize_planetary_grid
              (deactivate_planetary_grid
                 (snd (initialize_planetary_grid GridHarmonics_init))))) /\
  (length (active_harmonics GridHarmonics_init) <=
   length (active_harmonics
             (snd (initialize_planetary_grid
                     (deactivate_planetary_grid
                        (snd (initialize_planetary_grid GridHarmonics_init)))))))%nat.
Proof.
  assert (Hsteps :
    rtc grid_step GridHarmonics_init
        (snd (initialize_planetary_grid
                (deactivate_planetary_grid
                   (snd (initialize_planetary_grid GridHarmonics_init)))))).
  { eapply rtc_l; [apply grid_step_initialize | ].
    eapply rtc_l; [apply grid_step_deactivate | ].
    apply rtc_once. apply grid_step_initialize. }
  split; [exact Hsteps | ].
  exact (proj1 (proj2 (grid_harmonics_only_grow GridHarmonics_init)) _ Hsteps).
Defined.

Lemma dict_index_none {V : Type} (d : list (string * V)) (key : string) :
  dict_index d key = None <-> dict_get d key = None.
Proof.
  induction d as [ | [k v] d IH]; cbn [dict_index dict_get]; [done | ].
  destruct (decide (k = key)); [split; discriminate | ].
  rewrite <- IH. destruct (dict_index d key); cbn; split; done.
Qed.

Lemma dict_index_bound {V : Type} (d : list (string * V)) (key : string)
    (position : nat) :
  dict_index d key = Some position -> (position < length d)%nat.
Proof.
  revert position.
  induction d as [ | [k v] d IH]; intros position; cbn [dict_index length];
    [discriminate | ].
  destruct (decide (k = key)).
  - intros [= <-]. lia.
  - destruct (dict_index d key) as [q | ]; cbn; [ | discriminate].
    intros [= <-]. specialize (IH q eq_refl). lia.
Qed.

Lemma np_index_in_range (n : nat) (i : Z) :
  (0 <= i < Z.of_nat n)%Z -> np_index n i = Some (Z.to_nat i).
Proof. intros Hi. unfold np_index. by rewrite decide_True. Qed.

Lemma np_get_in_range (m : list (list R)) (rows columns : nat) (i j : Z) :
  length m = rows ->
  Forall (fun row => length row = columns) m ->
  (0 <= i < Z.of_nat rows)%Z -> (0 <= j < Z.of_nat columns)%Z ->
  is_Some (np_get m i j).
Proof.
  intros Hrows Hcolumns Hi Hj. unfold np_get.
  rewrite np_index_in_range by lia. cbn.
  destruct (lookup_lt_is_Some_2 m (Z.to_nat i) ltac:(lia)) as [row Hrow].
  rewrite Hrow. cbn.
  assert (Hlen : length row = columns).
  { rewrite Forall_forall in Hcolumns. apply Hcolumns.
    eapply list_elem_of_lookup_2, Hrow. }
  rewrite np_index_in_range by lia. cbn.
  apply lookup_lt_is_Some_2. lia.
Qed.

Lemma synchronize_harmonics_returns (matrix : list (list R)) (column : nat)
    (phase : R) (harmonics : list SchumannHarmonic) :
  length matrix = 7%nat ->
  Forall (fun row => length row = 8%nat) matrix ->
  (column < 8)%nat ->
  Forall (fun h => (1 <= harmonic_order h <= 7)%nat) harmonics ->
  fst (synchronize_harmonics matrix (Z.of_nat column) phase harmonics) =
    SyncReturned true.
Proof.
  intros Hrows Hcolumns Hcolumn Horders.
  induction Horders as [ | h harmonics Hh _ IH]; cbn [synchronize_harmonics];
    [reflexivity | ].
  destruct (np_get_in_range matrix 7 8 (Z.of_nat (harmonic_order h) - 1)
              (Z.of_nat column) Hrows Hcolumns ltac:(lia) ltac:(lia))
    as [strength ->].
  destruct (synchronize_harmonics matrix _ phase harmonics) as [outcome rest].
  exact IH.
Qed.

Lemma same_but_phase_orders (hs hs' : list SchumannHarmonic) :
  Forall2 same_but_phase hs hs' ->
  Forall (fun h => (1 <= harmonic_order h <= 7)%nat) hs ->
  Forall (fun h => (1 <= harmonic_order h <= 7)%nat) hs'.
Proof.
  intros Hsame. induction Hsame as [ | h h' hs hs' (_ & _ & _ & Horder) _ IH];
    intros Hall; [constructor | ].
  inversion Hall as [ | ? ? Hh Hrest]; subst.
  constructor; [rewrite Horder; exact Hh | by apply IH].
Qed.

Lemma initialize_planetary_grid_shape (self : GridHarmonics) :
  grid_shape self -> grid_shape (snd (initialize_planetary_grid self)).
Proof.
  intros (Horders & _ & _). unfold grid_shape.
  cbn [initialize_planetary_grid snd active_harmonics resonance_matrix].
  split; [ | split].
  - apply Forall_app. split; [exact Horders | ].
    eapply Forall_impl; [apply (build_harmonics_orders 0 SCHUMANN_FREQUENCIES) | ].
    intros h. cbn. lia.
  - reflexivity.
  - unfold _calculate_resonance_matrix. apply Forall_map, Forall_forall.
    intros f _. rewrite length_map. reflexivity.
Qed.

Lemma grid_ready_shape (self : GridHarmonics) :
  grid_shape self -> grid_shape (grid_ready self).
Proof.
  intros Hshape. unfold grid_ready.
  destruct (grid_active self); [exact Hshape | ].
  by apply initialize_planetary_grid_shape.
Qed.

Lemma integrate_consciousness_with_grid_snd (self : GridHarmonics) (f : R) :
  snd (integrate_consciousness_with_grid self f) = grid_ready self.
Proof. reflexivity. Qed.

Lemma grid_step_shape (self self' : GridHarmonics) :
  grid_step self self' -> grid_shape self -> grid_shape self'.
Proof.
  intros Hstep Hshape.
  destruct Hstep as [self | self positions | self f | self duration
                    | self planet phase | self].
  - by apply initialize_planetary_grid_shape.
  - apply grid_ready_shape in Hshape. unfold grid_ready in Hshape.
    unfold calculate_planetary_alignment.
    destruct (grid_active self); exact Hshape.
  - rewrite integrate_consciousness_with_grid_snd. by apply grid_ready_shape.
  - apply grid_ready_shape in Hshape. exact Hshape.
  - unfold synchronize_with_planetary_cycle.
    destruct (dict_index PLANETARY_FREQUENCIES planet) as [column | ];
      [ | exact Hshape].
    pose proof (synchronize_harmonics_same (resonance_matrix self)
                  (Z.of_nat column) phase (active_harmonics self)) as Hsame.
    destruct (synchronize_harmonics _ _ _ _) as [outcome hs].
    destruct Hshape as (Horders & Hrows & Hcolumns).
    split; [ | split; assumption].
    eapply same_but_phase_orders; [exact Hsame | exact Horders].
  - destruct Hshape as (Horders & Hrows & Hcolumns).
    split; [ | split; assumption].
    cbn. apply Forall_map. eapply Forall_impl; [exact Horders | ].
    intros h Hh. exact Hh.
Qed.

Lemma grid_reachable_shape (self : GridHarmonics) :
  grid_reachable self -> grid_shape self.
Proof.
  unfold grid_reachable. intros Hsteps.
  assert (Hinit : grid_shape GridHarmonics_init).
  { split; [constructor | ]. split; [reflexivity | ].
    cbn. repeat constructor. }
  induction Hsteps as [ | x y z Hxy _ IH]; [exact Hinit | ].
  apply IH. eapply grid_step_shape; eassumption.
Qed.

(** X21: synchronising with a planetary cycle.  An unknown planet gives
    False and changes nothing.  For a planet of the table the call returns
    True in every state the grid can be in (no index of the resonance
    matrix is out of range), and it changes phases of harmonics only: the
    grid keeps its activity, alignment and matrix, and each harmonic its
    frequency, amplitude, activity and order. *)
Theorem synchronize_with_planetary_cycle_outcome (self : GridHarmonics)
    (planet : string) (cycle_phase : R) :
  grid_reachable self ->
  (dict_get PLANETARY_FREQUENCIES planet = None ->
     synchronize_with_planetary_cycle self planet cycle_phase =
       (SyncReturned false, self)) /\
  (is_Some (dict_get PLANETARY_FREQUENCIES planet) ->
     exists harmonics,
       synchronize_with_planetary_cycle self planet cycle_phase =
         (SyncReturned true,
          {| grid_active := grid_active self;
             planetary_alignment := planetary_alignment self;
             earth_resonance_amplitude := earth_resonance_amplitude self;
             active_harmonics := harmonics;
             resonance_matrix := resonance_matrix self |}) /\
       Forall2 same_but_phase (active_harmonics self) harmonics).
Proof.
  intros Hreach. apply grid_reachable_shape in Hreach.
  destruct Hreach as (Horders & Hrows & Hcolumns).
  unfold synchronize_with_planetary_cycle. split.
  - intros Hnone. apply dict_index_none in Hnone. by rewrite Hnone.
  - intros [freq Hsome].
    destruct (dict_index PLANETARY_FREQUENCIES planet) as [column | ] eqn:Hindex.
    + pose proof (dict_index_bound _ _ _ Hindex) as Hbound.
      change (length PLANETARY_FREQUENCIES) with 8%nat in Hbound.
      pose proof (synchronize_harmonics_returns (resonance_matrix self) column
                    cycle_phase (active_harmonics self)
                    Hrows Hcolumns Hbound Horders) as Hout.
      pose proof (synchronize_harmonics_same (resonance_matrix self)
                    (Z.of_nat column) cycle_phase (active_harmonics self))
        as Hsame.
      destruct (synchronize_harmonics _ _ _ _) as [outcome hs].
      cbn [fst snd] in *. subst outcome. by exists hs.
    + apply dict_index_none in Hindex. congruence.
Qed.

Lemma synchronize_with_planetary_cycle_outcome_witness :
  grid_reachable (snd (initialize_planetary_grid GridHarmonics_init)) /\
  fst (synchronize_with_planetary_cycle
         (snd (initialize_planetary_grid GridHarmonics_init)) "pluto" 0.5) =
    SyncReturned false /\
  fst (synchronize_with_planetary_cycle
         (snd (initialize_planetary_grid GridHarmonics_init)) "earth" 0.5) =
    SyncReturned true.
Proof.
  assert (Hreach : grid_reachable (snd (initialize_planetary_grid GridHarmonics_init))).
  { unfold grid_reachable. apply rtc_once. constructor. }
  split; [exact Hreach | ].
  destruct (synchronize_with_planetary_cycle_outcome
              (snd (initialize_planetary_grid GridHarmonics_init)) "pluto" 0.5
              Hreach) as [Hunknown _].
  destruct (synchronize_with_planetary_cycle_outcome
              (snd (initialize_planetary_grid GridHarmonics_init)) "earth" 0.5
              Hreach) as [_ Hknown].
  split.
  - rewrite Hunknown; reflexivity.
  - destruct Hknown as (hs & -> & _); [by eexists | reflexivity].
Defined.

Lemma Rabs_scaled_sin (a x : R) : Rabs (a * sin x) <= Rabs a.
Proof.
  rewrite Rabs_mult.
  assert (Hsin : Rabs (sin x) <= 1).
  { apply Rabs_le. pose proof (SIN_bound x). lra. }
  pose proof (Rabs_pos a). nra.
Qed.

Lemma earth_amplitude_bound (harmonics : list SchumannHarmonic) (t acc : R) :
  Rabs (fold_left
          (fun amplitude harmonic =>
             if harmonic_active harmonic
             then amplitude +
                  harmonic_amplitude harmonic *
                  sin (2 * PI * harmonic_frequency harmonic * t +
                       harmonic_phase harmonic)
             else amplitude) harmonics acc)
    <= Rabs acc + active_amplitude_sum harmonics.
Proof.
  revert acc.
  induction harmonics as [ | h harmonics IH]; intros acc;
    cbn [fold_left active_amplitude_sum fold_right]; [lra | ].
  fold (active_amplitude_sum harmonics).
  destruct (harmonic_active h); [ | apply IH].
  eapply Rle_trans; [apply IH | ].
  pose proof (Rabs_triang acc
                (harmonic_amplitude h *
                 sin (2 * PI * harmonic_frequency h * t + harmonic_phase h))).
  pose proof (Rabs_scaled_sin (harmonic_amplitude h)
                (2 * PI * harmonic_frequency h * t + harmonic_phase h)).
  lra.
Qed.

Lemma earth_sample_bound (self : GridHarmonics) (t : R) :
  Rabs (earth_sample self t) <=
    active_amplitude_sum (active_harmonics self) *
    Rabs ((1 + planetary_alignment self * 0.2) * earth_resonance_amplitude self).
Proof.
  unfold earth_sample. rewrite Rabs_mult.
  pose proof (earth_amplitude_bound (active_harmonics self) t 0) as Hsum.
  rewrite Rabs_R0, Rplus_0_l in Hsum.
  apply Rmult_le_compat_r; [apply Rabs_pos | exact Hsum].
Qed.

(** X22: the Earth pulse of [n] whole seconds has [100 * n] samples, and a
    duration that is not positive gives none; the call leaves the grid as
    its initialisation check does; every sample stays within the total
    amplitude of the active harmonics, scaled by the alignment modulation
    and the Earth resonance amplitude. *)
Theorem generate_earth_pulse_samples (self : GridHarmonics)
    (duration_seconds : R) :
  let samples := fst (generate_earth_pulse self duration_seconds) in
  let self' := snd (generate_earth_pulse self duration_seconds) in
  self' = grid_ready self /\
  Forall (fun x =>
            Rabs x <=
              active_amplitude_sum (active_harmonics self') *
              Rabs ((1 + planetary_alignment self' * 0.2) *
                    earth_resonance_amplitude self')) samples /\
  (duration_seconds <= 0 -> samples = []) /\
  (forall n : nat, duration_seconds = INR n ->
     length samples = (100 * n)%nat).
Proof.
  cbv zeta. unfold generate_earth_pulse. cbn [fst snd]. fold (grid_ready self).
  split; [reflexivity | ]. split; [ | split].
  - apply Forall_map, Forall_forall. intros i _. apply earth_sample_bound.
  - intros Hd.
    assert (Hint : (py_int (duration_seconds * 100) <= 0)%Z)
      by (apply py_int_nonpositive; lra).
    unfold py_range_int.
    replace (Z.to_nat (py_int (duration_seconds * 100))) with 0%nat by lia.
    reflexivity.
  - intros n ->. rewrite length_map. unfold py_range_int. rewrite length_seq.
    replace (INR n * 100) with (IZR (Z.of_nat n * 100)).
    + rewrite py_int_whole by lia. lia.
    + rewrite mult_IZR, <- INR_IZR_INZ. reflexivity.
Qed.

Lemma generate_earth_pulse_samples_witness :
  length (fst (generate_earth_pulse GridHarmonics_init (INR 2))) = 200%nat /\
  fst (generate_earth_pulse GridHarmonics_init (-1)) = [].
Proof.
  split.
  - exact (proj2 (proj2 (proj2 (generate_earth_pulse_samples
             GridHarmonics_init (INR 2)))) 2%nat eq_refl).
  - apply (proj1 (proj2 (proj2 (generate_earth_pulse_samples
             GridHarmonics_init (-1))))). lra.
Defined.

(** ** phi_scalar.py *)

Lemma phi_scale_zero : phi_scale 0 = Raise ZeroDivisionError.
Proof.
  unfold phi_scale.
  replace (0 / frequency_scalar) with 0 by (unfold Rdiv; lra).
  rewrite Rltb_false by lra. rewrite py_div_zero. reflexivity.
Qed.

Lemma phi_scale_negative (input_frequency : R) :
  input_frequency < 0 ->
  phi_scale input_frequency = Raise (ValueError "math domain error").
Proof.
  intros Hf. pose proof frequency_scalar_pos as Hs. unfold phi_scale.
  assert (Hinv : 0 < / frequency_scalar) by (apply Rinv_0_lt_compat; lra).
  assert (Hratio : input_frequency / frequency_scalar < 0)
    by (unfold Rdiv; nra).
  rewrite Rltb_false by lra.
  rewrite py_div_ok by lra. cbn [rbind].
  rewrite py_log_domain; [reflexivity | ].
  assert (Hneg : / (input_frequency / frequency_scalar) < 0)
    by (apply Rinv_lt_0_compat; exact Hratio).
  unfold Rdiv at 1. lra.
Qed.

(** X23: the phi scalar transformation does not depend on its input: every
    positive frequency is scaled to the scalar frequency itself, so the call
    returns one and the same value for all of them; at frequency 0 it raises
    ZeroDivisionError and below 0 ValueError (the logarithm of a negative
    ratio).  In each case the scalar is left initialised. *)
Theorem apply_phi_scalar_transform_collapses (self : PhiScalar) (f g : R) :
  (0 < f -> 0 < g ->
     apply_phi_scalar_transform self f = apply_phi_scalar_transform self g) /\
  apply_phi_scalar_transform self 0 = (Raise ZeroDivisionError, phi_ready self) /\
  (f < 0 ->
     apply_phi_scalar_transform self f =
       (Raise (ValueError "math domain error"), phi_ready self)).
Proof.
  split; [ | split].
  - intros Hf Hg. by rewrite !apply_phi_scalar_transform_positive.
  - unfold apply_phi_scalar_transform. rewrite phi_scale_zero. reflexivity.
  - intros Hf. unfold apply_phi_scalar_transform.
    rewrite phi_scale_negative by exact Hf. reflexivity.
Qed.

Lemma apply_phi_scalar_transform_collapses_witness :
  apply_phi_scalar_transform PhiScalar_init 7.83 =
    apply_phi_scalar_transform PhiScalar_init 40000 /\
  fst (apply_phi_scalar_transform PhiScalar_init (-100)) =
    Raise (ValueError "math domain error").
Proof.
  split.
  - apply (proj1 (apply_phi_scalar_transform_collapses PhiScalar_init 7.83 40000));
      lra.
  - rewrite (proj2 (proj2 (apply_phi_scalar_transform_collapses
                             PhiScalar_init (-100) 1))) by lra.
    reflexivity.
Defined.

Lemma setup_resonance_field_length (field : list (R * R)) :
  length (_setup_resonance_field field) = length field.
Proof.
  unfold _setup_resonance_field, py_range.
  rewrite length_map, length_seq. lia.
Qed.

Lemma set_resonance_strength_length (layers : list (string * ScalarLayer))
    (position : nat) (strength : R) :
  length (set_resonance_strength layers position strength) = length layers.
Proof. unfold set_resonance_strength. apply length_alter. Qed.

(** X24: unlike the grid and the love field, the phi scalar is rebuilt by
    an initialisation: its state afterwards depends on the size of the
    resonance field only.  So initialising twice is initialising once, and
    an initialisation undoes a deactivation and the resonance strengths a
    synchronisation has written. *)
Theorem initialize_phi_scalar_resets (self : PhiScalar) (target_frequency : R) :
  initialize_phi_scalar (snd (initialize_phi_scalar self)) =
    initialize_phi_scalar self /\
  initialize_phi_scalar (deactivate_phi_scalar self) =
    initialize_phi_scalar self /\
  initialize_phi_scalar (snd (synchronize_with_phi_scalar self target_frequency)) =
    initialize_phi_scalar self /\
  length (phi_harmonics (snd (initialize_phi_scalar self))) = 12%nat /\
  length (scalar_layers (snd (initialize_phi_scalar self))) = 7%nat.
Proof.
  assert (Hfield : forall a b : PhiScalar,
            length (resonance_field a) = length (resonance_field b) ->
            initialize_phi_scalar a = initialize_phi_scalar b).
  { intros a b Hlen. unfold initialize_phi_scalar, _setup_resonance_field.
    by rewrite Hlen. }
  split; [ | split; [ | split; [ | split]]].
  - apply Hfield. cbn [initialize_phi_scalar snd resonance_field].
    apply setup_resonance_field_length.
  - apply Hfield. reflexivity.
  - apply Hfield. unfold synchronize_with_phi_scalar.
    destruct (best_layer_search _ _ _ _) as [[[position layer] distance] | ];
      cbn [snd resonance_field];
      (destruct (scalar_active self);
       [reflexivity | apply setup_resonance_field_length]).
  - reflexivity.
  - reflexivity.
Qed.

Lemma best_layer_search_spec (target_frequency : R)
    (layers : list (string * ScalarLayer)) (position : nat)
    (best : option (nat * ScalarLayer * R)) :
  match best_layer_search target_frequency position layers best with
  | None => best = None /\ layers = []
  | Some (p, layer, distance) =>
      (best = Some (p, layer, distance) \/
       exists name,
         layers !! (p - position)%nat = Some (name, layer) /\
         (position <= p)%nat /\
         distance = layer_distance target_frequency layer) /\
      (forall name' layer', (name', layer') ∈ layers ->
         distance <= layer_distance target_frequency layer') /\
      (forall p0 layer0 distance0, best = Some (p0, layer0, distance0) ->
         distance <= distance0)
  end.
Proof.
  revert position best.
  induction layers as [ | [name layer] layers IH]; intros position best;
    cbn [best_layer_search].
  - destruct best as [[[p l] d] | ]; [ | done].
    split; [by left | ]. split.
    + intros name' layer' Hin. by apply elem_of_nil in Hin.
    + intros p0 layer0 distance0 [= -> -> ->]. lra.
  - fold (layer_distance target_frequency layer).
    set (better := match best with
                   | None => true
                   | Some (_, _, min_distance) =>
                       Rltb (layer_distance target_frequency layer) min_distance
                   end).
    specialize (IH (S position)
                  (if better
                   then Some (position, layer,
                              layer_distance target_frequency layer)
                   else best)).
    destruct (best_layer_search target_frequency (S position) layers _)
      as [[[p l] d] | ].
    + destruct IH as (Hfrom & Hrest & Hbest).
      assert (Hhead : d <= layer_distance target_frequency layer /\
                      forall p0 layer0 distance0,
                        best = Some (p0, layer0, distance0) -> d <= distance0).
      { subst better. destruct best as [[[p0 l0] d0] | ].
        - destruct (Rlt_dec (layer_distance target_frequency layer) d0)
            as [Hlt | Hge].
          + rewrite Rltb_true in Hbest by exact Hlt.
            specialize (Hbest _ _ _ eq_refl). split; [exact Hbest | ].
            intros ? ? ? [= <- <- <-]. lra.
          + rewrite Rltb_false in Hbest by lra.
            specialize (Hbest _ _ _ eq_refl). split; [lra | ].
            intros ? ? ? [= <- <- <-]. exact Hbest.
        - specialize (Hbest _ _ _ eq_refl). split; [exact Hbest | ].
          intros ? ? ? [=]. }
      destruct Hhead as [Hhead Hold].
      split; [ | split; [ | exact Hold]].
      * destruct Hfrom as [Hfrom | (name0 & Hlookup & Hle & Hd)].
        -- destruct better.
           ++ injection Hfrom as <- <- <-. right. exists name.
              rewrite Nat.sub_diag. cbn. split; [reflexivity | ].
              split; [lia | reflexivity].
           ++ by left.
        -- right. exists name0.
           replace (p - position)%nat with (S (p - S position)) by lia.
           cbn. split; [exact Hlookup | ]. split; [lia | exact Hd].
      * intros name' layer' Hin. apply elem_of_cons in Hin.
        destruct Hin as [[= -> ->] | Hin]; [exact Hhead | by eapply Hrest].
    + destruct IH as [Hnone _]. subst better.
      destruct best as [[[p0 l0] d0] | ]; [ | discriminate].
      destruct (Rltb _ d0); discriminate.
Qed.

Lemma initial_scalar_coefficients :
  Forall (fun entry =>
            0 < scalar_coefficient entry.2 <= 1 / GOLDEN_RATIO)
         _initialize_scalar_layers.
Proof.
  unfold _initialize_scalar_layers, py_range.
  apply Forall_map, Forall_forall. intros n Hn. apply elem_of_seq in Hn.
  cbn [snd scalar_coefficient].
  pose proof golden_ratio_gt_1 as Hphi.
  destruct n as [ | n]; [lia | ].
  assert (Hpow : 1 <= GOLDEN_RATIO ^ n) by (apply pow_R1_Rle; lra).
  assert (Hbig : GOLDEN_RATIO <= GOLDEN_RATIO ^ S n) by (simpl; nra).
  unfold Rdiv. rewrite !Rmult_1_l. split.
  - apply Rinv_0_lt_compat. lra.
  - apply Rinv_le_contravar; lra.
Qed.

(** X25: synchronising with the phi scalar.  The call picks the layer whose
    frequency is nearest to the target (no layer of the scalar is nearer),
    returns the target multiplied by that layer's coefficient, and writes
    to that layer a resonance strength above 0 and at most 1, leaving every
    other layer as it was.  When the call has to initialise the scalar, a
    positive target is lowered, to at most the target divided by the golden
    ratio. *)
Theorem synchronize_with_phi_scalar_outcome (self : PhiScalar)
    (target_frequency : R) :
  let ready := phi_ready self in
  let result := fst (synchronize_with_phi_scalar self target_frequency) in
  let self' := snd (synchronize_with_phi_scalar self target_frequency) in
  (scalar_layers ready <> [] ->
   exists position name layer,
     scalar_layers ready !! position = Some (name, layer) /\
     (forall name' layer', (name', layer') ∈ scalar_layers ready ->
        layer_distance target_frequency layer <=
          layer_distance target_frequency layer') /\
     result = target_frequency * scalar_coefficient layer /\
     scalar_layers self' !! position =
       Some (name,
             with_resonance_strength layer
               (1 / (1 + layer_distance target_frequency layer / 100))) /\
     0 < 1 / (1 + layer_distance target_frequency layer / 100) <= 1 /\
     (forall i, i <> position ->
        scalar_layers self' !! i = scalar_layers ready !! i) /\
     phi_harmonics self' = phi_harmonics ready /\
     scalar_active self' = true) /\
  (scalar_active self = false -> 0 < target_frequency ->
   0 < result <= target_frequency / GOLDEN_RATIO).
Proof.
  cbv zeta.
  assert (Hready : scalar_active (phi_ready self) = true).
  { unfold phi_ready. destruct (scalar_active self) eqn:Hact;
      [exact Hact | reflexivity]. }
  unfold synchronize_with_phi_scalar. fold (phi_ready self).
  pose proof (best_layer_search_spec target_frequency
                (scalar_layers (phi_ready self)) 0 None) as Hsearch.
  destruct (best_layer_search target_frequency 0 (scalar_layers (phi_ready self)) None)
    as [[[position layer] distance] | ].
  - destruct Hsearch as ([Hnone | (name & Hlookup & _ & ->)] & Hnearest & _);
      [discriminate | ].
    rewrite Nat.sub_0_r in Hlookup. cbn [fst snd scalar_layers].
    split.
    + intros _. exists position, name, layer.
      split; [exact Hlookup | ]. split; [exact Hnearest | ].
      split; [reflexivity | ]. split; [ | split; [ | split; [ | split]]].
      * unfold set_resonance_strength.
        rewrite list_lookup_alter, decide_True, Hlookup by reflexivity.
        reflexivity.
      * assert (Hdist : 0 <= layer_distance target_frequency layer)
          by apply Rabs_pos.
        assert (Hden : 1 <= 1 + layer_distance target_frequency layer / 100) by lra.
        set (den := 1 + layer_distance target_frequency layer / 100) in *.
        unfold Rdiv. rewrite Rmult_1_l. split.
        -- apply Rinv_0_lt_compat. lra.
        -- rewrite <- Rinv_1. apply Rinv_le_contravar; lra.
      * intros i Hi. unfold set_resonance_strength.
        by rewrite list_lookup_alter_ne.
      * reflexivity.
      * exact Hready.
    + intros Hinactive Htarget.
      unfold phi_ready in Hlookup. rewrite Hinactive in Hlookup.
      cbn [initialize_phi_scalar snd scalar_layers] in Hlookup.
      pose proof initial_scalar_coefficients as Hcoeff.
      rewrite Forall_forall in Hcoeff.
      specialize (Hcoeff (name, layer) (list_elem_of_lookup_2 _ _ _ Hlookup)).
      cbn [snd] in Hcoeff. destruct Hcoeff as [Hpos Hle].
      pose proof golden_ratio_gt_1 as Hphi.
      unfold Rdiv in *. split; nra.
  - destruct Hsearch as [_ Hempty]. cbn [fst snd]. split.
    + intros Hne. contradiction.
    + intros Hinactive _. exfalso.
      unfold phi_ready in Hempty. rewrite Hinactive in Hempty. discriminate.
Qed.

Lemma synchronize_with_phi_scalar_outcome_witness :
  scalar_active PhiScalar_init = false /\ 0 < 432 /\
  0 < fst (synchronize_with_phi_scalar PhiScalar_init 432)
    <= 432 / GOLDEN_RATIO.
Proof.
  assert (Htarget : 0 < 432) by lra.
  split; [reflexivity | ]. split; [exact Htarget | ].
  exact (proj2 (synchronize_with_phi_scalar_outcome PhiScalar_init 432)
           eq_refl Htarget).
Defined.

(** ** gaia_tequmsa_engine.py *)

Section EngineExtras.
Context `{Environment}.

(** The scalar resonance returns on positive frequencies only, and then it
    is 1. *)
Lemma scalar_resonance_outcome (self : PhiScalar) (fa fb : R) :
  match fst (calculate_consciousness_scalar_resonance self fa fb) with
  | Ok r => r = 1 /\ 0 < fa /\ 0 < fb
  | Raise _ => True
  end.
Proof.
  destruct (Rlt_dec 0 fa) as [Ha | Ha].
  2:{ unfold calculate_consciousness_scalar_resonance.
      destruct (apply_phi_scalar_transform_nonpositive self fa ltac:(lra))
        as [e ->]. exact I. }
  destruct (transformed_scalar (phi_ready self)) as [t | e] eqn:Ht.
  2:{ unfold calculate_consciousness_scalar_resonance.
      rewrite (apply_phi_scalar_transform_positive self fa Ha), Ht. exact I. }
  destruct (Rlt_dec 0 fb) as [Hb | Hb].
  2:{ unfold calculate_consciousness_scalar_resonance.
      rewrite (apply_phi_scalar_transform_positive self fa Ha), Ht.
      destruct (apply_phi_scalar_transform_nonpositive (phi_ready self) fb
                  ltac:(lra)) as [e ->]. exact I. }
  destruct (Req_dec_T t 0) as [-> | Hnz].
  - unfold calculate_consciousness_scalar_resonance.
    rewrite (apply_phi_scalar_transform_positive self fa Ha), Ht.
    rewrite (apply_phi_scalar_transform_positive _ fb Hb), phi_ready_idem, Ht.
    cbn [rbind fst]. rewrite py_div_zero. exact I.
  - rewrite (scalar_resonance_positive self fa fb t Ha Hb Ht Hnz).
    cbn [fst]. auto.
Qed.

(** What a [try] block that ran to its end after a granted consent has
    computed. *)
Lemma evolution_pipeline_completed (entity_id : string) (f : R) (w w' : World)
    (d d' : gmap string PyVal) :
  evolution_pipeline entity_id f (w, d) = (Ok tt, (w', d')) ->
  fst (fst (request_biological_consent (sovereignty_protocols w) (clock w)
              entity_id "consciousness_evolution" (f - 10, f + 10))) = true ->
  exists rec sc al v t,
    d' = completed_results d rec sc al
           (fst (calculate_planetary_alignment (grid_harmonics w)
                   SIMULATED_PLANETARY_POSITIONS)) v t 1 /\
    0 < f /\ 0 < v /\ 0 < t /\
    fst (synthesize_consciousness_tech (consciousness_matrix w) f
           "cosmic_integration") = Ok sc /\
    fst (amplify_love_infinite (love_coefficient w) sc 50) = Ok al /\
    sovereignty_protocols w' =
      snd (fst (request_biological_consent (sovereignty_protocols w) (clock w)
                  entity_id "consciousness_evolution" (f - 10, f + 10))) /\
    consciousness_evolution_active (gaia_tequmsa_engine w') = true.
Proof.
  intros Hrun Hgranted.
  destruct w as [sv mx pu lo gr ph en ck]. reduce_world.
  unfold evolution_pipeline, try_bind, on_sovereignty, on_pulse, on_matrix,
    on_love, on_grid, on_phi, on_engine, record in Hrun.
  reduce_world.
  destruct (request_biological_consent sv ck entity_id _ _) as [[consent s] clk].
  cbn [fst] in Hgranted. subst consent. cbn [negb] in Hrun. reduce_world.
  destruct (trigger_consciousness_recognition_total pu f) as [rec Hrec].
  rewrite Hrec in Hrun. reduce_world.
  destruct (synthesize_consciousness_tech mx f _) as [[sc | e] m];
    reduce_world; [ | discriminate].
  destruct (amplify_love_infinite lo sc 50) as [[al | e] l] eqn:Hamp;
    reduce_world; [ | discriminate].
  destruct (calculate_planetary_alignment gr SIMULATED_PLANETARY_POSITIONS)
    as [a g].
  reduce_world.
  destruct (integrate_consciousness_with_grid g f) as [[v | e] g'];
    reduce_world; [ | discriminate].
  destruct (Rlt_dec 0 v) as [Hv | Hv].
  2:{ destruct (apply_phi_scalar_transform_nonpositive ph v ltac:(lra))
        as [e He].
      rewrite He in Hrun. reduce_world. discriminate. }
  rewrite (apply_phi_scalar_transform_positive ph v Hv) in Hrun.
  destruct (transformed_scalar (phi_ready ph)) as [t | e];
    reduce_world; [ | discriminate].
  pose proof (scalar_resonance_outcome (phi_ready ph) f t) as Hres.
  destruct (calculate_consciousness_scalar_resonance (phi_ready ph) f t)
    as [[r | e] p]; reduce_world; [ | discriminate].
  destruct Hres as (-> & Hf & Ht).
  injection Hrun as <- <-.
  exists rec, sc, al, v, t. rewrite Hamp.
  repeat split; assumption || reflexivity.
Qed.

Lemma completed_results_frequencies (d : gmap string PyVal) (rec : bool)
    (s l a g p r : R) :
  float_of (completed_results d rec s l a g p r) "grid_integrated_frequency"
    = Some g /\
  float_of (completed_results d rec s l a g p r) "phi_transformed_frequency"
    = Some p.
Proof. unfold completed_results, float_of. split; by simplify_map_eq. Qed.

Lemma simulated_alignment_at_most_1 (self : GridHarmonics) :
  fst (calculate_planetary_alignment self SIMULATED_PLANETARY_POSITIONS) <= 1.
Proof.
  unfold calculate_planetary_alignment. cbn [fst].
  pose proof (alignment_factors_bounds SIMULATED_PLANETARY_POSITIONS) as Hall.
  destruct (alignment_factors SIMULATED_PLANETARY_POSITIONS) as [ | x xs] eqn:Hfactors.
  - cbn. lra.
  - apply mean_bounds; [discriminate | exact Hall].
Qed.

(** The world on which the [try] block of a call runs. *)
Lemma ready_world_protects (w : World) :
  protects_biological (sovereignty_protocols w) ->
  protects_biological
    (sovereignty_protocols
       (if engine_active (gaia_tequmsa_engine w) then w
        else snd (initialize_engine w))).
Proof.
  intros Hprot. destruct (engine_active (gaia_tequmsa_engine w)); [exact Hprot | ].
  intros _ p Hp. exact Hp.
Qed.

Lemma near_protected_frequency (f : R) :
  -9.5 <= f <= 40 \/ 62 <= f <= 82 ->
  exists p, p ∈ PROTECTED_BIOLOGICAL_FREQUENCIES /\ f - 10 <= p <= f + 10.
Proof.
  intros Hband. unfold PROTECTED_BIOLOGICAL_FREQUENCIES.
  destruct (Rle_dec f 10.5); [exists 0.5 | ].
  2: destruct (Rle_dec f 18); [exists 8.0 | ].
  3: destruct (Rle_dec f 23); [exists 13.0 | ].
  4: destruct (Rle_dec f 40); [exists 30.0 | exists 72.0].
  all: (split; [rewrite !elem_of_cons; auto 10 | lra]).
Qed.

(** X26: the protected frequencies close whole bands to the engine: as the
    requested range is the frequency plus and minus 10 Hz, every call with a
    frequency from -9.5 to 40 Hz or from 62 to 82 Hz is denied, whoever the
    entity is and whatever the engine did before, as long as the protocols
    protect the seven biological constants (they do in every state they
    reach).  The result carries the status, the reason and no error, and the
    entity's record says [denied_protected_frequency]. *)
Theorem evolve_denied_in_protected_bands (w : World) (entity_id : string)
    (f : R) :
  protects_biological (sovereignty_protocols w) ->
  -9.5 <= f <= 40 \/ 62 <= f <= 82 ->
  let res := fst (activate_consciousness_evolution w entity_id f) in
  let w' := snd (activate_consciousness_evolution w entity_id f) in
  status_of res = Some "denied" /\
  res !! "reason" = Some (VStr "biological_consent_denied") /\
  res !! "error" = None /\
  consent_status <$> (consent_protocols (sovereignty_protocols w') !! entity_id)
    = Some denied_protected_frequency /\
  consciousness_evolution_active (gaia_tequmsa_engine w') =
    consciousness_evolution_active (gaia_tequmsa_engine w).
Proof.
  intros Hprot Hband. cbv zeta.
  rewrite activate_consciousness_evolution_unfold. cbv zeta.
  pose proof (ready_world_protects w Hprot) as Hready.
  assert (Hengine : consciousness_evolution_active
            (gaia_tequmsa_engine
               (if engine_active (gaia_tequmsa_engine w) then w
                else snd (initialize_engine w))) =
          consciousness_evolution_active (gaia_tequmsa_engine w)).
  { destruct (engine_active (gaia_tequmsa_engine w)); reflexivity. }
  set (w1 := if engine_active (gaia_tequmsa_engine w) then w
             else snd (initialize_engine w)) in *.
  destruct (near_protected_frequency f Hband) as (p & Hp & Hrange).
  pose proof (request_denied_protected (sovereignty_protocols w1) (S (clock w1))
                entity_id "consciousness_evolution" (f - 10) (f + 10)) as Hdenied.
  unfold denied_for_protected_frequency in Hdenied.
  unfold try_except, evolution_pipeline, try_bind, on_sovereignty, record.
  cbn [sovereignty_protocols set_clock clock].
  destruct (request_biological_consent _ _ _ _ _) as [[consent s] clk].
  destruct Hdenied as [-> Hrecord].
  { exists p. split; [ | exact Hrange].
    by apply consulted_contains_biological. }
  cbn [negb fst snd]. reduce_world.
  split; [unfold status_of; by simplify_map_eq | ].
  split; [by simplify_map_eq | ].
  split; [unfold initial_results; by simplify_map_eq | ].
  split; [exact Hrecord | exact Hengine].
Qed.

(** X27: what a call that ran to its end (status neither [denied] nor
    [error]) tells about its input and its metrics: the frequency was
    positive, the scalar resonance is 1 whatever the frequency (both
    transformed frequencies are the same), the planetary alignment is that
    of the simulated positions, above 0 and at most 1, the integrated and
    the transformed frequency are positive, the entity's consent record is
    [granted] and the engine is marked as evolving. *)
Theorem completed_evolution_metrics (w : World) (entity_id : string) (f : R) :
  let res := fst (activate_consciousness_evolution w entity_id f) in
  let w' := snd (activate_consciousness_evolution w entity_id f) in
  status_of res <> Some "denied" ->
  status_of res <> Some "error" ->
  0 < f /\
  float_of res "scalar_resonance" = Some 1 /\
  (exists a, float_of res "planetary_alignment" = Some a /\ 0 < a <= 1) /\
  (exists v, float_of res "grid_integrated_frequency" = Some v /\ 0 < v) /\
  (exists t, float_of res "phi_transformed_frequency" = Some t /\ 0 < t) /\
  (exists c, consent_protocols (sovereignty_protocols w') !! entity_id = Some c /\
             consent_status c = granted) /\
  consciousness_evolution_active (gaia_tequmsa_engine w') = true.
Proof.
  cbv zeta. rewrite activate_consciousness_evolution_unfold. cbv zeta.
  set (w1 := if engine_active (gaia_tequmsa_engine w) then w
             else snd (initialize_engine w)).
  set (w2 := set_clock w1 (S (clock w1))).
  set (d := initial_results w1 entity_id f).
  unfold try_except.
  destruct (evolution_pipeline entity_id f (w2, d)) as [[[] | e] [w' d']] eqn:Hrun;
    cbn [fst snd].
  2:{ intros _ Herror. exfalso. apply Herror.
      unfold status_of. by simplify_map_eq. }
  intros Hdenied _.
  destruct (fst (fst (request_biological_consent (sovereignty_protocols w2)
                        (clock w2) entity_id "consciousness_evolution"
                        (f - 10, f + 10)))) eqn:Hconsent.
  2:{ destruct (evolution_pipeline_denied entity_id f w2 d Hconsent)
        as (s & clk & Hrun').
      rewrite Hrun' in Hrun. injection Hrun as <- <-.
      exfalso. apply Hdenied. apply denied_results_status. }
  destruct (evolution_pipeline_completed entity_id f w2 w' d d' Hrun Hconsent)
    as (rec & sc & al & v & t & -> & Hf & Hv & Ht & _ & _ & Hsov & Hevolving).
  destruct (completed_results_floats d rec sc al
              (fst (calculate_planetary_alignment (grid_harmonics w2)
                      SIMULATED_PLANETARY_POSITIONS)) v t 1)
    as (_ & _ & Ha & Hr & _).
  destruct (completed_results_frequencies d rec sc al
              (fst (calculate_planetary_alignment (grid_harmonics w2)
                      SIMULATED_PLANETARY_POSITIONS)) v t 1)
    as (Hg & Hp).
  split; [exact Hf | ]. split; [exact Hr | ].
  split.
  { eexists. split; [exact Ha | ]. split.
    - apply simulated_alignment_positive.
    - apply simulated_alignment_at_most_1. }
  split; [by exists v | ]. split; [by exists t | ].
  split; [ | exact Hevolving].
  destruct (request_biological_consent_stored (sovereignty_protocols w2)
              (clock w2) entity_id "consciousness_evolution" (f - 10, f + 10))
    as (c & Hc & _ & Hgranted).
  exists c. rewrite Hsov, Hc. split; [apply lookup_insert_eq | by apply Hgranted].
Qed.

(** X28: the status of a call is always one of six: [denied], [error] or
    one of the four evolution labels; the [failed] of a failed
    initialisation and the initial [processing] are never returned, on any
    state of the engine. *)
Theorem activate_consciousness_evolution_statuses (w : World)
    (entity_id : string) (f : R) :
  exists label,
    status_of (fst (activate_consciousness_evolution w entity_id f)) = Some label /\
    label ∈ ["denied"; "error"; "transcendent_evolution"; "advanced_evolution";
             "moderate_evolution"; "minimal_evolution"] /\
    label <> "failed" /\ label <> "processing".
Proof.
  rewrite activate_consciousness_evolution_unfold. cbv zeta.
  set (w1 := if engine_active (gaia_tequmsa_engine w) then w
             else snd (initialize_engine w)).
  assert (Hlabels : forall label,
            label ∈ ["denied"; "error"; "transcendent_evolution";
                     "advanced_evolution"; "moderate_evolution";
                     "minimal_evolution"] ->
            label <> "failed" /\ label <> "processing").
  { intros label Hin. rewrite !elem_of_cons, elem_of_nil in Hin.
    repeat (destruct Hin as [-> | Hin]; [split; discriminate | ]).
    contradiction. }
  destruct (try_except_status entity_id f (set_clock w1 (S (clock w1)))
              (initial_results w1 entity_id f)) as [Hd | [He | Hdone]].
  - exists "denied". split; [exact Hd | ].
    assert (Hin : "denied" ∈ ["denied"; "error"; "transcendent_evolution";
                              "advanced_evolution"; "moderate_evolution";
                              "minimal_evolution"])
      by (rewrite !elem_of_cons; auto 10).
    split; [exact Hin | by apply Hlabels].
  - exists "error". split; [exact He | ].
    assert (Hin : "error" ∈ ["denied"; "error"; "transcendent_evolution";
                             "advanced_evolution"; "moderate_evolution";
                             "minimal_evolution"])
      by (rewrite !elem_of_cons; auto 10).
    split; [exact Hin | by apply Hlabels].
  - destruct Hdone as (rec & s & l & a & g & p & r & ->).
    rewrite completed_results_status.
    pose proof (evolution_status_label ((s + l / 10 + a + r) / 4)) as Hlabel.
    eexists. split; [reflexivity | ].
    assert (Hin : evolution_status ((s + l / 10 + a + r) / 4) ∈
                  ["denied"; "error"; "transcendent_evolution";
                   "advanced_evolution"; "moderate_evolution";
                   "minimal_evolution"]).
    { apply elem_of_cons. right. apply elem_of_cons. right. exact Hlabel. }
    split; [exact Hin | by apply Hlabels].
Qed.

(** X29: the emergency shutdown.  It revokes every granted consent but
    leaves the sovereignty protocols as active as they were, with their
    violations and protected frequencies; it resets the matrix to its state
    at import and deactivates the four other components without dropping
    any of their layers, harmonics and resonators; the engine keeps its
    integration level and initialisation time.  A second shutdown changes
    nothing. *)
Theorem emergency_shutdown_effect (w : World) :
  let w' := snd (emergency_shutdown w) in
  active_consents (sovereignty_protocols w') = 0%nat /\
  autonomy_active (sovereignty_protocols w') =
    autonomy_active (sovereignty_protocols w) /\
  autonomy_violations (sovereignty_protocols w') =
    autonomy_violations (sovereignty_protocols w) /\
  protected_frequencies (sovereignty_protocols w') =
    protected_frequencies (sovereignty_protocols w) /\
  consciousness_matrix w' = ConsciousnessMatrix_init /\
  (pulse_active (recognition_pulse w') = false /\
   amplification_active (love_coefficient w') = false /\
   grid_active (grid_harmonics w') = false /\
   scalar_active (phi_scalar w') = false /\
   engine_active (gaia_tequmsa_engine w') = false) /\
  (harmonic_resonators (recognition_pulse w') =
     harmonic_resonators (recognition_pulse w) /\
   length (amplification_layers (love_coefficient w')) =
     length (amplification_layers (love_coefficient w)) /\
   length (active_harmonics (grid_harmonics w')) =
     length (active_harmonics (grid_harmonics w)) /\
   length (phi_harmonics (phi_scalar w')) =
     length (phi_harmonics (phi_scalar w)) /\
   length (scalar_layers (phi_scalar w')) =
     length (scalar_layers (phi_scalar w))) /\
  (integration_level (gaia_tequmsa_engine w') =
     integration_level (gaia_tequmsa_engine w) /\
   initialization_time (gaia_tequmsa_engine w') =
     initialization_time (gaia_tequmsa_engine w)) /\
  snd (emergency_shutdown w') = w'.
Proof.
  cbv zeta. unfold emergency_shutdown. reduce_world.
  split; [apply no_granted_no_active_consents, revoke_all_consents_none_granted | ].
  do 3 (split; [reflexivity | ]).
  split; [reflexivity | ].
  split; [repeat split | ].
  split.
  { cbn. rewrite !length_map. repeat split. }
  split; [split; reflexivity | ].
  rewrite revoke_all_consents_idempotent.
  f_equal.
  - unfold deactivate_love_field. cbn. f_equal.
    rewrite map_map. apply map_ext. intros l. reflexivity.
  - unfold deactivate_planetary_grid. cbn. f_equal.
    rewrite map_map. apply map_ext. intros h. reflexivity.
  - unfold deactivate_phi_scalar. cbn. f_equal.
    + rewrite map_map. apply map_ext. intros h. reflexivity.
    + rewrite map_map. apply map_ext. intros [name l]. reflexivity.
Qed.

End EngineExtras.

Lemma evolve_denied_in_protected_bands_witness :
  protects_biological (sovereignty_protocols World_init) /\
  (-9.5 <= 7.83 <= 40 \/ 62 <= 7.83 <= 82) /\
  status_of (fst (activate_consciousness_evolution World_init "human_432hz" 7.83))
    = Some "denied".
Proof.
  assert (Hprot : protects_biological (sovereignty_protocols World_init))
    by exact protects_biological_init.
  assert (Hband : -9.5 <= 7.83 <= 40 \/ 62 <= 7.83 <= 82) by (left; lra).
  split; [exact Hprot | ]. split; [exact Hband | ].
  exact (proj1 (evolve_denied_in_protected_bands World_init "human_432hz" 7.83
                  Hprot Hband)).
Defined.

Lemma completed_evolution_metrics_witness :
  let res := fst (activate_consciousness_evolution World_init "human_432hz" 432) in
  status_of res <> Some "denied" /\
  status_of res <> Some "error" /\
  float_of res "scalar_resonance" = Some 1.
Proof.
  intros res.
  assert (Hstatus : forall label,
            label ∉ ["transcendent_evolution"; "advanced_evolution";
                     "moderate_evolution"; "minimal_evolution"] ->
            status_of res <> Some label).
  { intros label Hlabel. subst res.
    destruct sample_run_at_432_completes as (rec & s & l & a & g & p & r & ->).
    by apply completed_results_not_failed. }
  assert (Hdenied : status_of res <> Some "denied").
  { apply Hstatus. rewrite !elem_of_cons, elem_of_nil. intros Hin.
    repeat (destruct Hin as [Hin | Hin]; [discriminate | ]). exact Hin. }
  assert (Herror : status_of res <> Some "error").
  { apply Hstatus. rewrite !elem_of_cons, elem_of_nil. intros Hin.
    repeat (destruct Hin as [Hin | Hin]; [discriminate | ]). exact Hin. }
  split; [exact Hdenied | ]. split; [exact Herror | ].
  exact (proj1 (proj2 (completed_evolution_metrics World_init "human_432hz" 432
                         Hdenied Herror))).
Defined.
